(** * alertR: sensor polling engine and local option relay

    A shallow embedding of

    - [sensorClientRaspberryPi/lib/sensor.py]: the three Raspberry Pi sensor
      classes ([RaspberryPiGPIOPollingSensor], [RaspberryPiGPIOInterruptSensor],
      [RaspberryPiDS18b20Sensor]) and the polling loop [SensorExecuter.execute];
    - [managerClientDatabase/lib/localServer.py]: [LocalServerSession.handle].

    Python objects are records, attribute assignment is a functional record
    update, integers are [Z], Python floats are binary64 primitive floats.
    Reads of the outside world ([time.time()], [GPIO.input], the socket) are
    explicit arguments of the operation that performs them, and everything an
    operation does to the outside world (threads started, messages handed to an
    [AsynchronousSender], bytes sent on the socket) is returned by it. *)

From Stdlib Require Import ZArith List Bool String Lia Floats.
From Stdlib Require DecimalString.
Import ListNotations.
Local Open Scope Z_scope.

(* ===================================================================== *)
(** * localObjects *)
(* ===================================================================== *)

Module SensorDataType.
(** Modelled from the spec: [localObjects.SensorDataType] is imported by
    sensor.py but its declaration is not among the sources; the data model
    gives [sensorDataType] the three values NONE, INTEGER (here [INT]) and
    FLOAT. *)
Inductive t : Set := NONE | INT | FLOAT.
End SensorDataType.

Module Ordering.
(** Modelled from the spec: [localObjects.Ordering] is imported by sensor.py
    but its declaration is not among the sources; the threshold policy has
    the orderings LT, EQ and GT.  [Other] stands for any value that is none of
    the three, which [RaspberryPiDS18b20Sensor.updateState] handles in its
    final [else] branches. *)
Inductive t : Set := LT | EQ | GT | Other.
End Ordering.

(** The value held in [sensorData]: nothing, an integer or a float. *)
Inductive SensorData : Set :=
| DataNone
| DataInt (z : Z)
| DataFloat (f : float).

(** Optional data of a sensor alert: [None] or a dictionary of strings. *)
Definition OptionalData : Set := option (list (string * string)).

(** Modelled from the spec: the class [localObjects.SensorAlert] is not among
    the sources; the record has the attributes that sensor.py assigns to it,
    which are those of the data model's SensorAlert. *)
Record SensorAlert : Set := mkSensorAlert {
  sa_clientSensorId : Z;
  sa_state : Z;
  sa_hasOptionalData : bool;
  sa_optionalData : OptionalData;
  sa_changeState : bool;
  sa_hasLatestData : bool;
  sa_dataType : SensorDataType.t;
  sa_sensorData : SensorData
}.

(** Modelled from the spec: the class [localObjects.StateChange] is not among
    the sources; the record has the attributes that sensor.py assigns to it,
    which are those of the data model's StateChange. *)
Record StateChange : Set := mkStateChange {
  sc_clientSensorId : Z;
  sc_state : Z;
  sc_dataType : SensorDataType.t;
  sc_sensorData : SensorData
}.

(* ===================================================================== *)
(** * sensor.py: the attributes every sensor has *)
(* ===================================================================== *)

(** [class _PollingSensor]: the attributes set up by its [__init__]. *)
Record _PollingSensor : Set := mkPollingSensor {
  id : Z;
  description : string;
  alertDelay : Z;
  state : Z;
  triggerState : Z;
  alertLevels : list Z;
  triggerAlert : bool;
  triggerAlertNormal : bool;
  sensorDataType : SensorDataType.t;
  sensorData : SensorData;
  hasLatestData : bool;
  changeState : bool;
  hasOptionalData : bool;
  optionalData : OptionalData;
  handlesStateMsgs : bool
}.

(** [self.state = v] *)
Definition set_state (v : Z) (p : _PollingSensor) : _PollingSensor :=
  mkPollingSensor (id p) (description p) (alertDelay p) v (triggerState p)
    (alertLevels p) (triggerAlert p) (triggerAlertNormal p) (sensorDataType p)
    (sensorData p) (hasLatestData p) (changeState p) (hasOptionalData p)
    (optionalData p) (handlesStateMsgs p).

(** [self.sensorData = d] *)
Definition set_sensorData (d : SensorData) (p : _PollingSensor) : _PollingSensor :=
  mkPollingSensor (id p) (description p) (alertDelay p) (state p) (triggerState p)
    (alertLevels p) (triggerAlert p) (triggerAlertNormal p) (sensorDataType p)
    d (hasLatestData p) (changeState p) (hasOptionalData p)
    (optionalData p) (handlesStateMsgs p).

(** What [initializeSensor] assigns to the shared attributes. *)
Definition set_init (st : Z) (latest chg : bool) (p : _PollingSensor) : _PollingSensor :=
  mkPollingSensor (id p) (description p) (alertDelay p) st (triggerState p)
    (alertLevels p) (triggerAlert p) (triggerAlertNormal p) (sensorDataType p)
    (sensorData p) latest chg (hasOptionalData p)
    (optionalData p) (handlesStateMsgs p).

(** What a sensor method reads from the outside world while it runs:
    [int(time.time())] and the level of a GPIO pin. *)
Record World : Type := mkWorld {
  utcTimestamp : Z;
  GPIO_input : Z -> Z
}.

(** The methods every sensor class implements.  [forceSendAlert] and
    [forceSendState] may change the sensor, so they return it. *)
Class PollingSensor (S : Type) : Type := {
  attributes : S -> _PollingSensor;
  getState : S -> Z;
  updateState : World -> S -> S;
  forceSendAlert : World -> S -> option SensorAlert * S;
  forceSendState : World -> S -> option StateChange * S
}.

(* ===================================================================== *)
(** * RaspberryPiGPIOPollingSensor *)
(* ===================================================================== *)

Module GPIOPolling.

Record RaspberryPiGPIOPollingSensor : Set := mk {
  base : _PollingSensor;
  gpioPin : Z;
  currStateCtr : Z;
  thresStateCtr : Z
}.

(** [__init__] followed by the configuration of the pin and the threshold:
    the counter starts at 0. *)
Definition create (p : _PollingSensor) (pin thres : Z) : RaspberryPiGPIOPollingSensor :=
  mk p pin 0 thres.

(** [initializeSensor]: the first read of the pin is the initial state. *)
Definition initializeSensor (w : World) (s : RaspberryPiGPIOPollingSensor)
  : RaspberryPiGPIOPollingSensor * bool :=
  (mk (set_init (GPIO_input w (gpioPin s)) false true (base s))
      (gpioPin s) (currStateCtr s) (thresStateCtr s), true).

Definition getState (s : RaspberryPiGPIOPollingSensor) : Z := state (base s).

(** [updateState], given the value that [GPIO.input(self.gpioPin)] returns. *)
Definition updateState_read (currState : Z) (s : RaspberryPiGPIOPollingSensor)
  : RaspberryPiGPIOPollingSensor :=
  if negb (currState =? state (base s)) then
    let ctr := currStateCtr s + 1 in
    if ctr >=? thresStateCtr s
    then mk (set_state currState (base s)) (gpioPin s) ctr (thresStateCtr s)
    else mk (base s) (gpioPin s) ctr (thresStateCtr s)
  else mk (base s) (gpioPin s) 0 (thresStateCtr s).

Definition updateState (w : World) (s : RaspberryPiGPIOPollingSensor) :=
  updateState_read (GPIO_input w (gpioPin s)) s.

Definition forceSendAlert (w : World) (s : RaspberryPiGPIOPollingSensor)
  : option SensorAlert * RaspberryPiGPIOPollingSensor := (None, s).

Definition forceSendState (w : World) (s : RaspberryPiGPIOPollingSensor)
  : option StateChange * RaspberryPiGPIOPollingSensor := (None, s).

(** Successive calls of [updateState], one per raw read. *)
Definition updateStates (reads : list Z) (s : RaspberryPiGPIOPollingSensor)
  : RaspberryPiGPIOPollingSensor :=
  fold_left (fun s r => updateState_read r s) reads s.

(** The sensor after each of the successive calls. *)
Fixpoint trace (reads : list Z) (s : RaspberryPiGPIOPollingSensor)
  : list RaspberryPiGPIOPollingSensor :=
  match reads with
  | [] => []
  | r :: rest => let s' := updateState_read r s in s' :: trace rest s'
  end.

End GPIOPolling.

#[export] Instance GPIOPolling_PollingSensor
  : PollingSensor GPIOPolling.RaspberryPiGPIOPollingSensor := {
  attributes := GPIOPolling.base;
  getState := GPIOPolling.getState;
  updateState := GPIOPolling.updateState;
  forceSendAlert := GPIOPolling.forceSendAlert;
  forceSendState := GPIOPolling.forceSendState
}.

(* ===================================================================== *)
(** * RaspberryPiGPIOInterruptSensor *)
(* ===================================================================== *)

Module GPIOInterrupt.

Record RaspberryPiGPIOInterruptSensor : Set := mk {
  base : _PollingSensor;
  gpioPin : Z;
  delayBetweenTriggers : Z;
  timeSensorTriggered : Z;
  lastTimeTriggered : Z;
  edge : Z;
  edgeCountBeforeTrigger : Z;
  edgeCounter : Z;
  pulledUpOrDown : Z;
  _internalState : Z
}.

(** [__init__] followed by the configuration.  [lastTimeTriggered] and
    [edgeCounter] start at 0.  [state] and [_internalState] are [None] in
    Python until [initializeSensor] assigns them; the values they have in
    the record before that are never read. *)
Definition create (p : _PollingSensor)
    (pin delay timeTriggered edgeSel edgeCount pulled : Z)
  : RaspberryPiGPIOInterruptSensor :=
  mk p pin delay timeTriggered 0 edgeSel edgeCount 0 pulled 0.

(** [initializeSensor].  [None] stands for the outcomes that do not yield a
    working sensor (the two branches that log a critical error). *)
Definition initializeSensor (s : RaspberryPiGPIOInterruptSensor)
  : option RaspberryPiGPIOInterruptSensor :=
  if (pulledUpOrDown s =? 0) || (pulledUpOrDown s =? 1) then
    if (edge s =? 0) || (edge s =? 1) then
      let normal := 1 - triggerState (base s) in
      Some (mk (set_init normal false true (base s)) (gpioPin s)
               (delayBetweenTriggers s) (timeSensorTriggered s)
               (lastTimeTriggered s) (edge s) (edgeCountBeforeTrigger s)
               (edgeCounter s) (pulledUpOrDown s) normal)
    else None
  else None.

(** [_interruptCallback], given the value of [int(time.time())]. *)
Definition _interruptCallback (utcTimestamp : Z) (s : RaspberryPiGPIOInterruptSensor)
  : RaspberryPiGPIOInterruptSensor :=
  if utcTimestamp - lastTimeTriggered s >? delayBetweenTriggers s then
    mk (base s) (gpioPin s) (delayBetweenTriggers s) (timeSensorTriggered s)
       utcTimestamp (edge s) (edgeCountBeforeTrigger s)
       1 (pulledUpOrDown s) (_internalState s)
  else
    let ctr := edgeCounter s + 1 in
    mk (base s) (gpioPin s) (delayBetweenTriggers s) (timeSensorTriggered s)
       (lastTimeTriggered s) (edge s) (edgeCountBeforeTrigger s)
       ctr (pulledUpOrDown s)
       (if ctr >=? edgeCountBeforeTrigger s
        then triggerState (base s) else _internalState s).

Definition getState (s : RaspberryPiGPIOInterruptSensor) : Z := state (base s).

(** [updateState], given the value of [int(time.time())]. *)
Definition updateState_at (utcTimestamp : Z) (s : RaspberryPiGPIOInterruptSensor)
  : RaspberryPiGPIOInterruptSensor :=
  let internal :=
    if (state (base s) =? triggerState (base s))
       && (utcTimestamp - lastTimeTriggered s >? timeSensorTriggered s)
    then 1 - triggerState (base s)
    else _internalState s in
  mk (set_state internal (base s)) (gpioPin s) (delayBetweenTriggers s)
     (timeSensorTriggered s) (lastTimeTriggered s) (edge s)
     (edgeCountBeforeTrigger s) (edgeCounter s) (pulledUpOrDown s) internal.

Definition updateState (w : World) (s : RaspberryPiGPIOInterruptSensor) :=
  updateState_at (utcTimestamp w) s.

Definition forceSendAlert (w : World) (s : RaspberryPiGPIOInterruptSensor)
  : option SensorAlert * RaspberryPiGPIOInterruptSensor := (None, s).

Definition forceSendState (w : World) (s : RaspberryPiGPIOInterruptSensor)
  : option StateChange * RaspberryPiGPIOInterruptSensor := (None, s).

(** The interrupt callback invoked once per timestamp of the list. *)
Definition callbacks (times : list Z) (s : RaspberryPiGPIOInterruptSensor)
  : RaspberryPiGPIOInterruptSensor :=
  fold_left (fun s t => _interruptCallback t s) times s.

(** The sensor is triggered when its state is its trigger state. *)
Definition triggered (s : RaspberryPiGPIOInterruptSensor) : bool :=
  state (base s) =? triggerState (base s).

(** How many of the states [s0; s1; ...] enter the triggered state, coming
    from [prev]. *)
Fixpoint flips (prev : bool) (l : list bool) : nat :=
  match l with
  | [] => O
  | b :: rest => ((if negb prev && b then 1 else 0) + flips b rest)%nat
  end.

End GPIOInterrupt.

#[export] Instance GPIOInterrupt_PollingSensor
  : PollingSensor GPIOInterrupt.RaspberryPiGPIOInterruptSensor := {
  attributes := GPIOInterrupt.base;
  getState := GPIOInterrupt.getState;
  updateState := GPIOInterrupt.updateState;
  forceSendAlert := GPIOInterrupt.forceSendAlert;
  forceSendState := GPIOInterrupt.forceSendState
}.

(* ===================================================================== *)
(** * RaspberryPiDS18b20Sensor *)
(* ===================================================================== *)

Module DS18b20.

(** [sensorData] and [_sensorData] hold a float: [initializeSensor] fails
    unless the first read gave one, and [_updateData] only ever stores
    floats. *)
Record RaspberryPiDS18b20Sensor : Set := mk {
  base : _PollingSensor;
  sensorFile : string;
  sensorName : string;
  interval : Z;
  lastUpdate : Z;
  hasThreshold : bool;
  threshold : float;
  ordering : Ordering.t;
  refreshInterval : Z;
  lastTemperatureUpdate : Z;
  _sensorData : float
}.

(** [__init__] followed by the configuration: [refreshInterval] is 60 and
    [lastTemperatureUpdate] is 0.  [sensorFile], [lastUpdate] and
    [_sensorData] are [None] in Python until [initializeSensor] assigns them;
    the values they have in the record before that are never read. *)
Definition create (p : _PollingSensor) (name : string) (interval : Z)
    (hasThreshold : bool) (threshold : float) (ordering : Ordering.t)
  : RaspberryPiDS18b20Sensor :=
  mk p EmptyString name interval 0 hasThreshold threshold ordering 60 0 0%float.

Definition set_base (b : _PollingSensor) (s : RaspberryPiDS18b20Sensor) :=
  mk b (sensorFile s) (sensorName s) (interval s) (lastUpdate s)
     (hasThreshold s) (threshold s) (ordering s) (refreshInterval s)
     (lastTemperatureUpdate s) (_sensorData s).

Definition set_lastTemperatureUpdate (t : Z) (s : RaspberryPiDS18b20Sensor) :=
  mk (base s) (sensorFile s) (sensorName s) (interval s) (lastUpdate s)
     (hasThreshold s) (threshold s) (ordering s) (refreshInterval s)
     t (_sensorData s).

Definition set_lastUpdate (t : Z) (s : RaspberryPiDS18b20Sensor) :=
  mk (base s) (sensorFile s) (sensorName s) (interval s) t
     (hasThreshold s) (threshold s) (ordering s) (refreshInterval s)
     (lastTemperatureUpdate s) (_sensorData s).

(** [_updateData], given what parsing the sensor file yields: the
    temperature, or [None] when the file cannot be read or parsed. *)
Definition _updateData (parsed : option float) (s : RaspberryPiDS18b20Sensor) :=
  match parsed with
  | Some temp =>
      mk (base s) (sensorFile s) (sensorName s) (interval s) (lastUpdate s)
         (hasThreshold s) (threshold s) (ordering s) (refreshInterval s)
         (lastTemperatureUpdate s) temp
  | None => s
  end.

(** [initializeSensor]: the first read is blocking.  [None] is the result
    [False] (no data, or data that Python counts as false: zero). *)
Definition initializeSensor (utcTimestamp : Z) (parsed : option float)
    (s : RaspberryPiDS18b20Sensor) : option RaspberryPiDS18b20Sensor :=
  match parsed with
  | None => None
  | Some temp =>
      if (temp =? 0)%float then None
      else
        let p := base s in
        let p' :=
          mkPollingSensor (id p) (description p) (alertDelay p)
            (1 - triggerState p) (triggerState p) (alertLevels p)
            (triggerAlert p) (triggerAlertNormal p) (sensorDataType p)
            (DataFloat temp) true true true
            (Some [("sensorName"%string, sensorName s)])
            (handlesStateMsgs p) in
        Some (mk p' ("/sys/bus/w1/devices/" ++ sensorName s ++ "/w1_slave")%string
                 (sensorName s) (interval s) utcTimestamp
                 (hasThreshold s) (threshold s) (ordering s) (refreshInterval s)
                 utcTimestamp temp)
  end.

Definition getState (s : RaspberryPiDS18b20Sensor) : Z := state (base s).

(** The threshold check of [updateState]: the new value of [state]. *)
Definition checkThreshold (st trig : Z) (ord : Ordering.t) (data thr : float) : Z :=
  if st =? trig then
    match ord with
    | Ordering.LT => if (thr <=? data)%float then 1 - trig else st
    | Ordering.EQ => if negb (data =? thr)%float then 1 - trig else st
    | Ordering.GT => if (data <=? thr)%float then 1 - trig else st
    | Ordering.Other => st
    end
  else
    match ord with
    | Ordering.LT => if (data <? thr)%float then trig else st
    | Ordering.EQ => if (data =? thr)%float then trig else st
    | Ordering.GT => if (thr <? data)%float then trig else st
    | Ordering.Other => st
    end.

(** [updateState], given the value of [int(time.time())].  The boolean tells
    whether the call started a thread running [_updateData]. *)
Definition updateState_at (utcTimestamp : Z) (s : RaspberryPiDS18b20Sensor)
  : RaspberryPiDS18b20Sensor * bool :=
  let refresh := utcTimestamp - lastTemperatureUpdate s >? interval s in
  let s1 := if refresh then set_lastTemperatureUpdate utcTimestamp s else s in
  let data := _sensorData s1 in
  let p := set_sensorData (DataFloat data) (base s1) in
  let p' :=
    if hasThreshold s1
    then set_state (checkThreshold (state p) (triggerState p) (ordering s1)
                      data (threshold s1)) p
    else p in
  (set_base p' s1, refresh).

Definition updateState (w : World) (s : RaspberryPiDS18b20Sensor) :=
  fst (updateState_at (utcTimestamp w) s).

Definition forceSendAlert (w : World) (s : RaspberryPiDS18b20Sensor)
  : option SensorAlert * RaspberryPiDS18b20Sensor := (None, s).

Definition forceSendState_at (utcTimestamp : Z) (s : RaspberryPiDS18b20Sensor)
  : option StateChange * RaspberryPiDS18b20Sensor :=
  if utcTimestamp - lastUpdate s >? interval s then
    let p := base s in
    (Some (mkStateChange (id p)
             (if state p =? triggerState p then 1 else 0)
             (sensorDataType p) (sensorData p)),
     set_lastUpdate utcTimestamp s)
  else (None, s).

Definition forceSendState (w : World) (s : RaspberryPiDS18b20Sensor) :=
  forceSendState_at (utcTimestamp w) s.

(** Successive calls of [updateState] at the given timestamps: the
    timestamps of the calls that started a refresh thread, and the sensor
    at the end.  (A refresh thread that completes between two calls would
    change [_sensorData] only, which the refresh test does not read.) *)
Fixpoint refreshes (times : list Z) (s : RaspberryPiDS18b20Sensor) : list Z :=
  match times with
  | [] => []
  | t :: rest =>
      let '(s', started) := updateState_at t s in
      if started then t :: refreshes rest s' else refreshes rest s'
  end.

End DS18b20.

#[export] Instance DS18b20_PollingSensor
  : PollingSensor DS18b20.RaspberryPiDS18b20Sensor := {
  attributes := DS18b20.base;
  getState := DS18b20.getState;
  updateState := DS18b20.updateState;
  forceSendAlert := DS18b20.forceSendAlert;
  forceSendState := DS18b20.forceSendState
}.

(* ===================================================================== *)
(** * SensorExecuter *)
(* ===================================================================== *)

Module SensorExecuter.

(** An [AsynchronousSender] that [execute] creates and starts, by the flag
    set on it and the object it is given. *)
Inductive AsynchronousSender : Set :=
| sendSensorAlert (sensorAlert : SensorAlert)
| sendStateChange (stateChange : StateChange)
| sendSensorsState.

Definition is_sendSensorsState (a : AsynchronousSender) : bool :=
  match a with sendSensorsState => true | _ => false end.

(** The [SensorAlert] that the polling loop builds from a sensor. *)
Definition newSensorAlert (st : Z) (p : _PollingSensor) : SensorAlert :=
  mkSensorAlert (id p) st (hasOptionalData p) (optionalData p)
    (changeState p) (hasLatestData p) (sensorDataType p) (sensorData p).

(** The [StateChange] that the polling loop builds from a sensor. *)
Definition newStateChange (st : Z) (p : _PollingSensor) : StateChange :=
  mkStateChange (id p) st (sensorDataType p) (sensorData p).

(** The part of one iteration of the first [for] loop that follows a
    [forceSendAlert()] without result: the chain of [elif]s on the state
    known before and after [updateState()]. *)
Definition stateTransition (oldState currentState : Z) (p : _PollingSensor)
  : list AsynchronousSender :=
  if oldState =? currentState then []
  else if handlesStateMsgs p then []
  else if currentState =? triggerState p then
    if triggerAlert p
    then [sendSensorAlert (newSensorAlert 1 p)]
    else [sendStateChange (newStateChange 1 p)]
  else
    if triggerAlertNormal p
    then [sendSensorAlert (newSensorAlert 0 p)]
    else [sendStateChange (newStateChange 0 p)].

(** What one iteration of the first [for] loop leaves behind: the sensor,
    the local variables [oldState] and [currentState], and the senders it
    started. *)
Record Polled (S : Type) : Type := mkPolled {
  sensor : S;
  oldState : Z;
  currentState : Z;
  started : list AsynchronousSender
}.
Arguments mkPolled {S}.
Arguments sensor {S}.
Arguments oldState {S}.
Arguments currentState {S}.
Arguments started {S}.

Section Execute.
Context {S : Type} `{PollingSensor S}.

(** One iteration of [for sensor in self.sensors] (the polling loop).
    A [SensorAlert] object is true in [if sensorAlert:], [None] is not. *)
Definition pollSensor (w : World) (s : S) : Polled S :=
  let old := getState s in
  let s1 := updateState w s in
  let current := getState s1 in
  match forceSendAlert w s1 with
  | (Some sensorAlert, s2) =>
      mkPolled s2 current current [sendSensorAlert sensorAlert]
  | (None, s2) =>
      mkPolled s2 old current (stateTransition old current (attributes s2))
  end.

(** The polling loop over all sensors; [w i] is the world as the sensor
    at position [i] sees it. *)
Fixpoint pollSensors (w : nat -> World) (i : nat) (sensors : list S)
  : list S * list AsynchronousSender :=
  match sensors with
  | [] => ([], [])
  | s :: rest =>
      let r := pollSensor (w i) s in
      let '(rest', evs) := pollSensors w (Datatypes.S i) rest in
      (sensor r :: rest', started r ++ evs)
  end.

(** One iteration of the second [for] loop. *)
Definition forceState (w : World) (s : S) : S * list AsynchronousSender :=
  match forceSendState w s with
  | (Some stateChange, s') => (s', [sendStateChange stateChange])
  | (None, s') => (s', [])
  end.

Fixpoint forceStates (w : nat -> World) (i : nat) (sensors : list S)
  : list S * list AsynchronousSender :=
  match sensors with
  | [] => ([], [])
  | s :: rest =>
      let '(s', evs) := forceState (w i) s in
      let '(rest', evs') := forceStates w (Datatypes.S i) rest in
      (s' :: rest', evs ++ evs')
  end.

(** The end of the loop body: the full state is sent when the last one is
    older than 60 seconds.  Returns the new [lastFullStateSent]. *)
Definition fullState (utcTimestamp lastFullStateSent : Z)
  : Z * list AsynchronousSender :=
  if utcTimestamp - lastFullStateSent >? 60
  then (utcTimestamp, [sendSensorsState])
  else (lastFullStateSent, []).

(** What one pass through [while True] observes. *)
Record Cycle : Type := mkCycle {
  isConnected : bool;
  pollWorld : nat -> World;
  forceWorld : nat -> World;
  now : Z
}.

(** The variables that live across passes. *)
Record Executer : Type := mkExecuter {
  sensors : list S;
  lastFullStateSent : Z
}.

(** One pass through the body of [while True]. *)
Definition cycle (c : Cycle) (e : Executer) : Executer * list AsynchronousSender :=
  if negb (isConnected c) then (e, [])
  else
    let '(ss1, evs1) := pollSensors (pollWorld c) O (sensors e) in
    let '(ss2, evs2) := forceStates (forceWorld c) O ss1 in
    let '(last, evs3) := fullState (now c) (lastFullStateSent e) in
    (mkExecuter ss2 last, evs1 ++ evs2 ++ evs3).

(** Successive passes: the senders started in each of them. *)
Fixpoint passes (cs : list Cycle) (e : Executer) : list (list AsynchronousSender) :=
  match cs with
  | [] => []
  | c :: rest => let '(e', evs) := cycle c e in evs :: passes rest e'
  end.

(** [execute]: [lastFullStateSent] starts at 0. *)
Definition execute (cs : list Cycle) (ss : list S) : list (list AsynchronousSender) :=
  passes cs (mkExecuter ss 0).

(** Whether a pass started the sender of the full sensor state. *)
Definition sentFullState (evs : list AsynchronousSender) : bool :=
  existsb is_sendSensorsState evs.

(** The timestamps of the passes of [execute] that sent the full state. *)
Fixpoint fullStateTimes (cs : list Cycle) (evss : list (list AsynchronousSender))
  : list Z :=
  match cs, evss with
  | c :: cs', evs :: evss' =>
      if sentFullState evs then now c :: fullStateTimes cs' evss'
      else fullStateTimes cs' evss'
  | _, _ => []
  end.

End Execute.

End SensorExecuter.

(* ===================================================================== *)
(** * localServer.py: LocalServerSession *)
(* ===================================================================== *)

Module LocalServer.

#[local] Set Warnings "-register-all".

(** A value that [json.loads] returns, or that [json.dumps] is given. *)
Inductive json : Set :=
| JNull
| JBool (b : bool)
| JInt (z : Z)
| JFloat (f : float)
| JString (s : string)
| JArray (l : list json)
| JObject (items : list (string * json)).

(** The exceptions that the statements of [handle] can raise. *)
Inductive exn : Set :=
| ValueError
| KeyError
| TypeError
| UnboundLocalError
| UnicodeEncodeError
| SocketError.

(** How a block of statements ends: it falls through with a value, it
    executes [return], or it raises. *)
Inductive completion (A : Type) : Type :=
| Normal (a : A)
| Return
| Raise (e : exn).
Arguments Normal {A}.
Arguments Return {A}.
Arguments Raise {A}.

(** What the statements of [handle] act on: the messages sent on the
    socket so far (latest first), and the local variable [incomingMessage],
    which is unbound ([None]) until it is assigned. *)
Record Frame : Set := mkFrame {
  sent : list json;
  incomingMessage : option json
}.

Definition M (A : Type) : Type := Frame -> Frame * completion A.

Definition ret {A} (a : A) : M A := fun fr => (fr, Normal a).

Definition bind {A B} (c : M A) (k : A -> M B) : M B :=
  fun fr =>
    match c fr with
    | (fr', Normal a) => k a fr'
    | (fr', Return) => (fr', Return)
    | (fr', Raise e) => (fr', Raise e)
    end.

Definition raise {A} (e : exn) : M A := fun fr => (fr, Raise e).

(** The statement [return]. *)
Definition return_ {A} : M A := fun fr => (fr, Return).

(** [try: body except Exception as e: handler] *)
Definition try_except {A} (body : M A) (handler : exn -> M A) : M A :=
  fun fr =>
    match body fr with
    | (fr', Raise e) => handler e fr'
    | r => r
    end.

(** [try: body except Exception as e: pass] *)
Definition try_pass (body : M unit) : M unit :=
  try_except body (fun _ => ret tt).

(** A library call that either gives a value or raises [e]. *)
Definition orRaise {A} (e : exn) (o : option A) : M A :=
  match o with
  | Some a => ret a
  | None => raise e
  end.

Declare Scope handler_scope.
Delimit Scope handler_scope with handler.
Notation "x <- c ;; k" := (bind c (fun x => k))
  (at level 61, c at next level, right associativity) : handler_scope.
Notation "c ;; k" := (bind c (fun _ => k))
  (at level 61, right associativity) : handler_scope.
Local Open Scope handler_scope.
Local Open Scope string_scope.

(** [incomingMessage = j] *)
Definition assign_incomingMessage (j : json) : M unit :=
  fun fr => (mkFrame (sent fr) (Some j), Normal tt).

(** Reading the local variable [incomingMessage]. *)
Definition read_incomingMessage : M json :=
  fun fr =>
    match incomingMessage fr with
    | Some j => (fr, Normal j)
    | None => (fr, Raise UnboundLocalError)
    end.

Fixpoint lookup (key : string) (items : list (string * json)) : option json :=
  match items with
  | [] => None
  | (k, v) :: rest => if String.eqb k key then Some v else lookup key rest
  end.

(** [obj[key]] for a string [key]: only a dictionary that has the key
    answers. *)
Definition getitem (obj : json) (key : string) : M json :=
  match obj with
  | JObject items => orRaise KeyError (lookup key items)
  | _ => raise TypeError
  end.

(** [v != text] for a string literal [text]. *)
Definition differs (v : json) (text : string) : bool :=
  match v with
  | JString s => negb (String.eqb s text)
  | _ => true
  end.

Section Handle.

(** The Python library and the collaborators of the session:
    - [json_loads data]: the parsed message, or [None] for [ValueError];
    - [py_str], [py_float], [py_int]: the conversions [str()], [float()]
      and [int()] of a parsed value, [None] when they raise;
    - [time_time]: the value of [int(time.time())];
    - [request_send]: whether [self.request.send] succeeds; when it does
      not it raises;
    - [sendOption]: the result of [self.serverComm.sendOption], for a call
      that returns ([LocalServerSession] below has the call that raises). *)
Variable json_loads : string -> option json.
Variable py_str : json -> option string.
Variable py_float : json -> option float.
Variable py_int : json -> option Z.
Variable time_time : Z.
Variable request_send : json -> bool.
Variable sendOption : string -> float -> Z -> bool.

(** [self.request.send(json.dumps(message))] *)
Definition send (message : json) : M unit :=
  fun fr =>
    if request_send message
    then (mkFrame (message :: sent fr) (incomingMessage fr), Normal tt)
    else (fr, Raise SocketError).

(** [incomingMessage["message"]] *)
Definition incoming_message_tag : M json :=
  im <- read_incomingMessage ;; getitem im "message".

(** The error messages: the [try] block that builds the dictionary and
    sends it, with [except Exception: pass]. *)
Definition send_error (reason : string) : M unit :=
  try_pass (
    tag <- incoming_message_tag ;;
    send (JObject [("serverTime", JInt time_time);
                   ("message", tag);
                   ("error", JString reason)])).

(** The three reads and conversions of the payload. *)
Definition extract_option : M (string * float * Z) :=
  im <- read_incomingMessage ;;
  payload <- getitem im "payload" ;;
  t <- getitem payload "optionType" ;;
  optionType <- orRaise UnicodeEncodeError (py_str t) ;;
  im <- read_incomingMessage ;;
  payload <- getitem im "payload" ;;
  v <- getitem payload "value" ;;
  optionValue <- orRaise TypeError (py_float v) ;;
  im <- read_incomingMessage ;;
  payload <- getitem im "payload" ;;
  d <- getitem payload "timeDelay" ;;
  optionDelay <- orRaise TypeError (py_int d) ;;
  ret (optionType, optionValue, optionDelay).

(** The body of [handle] after [self.request.recv] has returned [data],
    with a [sendOption] that returns. *)
Definition handle_body (data : string) : M unit :=
  try_except
    (j <- orRaise ValueError (json_loads data) ;;
     assign_incomingMessage j ;;
     tag <- incoming_message_tag ;;
     if differs tag "option"
     then send_error "only option message valid" ;; return_
     else ret tt)
    (fun _ => send_error "received json message invalid" ;; return_) ;;
  opt <- try_except extract_option
           (fun _ => send_error "received attributes invalid" ;; return_) ;;
  let '(optionType, optionValue, optionDelay) := opt in
  if negb (String.eqb optionType "alertSystemActive")
  then send_error "only option type 'alertSystemActive' allowed" ;; return_
  else
    if sendOption optionType optionValue optionDelay
    then
      try_pass (
        tag <- incoming_message_tag ;;
        send (JObject [("serverTime", JInt time_time);
                       ("message", tag);
                       ("payload", JObject [("type", JString "response");
                                            ("result", JString "ok")])])) ;;
      return_
    else send_error "sending message to server failed" ;; return_.

(** [handle]: the messages sent to the client, in the order sent, and how
    the method ended. *)
Definition handle (data : string) : list json * completion unit :=
  let '(fr, c) := handle_body data (mkFrame [] None) in
  (rev (sent fr), c).

(** The response for a request that went through. *)
Definition ok_response : json :=
  JObject [("serverTime", JInt time_time);
           ("message", JString "option");
           ("payload", JObject [("type", JString "response");
                                ("result", JString "ok")])].

(** An error response: a dictionary with [serverTime], [message] and a
    reason under [error]. *)
Definition error_response (tag : json) (reason : string) : json :=
  JObject [("serverTime", JInt time_time);
           ("message", tag);
           ("error", JString reason)].

End Handle.

End LocalServer.

(* ===================================================================== *)
(** * Runs of the operations, and sample configurations *)
(* ===================================================================== *)

(** Successive calls of [RaspberryPiGPIOInterruptSensor.updateState] at the
    given timestamps: the sensor after each call. *)
Fixpoint interruptUpdates (times : list Z)
    (s : GPIOInterrupt.RaspberryPiGPIOInterruptSensor)
  : list GPIOInterrupt.RaspberryPiGPIOInterruptSensor :=
  match times with
  | [] => []
  | t :: rest =>
      let s' := GPIOInterrupt.updateState_at t s in
      s' :: interruptUpdates rest s'
  end.

(** The full-state timer of [SensorExecuter.execute] on its own: the
    timestamps, among those of successive connected passes, at which the full
    state is sent. *)
Fixpoint timerRun (lastFullStateSent : Z) (times : list Z) : list Z :=
  match times with
  | [] => []
  | t :: rest =>
      if t - lastFullStateSent >? 60
      then t :: timerRun t rest
      else timerRun lastFullStateSent rest
  end.

(** Timestamps that never go back and advance by at most [g] from one to the
    next, starting from [prev]. *)
Fixpoint paced (g prev : Z) (times : list Z) : Prop :=
  match times with
  | [] => True
  | t :: rest => prev <= t <= prev + g /\ paced g t rest
  end.

(** Consecutive elements are more than [d] apart. *)
Fixpoint spaced (d : Z) (times : list Z) : Prop :=
  match times with
  | t :: ((t' :: _) as rest) => t' - t > d /\ spaced d rest
  | _ => True
  end.

(** A sensor class that is not one of the three above: it takes the reading
    of its pin as its state and asks for the sensor alert and state change it
    holds.  It exercises the two hooks that the three classes leave unused. *)
Module Scripted.

Record ScriptedSensor : Set := mk {
  base : _PollingSensor;
  gpioPin : Z;
  alert : option SensorAlert;
  change : option StateChange
}.

Definition getState (s : ScriptedSensor) : Z := state (base s).

Definition updateState (w : World) (s : ScriptedSensor) : ScriptedSensor :=
  mk (set_state (GPIO_input w (gpioPin s)) (base s)) (gpioPin s) (alert s) (change s).

Definition forceSendAlert (w : World) (s : ScriptedSensor)
  : option SensorAlert * ScriptedSensor := (alert s, s).

Definition forceSendState (w : World) (s : ScriptedSensor)
  : option StateChange * ScriptedSensor := (change s, s).

End Scripted.

#[export] Instance Scripted_PollingSensor : PollingSensor Scripted.ScriptedSensor := {
  attributes := Scripted.base;
  getState := Scripted.getState;
  updateState := Scripted.updateState;
  forceSendAlert := Scripted.forceSendAlert;
  forceSendState := Scripted.forceSendState
}.

Module Sample.

(** A sensor with id 7, normal at 0 and triggered at 1. *)
Definition attrs (alertTriggered alertNormal handles : bool) : _PollingSensor :=
  mkPollingSensor 7 "door"%string 0 0 1 [1] alertTriggered alertNormal
    SensorDataType.NONE DataNone false true false None handles.

(** Every pin reads [level] and the clock reads [t]. *)
Definition world (t level : Z) : World := mkWorld t (fun _ => level).

(** A polling sensor on pin 11 that wants 3 reads, initialised while the pin
    reads 0. *)
Definition polling : GPIOPolling.RaspberryPiGPIOPollingSensor :=
  fst (GPIOPolling.initializeSensor (world 1000 0)
         (GPIOPolling.create (attrs true false false) 11 3)).

(** An interrupt sensor on pin 13: 5 seconds between triggers, triggered
    for 10 seconds, and [edges] edges before it triggers. *)
Definition interruptConfig (edges : Z) : GPIOInterrupt.RaspberryPiGPIOInterruptSensor :=
  GPIOInterrupt.create (attrs true false false) 13 5 10 1 edges 1.

Definition interrupt (edges : Z) : GPIOInterrupt.RaspberryPiGPIOInterruptSensor :=
  match GPIOInterrupt.initializeSensor (interruptConfig edges) with
  | Some s => s
  | None => interruptConfig edges
  end.

(** A temperature sensor reporting every 10 seconds, triggered above 30
    degrees, initialised at time 1000 with a reading of 21.5 degrees. *)
Definition thermometerConfig : DS18b20.RaspberryPiDS18b20Sensor :=
  DS18b20.create
    (mkPollingSensor 8 "temperature"%string 0 0 1 [1] true true
       SensorDataType.FLOAT DataNone false true false None false)
    "28-000005e2fdc3"%string 10 true 30%float Ordering.GT.

Definition thermometer : DS18b20.RaspberryPiDS18b20Sensor :=
  match DS18b20.initializeSensor 1000 (Some 21.5%float) thermometerConfig with
  | Some s => s
  | None => thermometerConfig
  end.

(** The thermometer holding the reading [temp] in the state [st]. *)
Definition thermometerAt (st : Z) (temp : float) : DS18b20.RaspberryPiDS18b20Sensor :=
  DS18b20._updateData (Some temp)
    (DS18b20.set_base (set_state st (DS18b20.base thermometer)) thermometer).

(** A forced alert of sensor 7. *)
Definition forced : SensorAlert :=
  mkSensorAlert 7 1 false None false false SensorDataType.NONE DataNone.

Definition scripted (handles : bool) (a : option SensorAlert)
  : Scripted.ScriptedSensor :=
  Scripted.mk (attrs true true handles) 11 a None.

(** Connected passes of the executer, two per second from second [from] on,
    [seconds] seconds long. *)
Definition ticks (from : Z) (seconds : nat) : list Z :=
  flat_map (fun k => [from + Z.of_nat k; from + Z.of_nat k]) (seq 0 seconds).

Definition connectedPass (t : Z) : SensorExecuter.Cycle :=
  SensorExecuter.mkCycle true (fun _ => world t 0) (fun _ => world t 0) t.

(** A stand-in for the Python library on the texts used below: the text
    [request] parses to a well-formed option message, any other text is
    rejected by [json.loads]. *)
Definition optionRequest : LocalServer.json :=
  LocalServer.JObject
    [("message"%string, LocalServer.JString "option");
     ("payload"%string,
      LocalServer.JObject
        [("optionType"%string, LocalServer.JString "alertSystemActive");
         ("value"%string, LocalServer.JFloat 1%float);
         ("timeDelay"%string, LocalServer.JInt 0)])].

Definition json_loads (data : string) : option LocalServer.json :=
  if String.eqb data "request"%string then Some optionRequest else None.

Definition py_str (j : LocalServer.json) : option string :=
  match j with LocalServer.JString s => Some s | _ => Some "?"%string end.

Definition py_float (j : LocalServer.json) : option float :=
  match j with
  | LocalServer.JFloat f => Some f
  | _ => None
  end.

Definition py_int (j : LocalServer.json) : option Z :=
  match j with LocalServer.JInt z => Some z | _ => None end.

End Sample.

(* ===================================================================== *)
(** * Histories of single sensors *)
(* ===================================================================== *)

(** What happens to an interrupt sensor, one event after the other: the GPIO
    library invokes [_interruptCallback], or the polling loop calls
    [updateState]; each with the value of [int(time.time())] it sees. *)
Inductive InterruptEvent : Set :=
| Edge (utcTimestamp : Z)
| Poll (utcTimestamp : Z).

Definition interruptStep (e : InterruptEvent)
    (s : GPIOInterrupt.RaspberryPiGPIOInterruptSensor)
  : GPIOInterrupt.RaspberryPiGPIOInterruptSensor :=
  match e with
  | Edge t => GPIOInterrupt._interruptCallback t s
  | Poll t => GPIOInterrupt.updateState_at t s
  end.

Definition interruptRun (es : list InterruptEvent)
    (s : GPIOInterrupt.RaspberryPiGPIOInterruptSensor)
  : GPIOInterrupt.RaspberryPiGPIOInterruptSensor :=
  fold_left (fun s e => interruptStep e s) es s.

(** What happens to a temperature sensor, one event after the other: a
    refresh thread finishes [_updateData] with what it parsed, the polling
    loop calls [updateState], or it calls [forceSendState]. *)
Inductive ThermometerEvent : Set :=
| Refreshed (parsed : option float)
| Updated (utcTimestamp : Z)
| Asked (utcTimestamp : Z).

Definition thermometerStep (e : ThermometerEvent)
    (s : DS18b20.RaspberryPiDS18b20Sensor) : DS18b20.RaspberryPiDS18b20Sensor :=
  match e with
  | Refreshed parsed => DS18b20._updateData parsed s
  | Updated t => fst (DS18b20.updateState_at t s)
  | Asked t => snd (DS18b20.forceSendState_at t s)
  end.

Definition thermometerRun (es : list ThermometerEvent)
    (s : DS18b20.RaspberryPiDS18b20Sensor) : DS18b20.RaspberryPiDS18b20Sensor :=
  fold_left (fun s e => thermometerStep e s) es s.

(** Successive calls of [RaspberryPiDS18b20Sensor.forceSendState] at the
    given timestamps: the state changes returned, each with the timestamp of
    its call. *)
Fixpoint stateReports (times : list Z) (s : DS18b20.RaspberryPiDS18b20Sensor)
  : list (Z * StateChange) :=
  match times with
  | [] => []
  | t :: rest =>
      match DS18b20.forceSendState_at t s with
      | (Some stateChange, s') => (t, stateChange) :: stateReports rest s'
      | (None, s') => stateReports rest s'
      end
  end.

(** The comparison of [updateState] that makes a sensor triggered which is
    not: the data is below, equal to or above the threshold, by the ordering. *)
Definition thresholdReached (ord : Ordering.t) (data thr : float) : bool :=
  match ord with
  | Ordering.LT => (data <? thr)%float
  | Ordering.EQ => (data =? thr)%float
  | Ordering.GT => (thr <? data)%float
  | Ordering.Other => false
  end.

(** The timestamps of the interrupts of a history, in order. *)
Fixpoint edgeTimes (es : list InterruptEvent) : list Z :=
  match es with
  | [] => []
  | Edge t :: rest => t :: edgeTimes rest
  | Poll _ :: rest => edgeTimes rest
  end.

(** Successive iterations of the polling loop for one and the same sensor,
    one per pass: the senders each of them starts.  (Nothing else in a pass
    changes what the next iteration reads when [forceSendState()] leaves the
    sensor alone, as it does for the GPIO sensors.) *)
Fixpoint polls {S : Type} `{PollingSensor S} (ws : list World) (s : S)
  : list (list SensorExecuter.AsynchronousSender) :=
  match ws with
  | [] => []
  | w :: rest =>
      let p := SensorExecuter.pollSensor w s in
      SensorExecuter.started p :: polls rest (SensorExecuter.sensor p)
  end.

(* ===================================================================== *)
(** * RaspberryPiDS18b20Sensor._updateData: reading the sensor file *)
(* ===================================================================== *)

Module SensorFile.

Import Stdlib.Strings.Ascii.
Local Open Scope string_scope.

(** The character classes [[0-9]] and [[0-9a-f]]. *)
Definition is_digit (c : ascii) : bool :=
  ((48 <=? nat_of_ascii c) && (nat_of_ascii c <=? 57))%nat.

Definition is_hex (c : ascii) : bool :=
  is_digit c || ((97 <=? nat_of_ascii c) && (nat_of_ascii c <=? 102))%nat.

(** [([0-9a-f]{2} ){n}] matched at the start of [line]: what follows the
    match, or [None] when it does not match. *)
Fixpoint hexBytes (n : nat) (line : string) : option string :=
  match n with
  | O => Some line
  | Datatypes.S n' =>
      match line with
      | String a (String b (String c rest)) =>
          if is_hex a && is_hex b && Ascii.eqb c " "
          then hexBytes n' rest
          else None
      | _ => None
      end
  end.

(** The characters of [text] matched at the start of [line]: what follows
    them. *)
Fixpoint literal (text line : string) : option string :=
  match text with
  | EmptyString => Some line
  | String c text' =>
      match line with
      | String c' line' => if Ascii.eqb c c' then literal text' line' else None
      | EmptyString => None
      end
  end.

(** The value of the longest run of digits at the start of [line], after
    the digits that [acc] stands for. *)
Fixpoint digits (acc : Z) (line : string) : Z :=
  match line with
  | String c rest =>
      if is_digit c
      then digits (10 * acc + Z.of_nat (nat_of_ascii c - 48)) rest
      else acc
  | EmptyString => acc
  end.

Definition starts_with_digit (line : string) : bool :=
  match line with
  | String c _ => is_digit c
  | EmptyString => false
  end.

(** [[0-9]+] matched at the start of [line]: the value of the digits. *)
Definition someDigits (line : string) : option Z :=
  if starts_with_digit line then Some (digits 0 line) else None.

(** [[+-]?[0-9]+] matched at the start of [line]: whether the text matched
    starts with a minus sign, and the value of its digits. *)
Definition signedDigits (line : string) : option (bool * Z) :=
  match line with
  | String c rest =>
      if Ascii.eqb c "+" then option_map (pair false) (someDigits rest)
      else if Ascii.eqb c "-" then option_map (pair true) (someDigits rest)
      else option_map (pair false) (someDigits line)
  | EmptyString => None
  end.

(** [re.match("([0-9a-f]{2} ){9}t=([+-]?[0-9]+)", line)]: the second group,
    as sign and value, or [None] when the line does not match. *)
Definition reMatch (line : string) : option (bool * Z) :=
  match hexBytes 9 line with
  | Some afterBytes =>
      match literal "t=" afterBytes with
      | Some afterEquals => signedDigits afterEquals
      | None => None
      end
  | None => None
  end.

(** [float(text)] for a text made of an optional sign and digits: the float
    nearest to the number, with the sign of the text when it is zero. *)
Definition float_of_digits (negative : bool) (magnitude : Z) : float :=
  SF2Prim (binary_normalize prec emax
             (if negative then - magnitude else magnitude) 0 negative).

(** The temperature that [_updateData] takes from the second line of the
    sensor file: [float(reMatch.group(2)) / 1000]. *)
Definition temperature (line : string) : option float :=
  match reMatch line with
  | Some (negative, magnitude) =>
      Some (float_of_digits negative magnitude / 1000)%float
  | None => None
  end.

(** [n] groups of two hexadecimal digits and a space, and nothing else. *)
Fixpoint isHexBytes (n : nat) (bytes : string) : bool :=
  match n, bytes with
  | O, EmptyString => true
  | Datatypes.S n', String a (String b (String c rest)) =>
      is_hex a && is_hex b && Ascii.eqb c " " && isHexBytes n' rest
  | _, _ => false
  end.

(** Only digits. *)
Fixpoint allDigits (text : string) : bool :=
  match text with
  | EmptyString => true
  | String c rest => is_digit c && allDigits rest
  end.

End SensorFile.

(** [_updateData], given the second line of the sensor file, or [None] when
    opening or reading the file raises. *)
Definition _updateData_file (secondLine : option string)
    (s : DS18b20.RaspberryPiDS18b20Sensor) : DS18b20.RaspberryPiDS18b20Sensor :=
  DS18b20._updateData
    (match secondLine with
     | Some line => SensorFile.temperature line
     | None => None
     end) s.

(** Further sample configurations. *)
Module Sample2.

(** The sample interrupt sensor set to 3 edges, after the callbacks at 1000,
    1001 and 1002 have committed the trigger state, before the next pass. *)
Definition committedInterrupt : GPIOInterrupt.RaspberryPiGPIOInterruptSensor :=
  GPIOInterrupt.callbacks [1000; 1001; 1002] (Sample.interrupt 3).

(** The same sensor after the pass at 1002 has made it triggered. *)
Definition triggeredInterrupt : GPIOInterrupt.RaspberryPiGPIOInterruptSensor :=
  GPIOInterrupt.updateState_at 1002 committedInterrupt.

(** The payload of the sample option request. *)
Definition optionPayload : list (string * LocalServer.json) :=
  [("optionType"%string, LocalServer.JString "alertSystemActive");
   ("value"%string, LocalServer.JFloat 1%float);
   ("timeDelay"%string, LocalServer.JInt 0)].

End Sample2.

(* ===================================================================== *)
(** * The whole of LocalServerSession.handle *)
(* ===================================================================== *)

(** [LocalServer.handle] above is the method from the point where
    [self.request.recv] has returned the data, with a [sendOption] that
    returns.  Both calls stand outside every [try] of the method, so an
    exception of either leaves [handle]; here they may raise. *)
Module LocalServerSession.
Import LocalServer.
Local Open Scope handler_scope.
Local Open Scope string_scope.

Section Session.

(** The library and the socket as in [LocalServer], and
    - [recv]: what [self.request.recv(BUFSIZE).strip()] gives, the data or
      the exception it raises;
    - [sendOption]: what [self.serverComm.sendOption] gives, its result or
      the exception it raises. *)
Variable json_loads : string -> option json.
Variable py_str : json -> option string.
Variable py_float : json -> option float.
Variable py_int : json -> option Z.
Variable time_time : Z.
Variable request_send : json -> bool.
Variable recv : exn + string.
Variable sendOption : string -> float -> Z -> exn + bool.

(** A call that gives a value or raises. *)
Definition call {A} (r : exn + A) : M A :=
  match r with
  | inl e => raise e
  | inr a => ret a
  end.

Definition handle_body : M unit :=
  data <- call recv ;;
  try_except
    (j <- orRaise ValueError (json_loads data) ;;
     assign_incomingMessage j ;;
     tag <- incoming_message_tag ;;
     if differs tag "option"
     then send_error time_time request_send "only option message valid" ;; return_
     else ret tt)
    (fun _ =>
       send_error time_time request_send "received json message invalid" ;; return_) ;;
  opt <- try_except (extract_option py_str py_float py_int)
           (fun _ =>
              send_error time_time request_send "received attributes invalid" ;;
              return_) ;;
  let '(optionType, optionValue, optionDelay) := opt in
  if negb (String.eqb optionType "alertSystemActive")
  then
    send_error time_time request_send
      "only option type 'alertSystemActive' allowed" ;;
    return_
  else
    accepted <- call (sendOption optionType optionValue optionDelay) ;;
    if accepted : bool
    then
      try_pass (
        tag <- incoming_message_tag ;;
        send request_send
          (JObject [("serverTime", JInt time_time);
                    ("message", tag);
                    ("payload", JObject [("type", JString "response");
                                         ("result", JString "ok")])])) ;;
      return_
    else
      send_error time_time request_send "sending message to server failed" ;;
      return_.

(** [handle]: the messages sent to the client, in the order sent, and how
    the method ended. *)
Definition handle : list json * completion unit :=
  let '(fr, c) := handle_body (mkFrame [] None) in
  (rev (sent fr), c).

End Session.

End LocalServerSession.

(* ===================================================================== *)
(** * More sample data *)
(* ===================================================================== *)

(** A sensor that asks once for an alert of its own: [forceSendAlert()]
    gives the pending alert and forgets it. *)
Module OneShot.

Record OneShotSensor : Set := mk {
  base : _PollingSensor;
  gpioPin : Z;
  pending : option SensorAlert
}.

Definition getState (s : OneShotSensor) : Z := state (base s).

Definition updateState (w : World) (s : OneShotSensor) : OneShotSensor :=
  mk (set_state (GPIO_input w (gpioPin s)) (base s)) (gpioPin s) (pending s).

Definition forceSendAlert (w : World) (s : OneShotSensor)
  : option SensorAlert * OneShotSensor :=
  (pending s, mk (base s) (gpioPin s) None).

Definition forceSendState (w : World) (s : OneShotSensor)
  : option StateChange * OneShotSensor := (None, s).

End OneShot.

#[export] Instance OneShot_PollingSensor : PollingSensor OneShot.OneShotSensor := {
  attributes := OneShot.base;
  getState := OneShot.getState;
  updateState := OneShot.updateState;
  forceSendAlert := OneShot.forceSendAlert;
  forceSendState := OneShot.forceSendState
}.

(** The senders of a pass other than the one of the full sensor state. *)
Definition sensorSenders (evs : list SensorExecuter.AsynchronousSender)
  : list SensorExecuter.AsynchronousSender :=
  filter (fun a => negb (SensorExecuter.is_sendSensorsState a)) evs.

Module Sample3.

(** Sensor 7 on pin 11, normal, with the alert [Sample.forced] pending. *)
Definition oneShot : OneShot.OneShotSensor :=
  OneShot.mk (Sample.attrs true true false) 11 (Some Sample.forced).

(** A connected pass at time [t] in which every pin reads [level]. *)
Definition pass (t level : Z) : SensorExecuter.Cycle :=
  SensorExecuter.mkCycle true (fun _ => Sample.world t level)
    (fun _ => Sample.world t level) t.

End Sample3.

(* ===================================================================== *)
(** * Properties of the threshold-polling sensor *)
(* ===================================================================== *)

Section GPIOPollingFacts.
Import GPIOPolling.

Implicit Types s : RaspberryPiGPIOPollingSensor.

Lemma updateState_read_same s r :
  r = getState s ->
  getState (updateState_read r s) = getState s /\
  currStateCtr (updateState_read r s) = 0.
Proof.
  intros ->. unfold updateState_read, getState.
  rewrite Z.eqb_refl. simpl. split; reflexivity.
Qed.

(** A read changes the state exactly when it differs from the state and
    the incremented counter reaches the threshold; the counter keeps the
    incremented value in that case too. *)
Lemma updateState_read_change s r :
  getState (updateState_read r s) <> getState s ->
  r <> getState s /\
  currStateCtr s + 1 >= thresStateCtr s /\
  getState (updateState_read r s) = r /\
  currStateCtr (updateState_read r s) = currStateCtr s + 1 /\
  thresStateCtr (updateState_read r s) = thresStateCtr s.
Proof.
  unfold updateState_read, getState.
  destruct (Z.eqb_spec r (state (base s))) as [E|E]; simpl.
  - intros C. now elim C.
  - destruct (Z.geb_spec (currStateCtr s + 1) (thresStateCtr s)); simpl.
    + intros _. repeat split; auto; lia.
    + intros C. now elim C.
Qed.

(** Right after a change of state, one read that differs from the new state
    is enough to change it again, whatever the threshold is. *)
Lemma updateState_read_bounce s r r' :
  getState (updateState_read r s) <> getState s ->
  r' <> r ->
  getState (updateState_read r' (updateState_read r s)) = r'.
Proof.
  intros C D.
  destruct (updateState_read_change s r C) as (_ & G & Er & Ec & Et).
  remember (updateState_read r s) as s1 eqn:E1.
  unfold updateState_read, getState in *.
  rewrite Er.
  destruct (Z.eqb_spec r' r) as [|_]; [contradiction|]. simpl.
  rewrite Ec, Et.
  destruct (Z.geb_spec (currStateCtr s + 1 + 1) (thresStateCtr s)); simpl.
  - reflexivity.
  - lia.
Qed.

(** Starting with the counter at 0, reads that all differ from the state
    and are fewer than the threshold leave the state as it is. *)
Lemma updateStates_short_run reads : forall s,
  0 <= currStateCtr s ->
  Forall (fun r => r <> getState s) reads ->
  currStateCtr s + Z.of_nat (List.length reads) < thresStateCtr s ->
  getState (updateStates reads s) = getState s /\
  currStateCtr (updateStates reads s) = currStateCtr s + Z.of_nat (List.length reads).
Proof.
  induction reads as [|r reads IH]; intros s Hc Hall Hlen.
  - simpl. split; [reflexivity | lia].
  - inversion Hall as [|? ? Hr Hrest]; subst.
    change (updateStates (r :: reads) s)
      with (updateStates reads (updateState_read r s)).
    assert (Hstep : getState (updateState_read r s) = getState s /\
                    currStateCtr (updateState_read r s) = currStateCtr s + 1 /\
                    thresStateCtr (updateState_read r s) = thresStateCtr s).
    { unfold updateState_read, getState in *.
      destruct (Z.eqb_spec r (state (base s))); [contradiction|]. simpl.
      simpl List.length in Hlen.
      destruct (Z.geb_spec (currStateCtr s + 1) (thresStateCtr s)); [lia|].
      simpl. auto. }
    destruct Hstep as (Hs & Hk & Ht).
    destruct (IH (updateState_read r s)) as (IH1 & IH2).
    + lia.
    + rewrite Hs. exact Hrest.
    + rewrite Hk, Ht. simpl List.length in Hlen. lia.
    + rewrite IH1, IH2, Hs, Hk. simpl List.length. split; [reflexivity | lia].
Qed.

(** C2.  The sample polling sensor wants 3 reads and starts in state 0 with
    its counter at 0.  Three reads of 1 change its state to 1, as the claim
    describes; but the counter is not reset by the change, so the single
    read of 0 that follows changes the state back at once, although it is
    one read, not three, that differs from the current state. *)
Theorem polling_state_changes_after_single_read :
  thresStateCtr Sample.polling = 3 /\
  (getState Sample.polling, currStateCtr Sample.polling) = (0, 0) /\
  map (fun s => (getState s, currStateCtr s))
      (trace [1; 1; 1; 0] Sample.polling)
  = [(0, 1); (0, 2); (1, 3); (0, 4)].
Proof. repeat split. Qed.

End GPIOPollingFacts.


(* ===================================================================== *)
(** * Properties of the edge-interrupt sensor *)
(* ===================================================================== *)

Section GPIOInterruptFacts.
Import GPIOInterrupt.

Implicit Types s : RaspberryPiGPIOInterruptSensor.

(** What the callback never touches. *)
Lemma _interruptCallback_frame t s :
  base (_interruptCallback t s) = base s /\
  delayBetweenTriggers (_interruptCallback t s) = delayBetweenTriggers s /\
  timeSensorTriggered (_interruptCallback t s) = timeSensorTriggered s /\
  edgeCountBeforeTrigger (_interruptCallback t s) = edgeCountBeforeTrigger s.
Proof.
  unfold _interruptCallback.
  destruct (t - lastTimeTriggered s >? delayBetweenTriggers s); simpl; auto.
Qed.

(** The callback that arrives after the delay. *)
Lemma _interruptCallback_late t s :
  t - lastTimeTriggered s > delayBetweenTriggers s ->
  edgeCounter (_interruptCallback t s) = 1 /\
  lastTimeTriggered (_interruptCallback t s) = t /\
  _internalState (_interruptCallback t s) = _internalState s.
Proof.
  intros L. unfold _interruptCallback.
  destruct (Z.gtb_spec (t - lastTimeTriggered s) (delayBetweenTriggers s));
    [simpl; auto | lia].
Qed.

(** The callback that arrives within the delay. *)
Lemma _interruptCallback_soon t s :
  t - lastTimeTriggered s <= delayBetweenTriggers s ->
  edgeCounter (_interruptCallback t s) = edgeCounter s + 1 /\
  lastTimeTriggered (_interruptCallback t s) = lastTimeTriggered s /\
  _internalState (_interruptCallback t s) =
    (if edgeCounter s + 1 >=? edgeCountBeforeTrigger s
     then triggerState (base s) else _internalState s).
Proof.
  intros L. unfold _interruptCallback.
  destruct (Z.gtb_spec (t - lastTimeTriggered s) (delayBetweenTriggers s));
    [lia | simpl; auto].
Qed.

(** A burst of callbacks, all within the delay: every one of them counts,
    and the triggered state is committed as soon as the count reaches the
    threshold. *)
Lemma callbacks_soon times : forall s,
  Forall (fun t => t - lastTimeTriggered s <= delayBetweenTriggers s) times ->
  base (callbacks times s) = base s /\
  lastTimeTriggered (callbacks times s) = lastTimeTriggered s /\
  edgeCounter (callbacks times s) = edgeCounter s + Z.of_nat (List.length times) /\
  (edgeCounter s + Z.of_nat (List.length times) < edgeCountBeforeTrigger s ->
   _internalState (callbacks times s) = _internalState s) /\
  (times <> [] ->
   edgeCounter s + Z.of_nat (List.length times) >= edgeCountBeforeTrigger s ->
   _internalState (callbacks times s) = triggerState (base s)).
Proof.
  induction times as [|t times IH]; intros s Hall.
  - simpl. repeat split; auto; try lia. intros C. now elim C.
  - inversion Hall as [|? ? Ht Hrest]; subst.
    change (callbacks (t :: times) s) with (callbacks times (_interruptCallback t s)).
    destruct (_interruptCallback_frame t s) as (Fb & Fd & _ & Fe).
    destruct (_interruptCallback_soon t s Ht) as (Sc & Sl & Si).
    destruct (IH (_interruptCallback t s)) as (I1 & I2 & I3 & I4 & I5).
    { rewrite Sl, Fd. exact Hrest. }
    rewrite Fb, Sl, Sc, Fe in *. simpl List.length.
    repeat split; auto; try lia.
    + intros Hlt. rewrite I4 by lia. rewrite Si.
      destruct (Z.geb_spec (edgeCounter s + 1) (edgeCountBeforeTrigger s)); [lia | reflexivity].
    + intros _ Hge. destruct times as [|t' times'].
      * simpl. rewrite Si. simpl List.length in Hge.
        destruct (Z.geb_spec (edgeCounter s + 1) (edgeCountBeforeTrigger s)); [reflexivity | lia].
      * apply I5; [discriminate | lia].
Qed.

(** [updateState] of a sensor that is not triggered copies the internal
    state, whatever the time is. *)
Lemma updateState_at_normal u s :
  state (base s) <> triggerState (base s) ->
  getState (updateState_at u s) = _internalState s /\
  _internalState (updateState_at u s) = _internalState s.
Proof.
  intros N. unfold updateState_at, getState.
  destruct (Z.eqb_spec (state (base s)) (triggerState (base s))); [contradiction|].
  simpl. auto.
Qed.

Lemma updateState_at_triggerState u s :
  triggerState (base (updateState_at u s)) = triggerState (base s).
Proof. reflexivity. Qed.

(** After [updateState] the state and the internal state agree. *)
Lemma updateState_at_agree u s :
  state (base (updateState_at u s)) = _internalState (updateState_at u s).
Proof. reflexivity. Qed.

(** While no interrupt arrives, a sensor whose state agrees with its
    internal state never enters the triggered state. *)
Lemma interruptUpdates_no_flip times : forall s,
  state (base s) = _internalState s ->
  flips (triggered s) (map triggered (interruptUpdates times s)) = O.
Proof.
  induction times as [|u times IH]; intros s A; [reflexivity|].
  simpl. rewrite IH by apply updateState_at_agree.
  unfold triggered, updateState_at. simpl. rewrite <- A.
  destruct (Z.eqb_spec (state (base s)) (triggerState (base s))) as [E|E]; simpl.
  - reflexivity.
  - rewrite (proj2 (Z.eqb_neq _ _) E). reflexivity.
Qed.

End GPIOInterruptFacts.


Section GPIOInterruptClaims.
Import GPIOInterrupt.

Implicit Types s : RaspberryPiGPIOInterruptSensor.

(** C5, as amended.  For a sensor in the normal state whose edge counter is
    [c] (it is 1 right after a callback that arrived late enough to be
    accepted), a burst of N callbacks that all arrive within
    [delayBetweenTriggers] of [lastTimeTriggered] leaves the state normal at
    the next [updateState()] when [c + N < edgeCountBeforeTrigger]; when the
    burst is not empty and [c + N >= edgeCountBeforeTrigger] it sets the
    internal state to [triggerState], the next [updateState()] makes the
    state triggered, and over any further calls of [updateState()] the state
    enters the triggered state exactly once.  A callback that arrives more
    than [delayBetweenTriggers] after the last trigger sets the edge counter
    to 1 and records its time, without committing the triggered state. *)
Theorem interrupt_burst_counts_from_edge_counter s times :
  state (base s) = 1 - triggerState (base s) ->
  _internalState s = 1 - triggerState (base s) ->
  Forall (fun t => t - lastTimeTriggered s <= delayBetweenTriggers s) times ->
  (edgeCounter s + Z.of_nat (List.length times) < edgeCountBeforeTrigger s ->
   forall u, getState (updateState_at u (callbacks times s))
             = 1 - triggerState (base s))
  /\
  (times <> [] ->
   edgeCounter s + Z.of_nat (List.length times) >= edgeCountBeforeTrigger s ->
   _internalState (callbacks times s) = triggerState (base s) /\
   forall u us,
     getState (updateState_at u (callbacks times s)) = triggerState (base s) /\
     flips false
       (map triggered (interruptUpdates (u :: us) (callbacks times s))) = 1%nat)
  /\
  (forall t,
     t - lastTimeTriggered s > delayBetweenTriggers s ->
     edgeCounter (_interruptCallback t s) = 1 /\
     lastTimeTriggered (_interruptCallback t s) = t /\
     _internalState (_interruptCallback t s) = _internalState s /\
     forall u, getState (updateState_at u (_interruptCallback t s))
               = 1 - triggerState (base s)).
Proof.
  intros Hstate Hint Hsoon.
  assert (Hnormal : state (base s) <> triggerState (base s)) by lia.
  destruct (callbacks_soon times s Hsoon) as (Cb & _ & _ & Clt & Cge).
  assert (Hnormal' : state (base (callbacks times s))
                     <> triggerState (base (callbacks times s)))
    by (rewrite Cb; exact Hnormal).
  split; [|split].
  - intros Hlt u.
    destruct (updateState_at_normal u _ Hnormal') as (U & _).
    rewrite U, Clt by exact Hlt. exact Hint.
  - intros Hne Hge. split; [apply Cge; assumption|].
    intros u us.
    destruct (updateState_at_normal u _ Hnormal') as (U & _).
    split; [rewrite U; apply Cge; assumption|].
    cbn [interruptUpdates map flips].
    assert (T : triggered (updateState_at u (callbacks times s)) = true).
    { unfold triggered. rewrite updateState_at_triggerState, Cb.
      change (state (base (updateState_at u (callbacks times s))))
        with (getState (updateState_at u (callbacks times s))).
      rewrite U, Cge by assumption. apply Z.eqb_refl. }
    rewrite interruptUpdates_no_flip by apply updateState_at_agree.
    rewrite T. reflexivity.
  - intros t Hlate.
    destruct (_interruptCallback_late t s Hlate) as (L1 & L2 & L3).
    destruct (_interruptCallback_frame t s) as (Fb & _).
    repeat split; auto.
    intros u.
    assert (N : state (base (_interruptCallback t s))
                <> triggerState (base (_interruptCallback t s)))
      by (rewrite Fb; exact Hnormal).
    destruct (updateState_at_normal u _ N) as (U & _).
    rewrite U, L3. exact Hint.
Qed.

(** The sample sensor set to 3 edges: a callback at 1000 is accepted, the
    two that follow within the delay bring the counter to 3 and trigger. *)
Lemma interrupt_burst_counts_from_edge_counter_witness :
  let s := _interruptCallback 1000 (Sample.interrupt 3) in
  edgeCounter s = 1 /\
  _internalState (callbacks [1001; 1002] s) = 1 /\
  getState (updateState_at 1002 (callbacks [1001; 1002] s)) = 1.
Proof.
  intro s.
  assert (Hsoon : Forall (fun t => t - lastTimeTriggered s <= delayBetweenTriggers s)
                    [1001; 1002])
    by (repeat constructor; vm_compute; discriminate).
  destruct (interrupt_burst_counts_from_edge_counter s [1001; 1002]
              eq_refl eq_refl Hsoon) as (_ & Hcommit & _).
  destruct Hcommit as (Hi & Hu); [discriminate | vm_compute; discriminate |].
  split; [reflexivity|]. split; [exact Hi | exact (proj1 (Hu 1002 []))].
Defined.

(** C5, as stated, fails.  The sample sensor wants 3 edges.  After the
    accepted callback at 1000, the N = 2 callbacks at 1001 and 1002 arrive
    within [delayBetweenTriggers] = 5 of the last accepted trigger time, and
    2 < 3, yet the next [updateState()] makes the state triggered.  And with
    [edgeCountBeforeTrigger] = 1, one callback (N = 1 >= 1) that arrives
    after the delay does not commit the triggered state. *)
Lemma interrupt_burst_below_threshold_triggers :
  (let s := _interruptCallback 1000 (Sample.interrupt 3) in
   let times := [1001; 1002] in
   state (base s) = 1 - triggerState (base s) /\
   _internalState s = 1 - triggerState (base s) /\
   lastTimeTriggered s = 1000 /\
   Forall (fun t => t - lastTimeTriggered s <= delayBetweenTriggers s) times /\
   Z.of_nat (List.length times) < edgeCountBeforeTrigger s /\
   getState (updateState_at 1002 (callbacks times s)) = triggerState (base s) /\
   triggerState (base s) <> 1 - triggerState (base s))
  /\
  (let s := Sample.interrupt 1 in
   state (base s) = 1 - triggerState (base s) /\
   _internalState s = 1 - triggerState (base s) /\
   Z.of_nat (List.length [1000]) >= edgeCountBeforeTrigger s /\
   _internalState (callbacks [1000] s) <> triggerState (base s) /\
   getState (updateState_at 1000 (callbacks [1000] s)) = 1 - triggerState (base s)).
Proof.
  split; cbv zeta; repeat split;
    try (repeat constructor; vm_compute; discriminate);
    try (vm_compute; discriminate).
Qed.

(** C10.  [forceSendAlert()] and [forceSendState()] change nothing.  The
    interrupt callback leaves [_internalState] as it is or sets it to
    [triggerState], and never touches [state].  [updateState()] sets
    [_internalState] to the normal value [1 - triggerState] when the sensor
    is triggered and more than [timeSensorTriggered] seconds have passed
    since [lastTimeTriggered], and leaves it as it is in every other case;
    then it copies it to [state]. *)
Theorem interrupt_callback_only_triggers :
  (forall w s, forceSendAlert w s = (None, s) /\ forceSendState w s = (None, s))
  /\
  (forall t s,
     (_internalState (_interruptCallback t s) = _internalState s \/
      _internalState (_interruptCallback t s) = triggerState (base s)) /\
     state (base (_interruptCallback t s)) = state (base s) /\
     triggerState (base (_interruptCallback t s)) = triggerState (base s))
  /\
  (forall u s,
     state (base (updateState_at u s)) = _internalState (updateState_at u s) /\
     triggerState (base (updateState_at u s)) = triggerState (base s) /\
     ((state (base s) = triggerState (base s) /\
       u - lastTimeTriggered s > timeSensorTriggered s) ->
      _internalState (updateState_at u s) = 1 - triggerState (base s)) /\
     (~ (state (base s) = triggerState (base s) /\
         u - lastTimeTriggered s > timeSensorTriggered s) ->
      _internalState (updateState_at u s) = _internalState s)).
Proof.
  split; [intros w s; split; reflexivity|].
  split.
  - intros t s. unfold _interruptCallback.
    destruct (t - lastTimeTriggered s >? delayBetweenTriggers s); simpl.
    + auto.
    + destruct (edgeCounter s + 1 >=? edgeCountBeforeTrigger s); auto.
  - intros u s. unfold updateState_at. simpl.
    destruct (Z.eqb_spec (state (base s)) (triggerState (base s))) as [E|E];
      destruct (Z.gtb_spec (u - lastTimeTriggered s) (timeSensorTriggered s)) as [G|G];
      simpl; repeat split; auto; try tauto; try lia.
Qed.

End GPIOInterruptClaims.


(* ===================================================================== *)
(** * Properties of the temperature sensor *)
(* ===================================================================== *)

Section FloatOrder.

(** Swapping the operands of a comparison of floats swaps its result. *)
Lemma SFcompare_swap x y :
  SFcompare y x = option_map CompOpp (SFcompare x y).
Proof.
  destruct x as [sx|sx| |sx mx ex], y as [sy|sy| |sy my ey];
    simpl; try reflexivity;
    try (destruct sx; reflexivity);
    try (destruct sy; reflexivity);
    try (destruct sx, sy; reflexivity).
  pose proof (Pos.compare_cont_antisym mx my Eq) as A. simpl in A.
  destruct sx, sy; simpl; try reflexivity;
    rewrite (Z.compare_antisym ex ey);
    destruct (ex ?= ey)%Z; simpl; try reflexivity;
    rewrite <- A; destruct (Pos.compare_cont Eq mx my); reflexivity.
Qed.

(** Python's [a == b] excludes [a > b]. *)
Lemma float_eqb_not_gt (a b : float) :
  (a =? b)%float = true -> (b <? a)%float = false.
Proof.
  rewrite eqb_spec, ltb_spec. unfold SFeqb, SFltb.
  rewrite (SFcompare_swap (Prim2SF a) (Prim2SF b)).
  destruct (SFcompare (Prim2SF a) (Prim2SF b)) as [[]|]; simpl;
    intros; try discriminate; reflexivity.
Qed.

(** Python's [a > b] excludes [a <= b]. *)
Lemma float_gt_not_le (a b : float) :
  (b <? a)%float = true -> (a <=? b)%float = false.
Proof.
  rewrite leb_spec, ltb_spec. unfold SFleb, SFltb.
  rewrite (SFcompare_swap (Prim2SF a) (Prim2SF b)).
  destruct (SFcompare (Prim2SF a) (Prim2SF b)) as [[]|]; simpl;
    intros; try discriminate; reflexivity.
Qed.

End FloatOrder.

Section DS18b20Facts.
Import DS18b20.

Implicit Types s : RaspberryPiDS18b20Sensor.

(** A call of [updateState] starts a refresh thread exactly when more than
    [interval] seconds have passed since [lastTemperatureUpdate], and then
    records its time.  The attribute [refreshInterval] is never read. *)
Lemma updateState_at_refresh u s :
  snd (updateState_at u s) = (u - lastTemperatureUpdate s >? interval s) /\
  lastTemperatureUpdate (fst (updateState_at u s)) =
    (if u - lastTemperatureUpdate s >? interval s
     then u else lastTemperatureUpdate s) /\
  interval (fst (updateState_at u s)) = interval s /\
  refreshInterval (fst (updateState_at u s)) = refreshInterval s.
Proof.
  unfold updateState_at.
  destruct (u - lastTemperatureUpdate s >? interval s); simpl; auto.
Qed.

(** Two refreshes in a row are more than [interval] seconds apart. *)
Lemma refreshes_spaced times : forall s,
  match refreshes times s with
  | t :: _ => t - lastTemperatureUpdate s > interval s
  | [] => True
  end /\
  spaced (interval s) (refreshes times s).
Proof.
  induction times as [|u times IH]; intros s; [simpl; auto|].
  change (refreshes (u :: times) s)
    with (let '(s', started) := updateState_at u s in
          if started then u :: refreshes times s' else refreshes times s').
  pose proof (updateState_at_refresh u s) as (R1 & R2 & R3 & _).
  destruct (updateState_at u s) as [s' started].
  cbn [fst snd] in R1, R2, R3.
  destruct (IH s') as (H1 & H2). rewrite R3 in H1, H2.
  destruct (Z.gtb_spec (u - lastTemperatureUpdate s) (interval s)) as [G|G];
    subst started; rewrite R2 in H1.
  - split; [lia|].
    destruct (refreshes times s') as [|t rest]; [exact I|].
    split; [lia | exact H2].
  - split; assumption.
Qed.

(** C4.  The sample thermometer has [refreshInterval] = 60 and reports every
    [interval] = 10 seconds; it was initialised, and so last refreshed, at
    time 1000.  [updateState()] at the times 1011 and 1022 starts a refresh
    thread both times, 11 seconds apart: the test of [updateState] compares
    with [interval], and [refreshInterval] plays no part. *)
Theorem thermometer_refreshes_within_refreshInterval :
  refreshInterval Sample.thermometer = 60 /\
  interval Sample.thermometer = 10 /\
  lastTemperatureUpdate Sample.thermometer = 1000 /\
  refreshes [1011; 1022] Sample.thermometer = [1011; 1022] /\
  1022 - 1011 < refreshInterval Sample.thermometer.
Proof. repeat split. Qed.

(** C6.  With a threshold and the ordering GT, [updateState()] of a sensor
    that is not triggered makes it triggered exactly when the data is
    greater than the threshold, and so not when the two are equal; of a
    triggered sensor it makes the state normal ([1 - triggerState]) exactly
    when the data is less than or equal to the threshold.  The data is the
    value that [_sensorData] holds when [updateState()] runs, which the call
    copies to [sensorData]. *)
Theorem thermometer_GT_threshold u s :
  hasThreshold s = true ->
  ordering s = Ordering.GT ->
  let s' := fst (updateState_at u s) in
  sensorData (base s') = DataFloat (_sensorData s) /\
  triggerState (base s') = triggerState (base s) /\
  (state (base s) <> triggerState (base s) ->
     (state (base s') = triggerState (base s)
      <-> (threshold s <? _sensorData s)%float = true) /\
     ((threshold s <? _sensorData s)%float = false ->
      state (base s') = state (base s)) /\
     ((_sensorData s =? threshold s)%float = true ->
      state (base s') = state (base s))) /\
  (state (base s) = triggerState (base s) ->
     (state (base s') = 1 - triggerState (base s)
      <-> (_sensorData s <=? threshold s)%float = true) /\
     ((_sensorData s <=? threshold s)%float = false ->
      state (base s') = state (base s))).
Proof.
  intros Ht Ho s'. subst s'. unfold updateState_at.
  assert (F : forall b : bool,
            _sensorData (if b then set_lastTemperatureUpdate u s else s) = _sensorData s /\
            hasThreshold (if b then set_lastTemperatureUpdate u s else s) = hasThreshold s /\
            ordering (if b then set_lastTemperatureUpdate u s else s) = ordering s /\
            threshold (if b then set_lastTemperatureUpdate u s else s) = threshold s /\
            base (if b then set_lastTemperatureUpdate u s else s) = base s)
    by (intros []; simpl; auto).
  destruct (F (u - lastTemperatureUpdate s >? interval s)) as (F1 & F2 & F3 & F4 & F5).
  cbn [fst]. rewrite F1, F2, F3, F4, F5, Ht, Ho. clear F F1 F2 F3 F4 F5.
  cbn -[PrimFloat.ltb PrimFloat.leb PrimFloat.eqb Z.sub Z.eqb].
  unfold checkThreshold.
  split; [reflexivity|]. split; [reflexivity|]. split.
  - intros N.
    destruct (Z.eqb_spec (state (base s)) (triggerState (base s))); [contradiction|].
    assert (Hle : (_sensorData s =? threshold s)%float = true ->
                  (threshold s <? _sensorData s)%float = false)
      by apply float_eqb_not_gt.
    destruct (threshold s <? _sensorData s)%float; repeat split; auto;
      try discriminate; try tauto.
    intros Q. specialize (Hle Q). discriminate.
  - intros E.
    rewrite E, Z.eqb_refl.
    destruct (_sensorData s <=? threshold s)%float; repeat split; auto;
      try discriminate; try lia.
Qed.

(** The sample thermometer, triggered above 30 degrees: normal at 30.5
    degrees it becomes triggered, and it stays normal at exactly 30. *)
Lemma thermometer_GT_threshold_witness :
  state (DS18b20.base (fst (updateState_at 1001 (Sample.thermometerAt 0 30.5%float)))) = 1 /\
  state (DS18b20.base (fst (updateState_at 1001 (Sample.thermometerAt 0 30%float)))) = 0.
Proof.
  destruct (thermometer_GT_threshold 1001 (Sample.thermometerAt 0 30.5%float)
              eq_refl eq_refl) as (_ & _ & Hn & _).
  destruct (thermometer_GT_threshold 1001 (Sample.thermometerAt 0 30%float)
              eq_refl eq_refl) as (_ & _ & Hn' & _).
  split.
  - apply (proj1 (Hn ltac:(vm_compute; discriminate))). reflexivity.
  - apply (proj2 (proj2 (Hn' ltac:(vm_compute; discriminate)))). reflexivity.
Defined.

End DS18b20Facts.


(* ===================================================================== *)
(** * Properties of the polling loop *)
(* ===================================================================== *)

Section PollingLoop.
Import SensorExecuter.
Context {S : Type} `{PollingSensor S}.

(** C1.  Take an iteration of the polling loop in which [forceSendAlert()]
    returns [None], for a sensor whose [handlesStateMsgs] is false.  When
    the state read before [updateState()] differs from the one read after
    it, the iteration starts exactly one sender, chosen by the table: into
    the trigger state, a sensor alert with state 1 if [triggerAlert] is set
    and a state change with state 1 otherwise; into any other state, a
    sensor alert with state 0 if [triggerAlertNormal] is set and a state
    change with state 0 otherwise.  The event carries that state and, of the
    sensor as it is after [forceSendAlert()], the id, the data type and the
    data, and a sensor alert also the optional data and the two flags.  When
    the two states are equal it starts none. *)
Theorem pollSensor_state_transition (w : World) (s s2 : S) :
  forceSendAlert w (updateState w s) = (None, s2) ->
  handlesStateMsgs (attributes s2) = false ->
  let p := attributes s2 in
  let old := getState s in
  let current := getState (updateState w s) in
  (old = current -> started (pollSensor w s) = []) /\
  (old <> current ->
     List.length (started (pollSensor w s)) = 1%nat /\
     (current = triggerState p -> triggerAlert p = true ->
        started (pollSensor w s)
        = [sendSensorAlert
             {| sa_clientSensorId := id p;
                sa_state := 1;
                sa_hasOptionalData := hasOptionalData p;
                sa_optionalData := optionalData p;
                sa_changeState := changeState p;
                sa_hasLatestData := hasLatestData p;
                sa_dataType := sensorDataType p;
                sa_sensorData := sensorData p |}]) /\
     (current = triggerState p -> triggerAlert p = false ->
        started (pollSensor w s)
        = [sendStateChange
             {| sc_clientSensorId := id p;
                sc_state := 1;
                sc_dataType := sensorDataType p;
                sc_sensorData := sensorData p |}]) /\
     (current <> triggerState p -> triggerAlertNormal p = true ->
        started (pollSensor w s)
        = [sendSensorAlert
             {| sa_clientSensorId := id p;
                sa_state := 0;
                sa_hasOptionalData := hasOptionalData p;
                sa_optionalData := optionalData p;
                sa_changeState := changeState p;
                sa_hasLatestData := hasLatestData p;
                sa_dataType := sensorDataType p;
                sa_sensorData := sensorData p |}]) /\
     (current <> triggerState p -> triggerAlertNormal p = false ->
        started (pollSensor w s)
        = [sendStateChange
             {| sc_clientSensorId := id p;
                sc_state := 0;
                sc_dataType := sensorDataType p;
                sc_sensorData := sensorData p |}])).
Proof.
  intros Hforce Hhandles p old current.
  unfold pollSensor. rewrite Hforce. cbn [started].
  unfold stateTransition. rewrite Hhandles.
  fold p old current.
  destruct (Z.eqb_spec old current) as [E|E].
  - split; [reflexivity | intros C; now elim C].
  - split; [intros C; now elim E|]. intros _.
    destruct (Z.eqb_spec current (triggerState p)) as [T|T];
      destruct (triggerAlert p), (triggerAlertNormal p);
      repeat split; intros; try reflexivity; try discriminate; try contradiction.
Qed.

(** The polling loop handles the sensor at position [k] with
    [pollSensor], in the world it sees at that position: it leaves the sensor
    that [pollSensor] leaves, and the senders of that iteration stand, as one
    block, among the senders of the loop. *)
Lemma pollSensors_at (w : nat -> World) (ss : list S) : forall i k s,
  nth_error ss k = Some s ->
  nth_error (fst (pollSensors w i ss)) k
  = Some (sensor (pollSensor (w (i + k)%nat) s)) /\
  exists before after,
    snd (pollSensors w i ss)
    = before ++ started (pollSensor (w (i + k)%nat) s) ++ after.
Proof.
  induction ss as [|s0 ss IH]; intros i k s Hk; [destruct k; discriminate|].
  cbn [pollSensors].
  destruct (pollSensors w (Datatypes.S i) ss) as [rest evs] eqn:E.
  destruct k as [|k]; cbn [nth_error fst snd] in *.
  - injection Hk as ->. rewrite Nat.add_0_r. split; [reflexivity|].
    exists [], evs. reflexivity.
  - destruct (IH (Datatypes.S i) k s Hk) as (Hn & before & after & Hev).
    rewrite E in Hn, Hev. cbn [fst snd] in Hn, Hev.
    replace (i + Datatypes.S k)%nat with (Datatypes.S i + k)%nat by lia.
    split; [exact Hn|].
    exists (started (pollSensor (w i) s0) ++ before), after.
    rewrite Hev, app_assoc. reflexivity.
Qed.

(** The second loop leaves, at position [k], the sensor that
    [forceSendState()] leaves. *)
Lemma forceStates_at (w : nat -> World) (ss : list S) : forall i k s,
  nth_error ss k = Some s ->
  nth_error (fst (forceStates w i ss)) k
  = Some (fst (forceState (w (i + k)%nat) s)).
Proof.
  induction ss as [|s0 ss IH]; intros i k s Hk; [destruct k; discriminate|].
  cbn [forceStates].
  destruct (forceState (w i) s0) as [s0' evs0] eqn:E0.
  destruct (forceStates w (Datatypes.S i) ss) as [rest evs] eqn:E.
  destruct k as [|k]; cbn [nth_error fst snd] in *.
  - injection Hk as <-. rewrite Nat.add_0_r, E0. reflexivity.
  - specialize (IH (Datatypes.S i) k s Hk). rewrite E in IH. cbn [fst] in IH.
    replace (i + Datatypes.S k)%nat with (Datatypes.S i + k)%nat by lia.
    exact IH.
Qed.

(** A connected pass on the sensor at position [k]: the pass starts the
    senders of its iteration of the polling loop, and hands on to the next
    pass the sensor as that iteration and then [forceSendState()] leave it. *)
Lemma cycle_at (c : Cycle) (e : Executer) (k : nat) (s : S) :
  isConnected c = true ->
  nth_error (sensors e) k = Some s ->
  nth_error (sensors (fst (cycle c e))) k
  = Some (fst (forceState (forceWorld c k)
                 (sensor (pollSensor (pollWorld c k) s)))) /\
  exists before after,
    snd (cycle c e)
    = before ++ started (pollSensor (pollWorld c k) s) ++ after.
Proof.
  intros Hc Hk. unfold cycle. rewrite Hc. cbn [negb].
  destruct (pollSensors_at (pollWorld c) (sensors e) O k s Hk)
    as (Hn & before & after & Hev).
  destruct (pollSensors (pollWorld c) O (sensors e)) as [ss1 evs1].
  cbn [fst snd] in Hn, Hev.
  pose proof (forceStates_at (forceWorld c) ss1 O k _ Hn) as Hf.
  destruct (forceStates (forceWorld c) O ss1) as [ss2 evs2].
  destruct (fullState (now c) (lastFullStateSent e)) as [last evs3].
  cbn [fst snd sensors] in *. split; [exact Hf|].
  exists before, (after ++ evs2 ++ evs3).
  rewrite Hev, <- !app_assoc. reflexivity.
Qed.

(** C8.  When [forceSendAlert()] returns a sensor alert, the iteration
    starts one sender, the one of that alert, and ends with [oldState]
    equal to the state read after [updateState()], whether or not the state
    changed.  In a run of [execute] the alert is among the senders of the
    pass, and the next pass finds the sensor as this one left it (after
    [forceSendAlert()] and [forceSendState()]) and takes the state to compare
    with from it: when the two hooks left the state read after
    [updateState()] in place, a next pass whose [updateState()] does not
    change it starts no sender for the sensor from the polling loop, so the
    change that came with the forced alert is never reported a second
    time. *)
Theorem pollSensor_forced_alert (w : World) (s s2 : S) (a : SensorAlert) :
  forceSendAlert w (updateState w s) = (Some a, s2) ->
  started (pollSensor w s) = [sendSensorAlert a] /\
  oldState (pollSensor w s) = getState (updateState w s) /\
  currentState (pollSensor w s) = getState (updateState w s) /\
  sensor (pollSensor w s) = s2 /\
  forall (c : Cycle) (e : Executer) (k : nat),
    isConnected c = true ->
    nth_error (sensors e) k = Some s ->
    pollWorld c k = w ->
    let s3 := fst (forceState (forceWorld c k) s2) in
    (exists before after,
       snd (cycle c e) = before ++ [sendSensorAlert a] ++ after) /\
    nth_error (sensors (fst (cycle c e))) k = Some s3 /\
    forall c',
      isConnected c' = true ->
      let w' := pollWorld c' k in
      (exists before after,
         snd (cycle c' (fst (cycle c e)))
         = before ++ started (pollSensor w' s3) ++ after) /\
      (forall s4,
         forceSendAlert w' (updateState w' s3) = (None, s4) ->
         started (pollSensor w' s3)
         = stateTransition (getState s3) (getState (updateState w' s3))
             (attributes s4)) /\
      (forall s4,
         forceSendAlert w' (updateState w' s3) = (None, s4) ->
         getState s3 = getState (updateState w s) ->
         getState (updateState w' s3) = getState (updateState w s) ->
         started (pollSensor w' s3) = []).
Proof.
  intros Hforce.
  assert (Hp : pollSensor w s
               = mkPolled s2 (getState (updateState w s))
                   (getState (updateState w s)) [sendSensorAlert a])
    by (unfold pollSensor; rewrite Hforce; reflexivity).
  rewrite Hp. cbn [started oldState currentState sensor].
  repeat (split; [reflexivity|]).
  intros c e k Hc Hk Hw.
  destruct (cycle_at c e k s Hc Hk) as (Hn & Hev).
  rewrite Hw, Hp in Hn, Hev. cbn [started sensor] in Hn, Hev.
  set (s3 := fst (forceState (forceWorld c k) s2)) in *.
  split; [exact Hev|]. split; [exact Hn|].
  intros c' Hc'. set (w' := pollWorld c' k).
  destruct (cycle_at c' (fst (cycle c e)) k s3 Hc' Hn) as (_ & Hev').
  split; [exact Hev'|].
  assert (Hnone : forall s4,
            forceSendAlert w' (updateState w' s3) = (None, s4) ->
            started (pollSensor w' s3)
            = stateTransition (getState s3) (getState (updateState w' s3))
                (attributes s4))
    by (intros s4 Hf; unfold pollSensor; rewrite Hf; reflexivity).
  split; [exact Hnone|].
  intros s4 Hf Hkept Hsame. rewrite (Hnone s4 Hf), Hkept, Hsame.
  unfold stateTransition. rewrite Z.eqb_refl. reflexivity.
Qed.

(** C9.  When [forceSendAlert()] returns [None] for a sensor whose
    [handlesStateMsgs] is true, the iteration of the polling loop starts no
    sender, whether or not the state changed; the second loop starts for it
    what [forceSendState()] returns and nothing else. *)
Theorem pollSensor_handlesStateMsgs (w : World) (s s2 : S) :
  forceSendAlert w (updateState w s) = (None, s2) ->
  handlesStateMsgs (attributes s2) = true ->
  started (pollSensor w s) = [] /\
  sensor (pollSensor w s) = s2 /\
  forall w',
    snd (forceState w' s2) =
      match fst (forceSendState w' s2) with
      | Some stateChange => [sendStateChange stateChange]
      | None => []
      end.
Proof.
  intros Hforce Hhandles. unfold pollSensor. rewrite Hforce. cbn [started sensor].
  unfold stateTransition. rewrite Hhandles.
  split; [destruct (_ =? _); reflexivity|]. split; [reflexivity|].
  intros w'. unfold forceState.
  destruct (forceSendState w' s2) as [[c|] s3]; reflexivity.
Qed.

(** Neither loop over the sensors starts the sender of the full state. *)
Lemma pollSensor_no_fullState (w : World) (s : S) :
  sentFullState (started (pollSensor w s)) = false.
Proof.
  unfold pollSensor.
  destruct (forceSendAlert w (updateState w s)) as [[a|] s2]; cbn [started].
  - reflexivity.
  - unfold stateTransition.
    destruct (_ =? _); [reflexivity|].
    destruct (handlesStateMsgs (attributes s2)); [reflexivity|].
    destruct (_ =? _), (triggerAlert (attributes s2)),
      (triggerAlertNormal (attributes s2)); reflexivity.
Qed.

Lemma sentFullState_app (l l' : list AsynchronousSender) :
  sentFullState (l ++ l') = sentFullState l || sentFullState l'.
Proof. apply existsb_app. Qed.

Lemma pollSensors_no_fullState (w : nat -> World) (ss : list S) : forall i,
  sentFullState (snd (pollSensors w i ss)) = false.
Proof.
  induction ss as [|s ss IH]; intros i; [reflexivity|].
  cbn [pollSensors]. specialize (IH (Datatypes.S i)).
  destruct (pollSensors w (Datatypes.S i) ss) as [rest evs].
  cbn [snd] in *. rewrite sentFullState_app, pollSensor_no_fullState, IH.
  reflexivity.
Qed.

Lemma forceStates_no_fullState (w : nat -> World) (ss : list S) : forall i,
  sentFullState (snd (forceStates w i ss)) = false.
Proof.
  induction ss as [|s ss IH]; intros i; [reflexivity|].
  cbn [forceStates]. specialize (IH (Datatypes.S i)).
  unfold forceState.
  destruct (forceSendState (w i) s) as [[c|] s'];
    destruct (forceStates w (Datatypes.S i) ss) as [rest evs];
    cbn [snd] in *; rewrite sentFullState_app, IH; reflexivity.
Qed.

(** A connected pass sends the full state exactly when its timestamp is
    more than 60 past [lastFullStateSent], and then records the timestamp;
    a pass that is not connected starts nothing and changes nothing. *)
Lemma cycle_fullState (c : Cycle) (e : Executer) :
  (isConnected c = false -> cycle c e = (e, [])) /\
  (isConnected c = true ->
     sentFullState (snd (cycle c e)) = (now c - lastFullStateSent e >? 60) /\
     lastFullStateSent (fst (cycle c e)) =
       (if now c - lastFullStateSent e >? 60
        then now c else lastFullStateSent e)).
Proof.
  unfold cycle. split; intros C; rewrite C; cbn [negb]; [reflexivity|].
  pose proof (pollSensors_no_fullState (pollWorld c) (sensors e) O) as P.
  destruct (pollSensors (pollWorld c) O (sensors e)) as [ss1 evs1].
  pose proof (forceStates_no_fullState (forceWorld c) ss1 O) as F.
  destruct (forceStates (forceWorld c) O ss1) as [ss2 evs2].
  cbn [snd] in P, F. unfold fullState.
  destruct (now c - lastFullStateSent e >? 60); cbn [fst snd lastFullStateSent];
    rewrite !sentFullState_app, P, F; split; reflexivity.
Qed.

(** Over connected passes, the passes that send the full state are those
    the timer picks. *)
Lemma passes_timerRun (cs : list Cycle) : forall e,
  Forall (fun c => isConnected c = true) cs ->
  fullStateTimes cs (passes cs e) = timerRun (lastFullStateSent e) (map now cs).
Proof.
  induction cs as [|c cs IH]; intros e Hall; [reflexivity|].
  inversion Hall as [|? ? Hc Hrest]; subst.
  cbn [passes map timerRun].
  destruct (cycle_fullState c e) as (_ & Hcycle).
  destruct (Hcycle Hc) as (Hsent & Hlast).
  destruct (cycle c e) as [e' evs]. cbn [fst snd] in Hsent, Hlast.
  cbn [fullStateTimes]. rewrite Hsent, (IH e' Hrest), Hlast.
  destruct (now c - lastFullStateSent e >? 60); reflexivity.
Qed.

End PollingLoop.


Section FullStateTimer.

(** The first time the timer fires is more than 60 past the time it holds,
    and the times it fires are more than 60 apart. *)
Lemma timerRun_spaced times : forall last,
  match timerRun last times with
  | t :: _ => t - last > 60
  | [] => True
  end /\
  spaced 60 (timerRun last times).
Proof.
  induction times as [|u times IH]; intros last; [simpl; auto|].
  cbn [timerRun].
  destruct (Z.gtb_spec (u - last) 60) as [G|G].
  - destruct (IH u) as (H1 & H2). split; [lia|].
    destruct (timerRun u times) as [|t rest]; [exact I|].
    split; [lia | exact H2].
  - apply IH.
Qed.

(** When the passes never lie more than [g] apart, the timer has last fired
    before [w] and the passes go on until [w + 60] or later, the timer fires
    at some time from [w] on and before [w + 60 + g]. *)
Lemma timerRun_window g w times : forall last prev,
  prev - last <= 60 ->
  last < w ->
  paced g prev times ->
  (exists T, In T times /\ T >= w + 60) ->
  exists t, In t (timerRun last times) /\ w <= t < w + 60 + g.
Proof.
  induction times as [|u times IH]; intros last prev Hprev Hlast Hpaced (T & HT & Hlate).
  - destruct HT.
  - destruct Hpaced as (Hu & Hrest). cbn [timerRun].
    destruct (Z.gtb_spec (u - last) 60) as [G|G].
    + destruct (Z.le_gt_cases w u) as [Hw|Hw].
      * exists u. split; [left; reflexivity | lia].
      * destruct (IH u u) as (t & Ht & Hin); try lia; try assumption.
        { exists T. split; [|assumption]. destruct HT as [->|HT]; [lia | exact HT]. }
        exists t. split; [right; exact Ht | exact Hin].
    + apply (IH last u); try lia; try assumption.
      exists T. split; [|assumption]. destruct HT as [->|HT]; [lia | exact HT].
Qed.

End FullStateTimer.

Section FullStateClaims.
Import SensorExecuter.
Context {S : Type} `{PollingSensor S}.

(** C7, as amended.  While [execute] runs connected, a pass sends the full
    sensor state exactly when its timestamp is more than 60 past
    [lastFullStateSent], and then sets [lastFullStateSent] to it; nothing
    else in the loop sends it.  So the first connected pass sends one when
    the clock reads more than 60, two in a row are more than 60 seconds
    apart, and when the timestamps of the passes never lie more than [g]
    apart, every window of [60 + g] seconds that starts at or after the
    first pass, with passes going on for 60 seconds from its start, holds a
    pass that sends one. *)
Theorem execute_fullState_timer (cs : list Cycle) (ss : list S) :
  Forall (fun c => isConnected c = true) cs ->
  (forall c e,
     isConnected c = true ->
     sentFullState (snd (cycle c e)) = (now c - lastFullStateSent e >? 60) /\
     lastFullStateSent (fst (cycle c e)) =
       (if now c - lastFullStateSent e >? 60
        then now c else lastFullStateSent e))
  /\
  fullStateTimes cs (execute cs ss) = timerRun 0 (map now cs)
  /\
  (forall c rest,
     cs = c :: rest -> now c > 60 ->
     exists times, fullStateTimes cs (execute cs ss) = now c :: times)
  /\
  spaced 60 (fullStateTimes cs (execute cs ss))
  /\
  (forall g w c rest,
     cs = c :: rest ->
     60 < now c <= w ->
     paced g (now c) (map now rest) ->
     (exists c', In c' rest /\ now c' >= w + 60) ->
     exists t, In t (fullStateTimes cs (execute cs ss)) /\ w <= t < w + 60 + g).
Proof.
  intros Hconn.
  assert (Hrun : fullStateTimes cs (execute cs ss) = timerRun 0 (map now cs))
    by (unfold execute; rewrite passes_timerRun by exact Hconn; reflexivity).
  split; [intros c e Hc; apply (proj2 (cycle_fullState c e) Hc)|].
  split; [exact Hrun|]. rewrite Hrun.
  split; [|split].
  - intros c rest -> Hnow. cbn [map timerRun].
    destruct (Z.gtb_spec (now c - 0) 60); [|lia].
    eexists. reflexivity.
  - apply timerRun_spaced.
  - intros g w c rest -> Hnow Hpaced (c' & Hin & Hlate).
    cbn [map timerRun].
    destruct (Z.gtb_spec (now c - 0) 60); [|lia].
    destruct (Z.eq_dec (now c) w) as [E|E].
    + exists (now c). split; [left; reflexivity|].
      assert (0 <= g); [|lia].
      clear - Hpaced Hin. revert Hpaced Hin. generalize (now c).
      induction rest as [|r rest IH]; intros z Hp Hi; [destruct Hi|].
      destruct Hp as (Hz & _). lia.
    + destruct (timerRun_window g w (map now rest) (now c) (now c))
        as (t & Ht & Hw); try lia; try assumption.
      { exists (now c'). split; [apply in_map; exact Hin | exact Hlate]. }
      exists t. split; [right; exact Ht | exact Hw].
Qed.

End FullStateClaims.

Section PollingLoopSamples.
Import SensorExecuter.

(** The scripted sensor goes from 0 to its trigger state 1 and asks for no
    alert: the loop sends the sensor alert with state 1. *)
Lemma pollSensor_state_transition_witness :
  started (pollSensor (Sample.world 5 1) (Sample.scripted false None))
  = [sendSensorAlert
       (mkSensorAlert 7 1 false None true false SensorDataType.NONE DataNone)].
Proof.
  assert (Hforce : forceSendAlert (Sample.world 5 1)
                     (updateState (Sample.world 5 1) (Sample.scripted false None))
                   = (None, updateState (Sample.world 5 1) (Sample.scripted false None)))
    by reflexivity.
  assert (Hhandles : handlesStateMsgs
                       (attributes (updateState (Sample.world 5 1)
                                      (Sample.scripted false None))) = false)
    by reflexivity.
  destruct (pollSensor_state_transition _ _ _ Hforce Hhandles) as (_ & Hdiff).
  destruct Hdiff as (_ & Halert & _); [vm_compute; discriminate|].
  apply Halert; reflexivity.
Defined.

(** The scripted sensor changes state and asks for an alert of its own:
    only that alert is sent.  In a run, the sensor that asks once: at the
    pass at 5 the pin reads 1, the state goes from 0 to 1 and the alert
    asked for is the only sender started; at the pass at 6 the pin still
    reads 1 and nothing is started, the state 1 having become the state to
    compare with. *)
Lemma pollSensor_forced_alert_witness :
  started (pollSensor (Sample.world 5 1) (Sample.scripted false (Some Sample.forced)))
  = [sendSensorAlert Sample.forced] /\
  passes [Sample3.pass 5 1; Sample3.pass 6 1] (mkExecuter [Sample3.oneShot] 0)
  = [[sendSensorAlert Sample.forced]; []] /\
  (exists before after,
     snd (cycle (Sample3.pass 5 1) (mkExecuter [Sample3.oneShot] 0))
     = before ++ [sendSensorAlert Sample.forced] ++ after) /\
  started
    (pollSensor (Sample.world 6 1)
       (fst (forceState (Sample.world 5 1)
               (snd (forceSendAlert (Sample.world 5 1)
                       (updateState (Sample.world 5 1) Sample3.oneShot))))))
  = [].
Proof.
  assert (Hforce : forceSendAlert (Sample.world 5 1)
                     (updateState (Sample.world 5 1)
                        (Sample.scripted false (Some Sample.forced)))
                   = (Some Sample.forced,
                      updateState (Sample.world 5 1)
                        (Sample.scripted false (Some Sample.forced))))
    by reflexivity.
  split; [exact (proj1 (pollSensor_forced_alert _ _ _ _ Hforce))|].
  split; [reflexivity|].
  assert (Hone : forceSendAlert (Sample.world 5 1)
                   (updateState (Sample.world 5 1) Sample3.oneShot)
                 = (Some Sample.forced,
                    snd (forceSendAlert (Sample.world 5 1)
                           (updateState (Sample.world 5 1) Sample3.oneShot))))
    by reflexivity.
  destruct (pollSensor_forced_alert _ _ _ _ Hone) as (_ & _ & _ & _ & Hrun).
  assert (Hk : nth_error (sensors (mkExecuter [Sample3.oneShot] 0)) 0
               = Some Sample3.oneShot) by reflexivity.
  destruct (Hrun (Sample3.pass 5 1) (mkExecuter [Sample3.oneShot] 0) O
              eq_refl Hk eq_refl) as (Hsent & _ & Hnext).
  split; [exact Hsent|].
  destruct (Hnext (Sample3.pass 6 1) eq_refl) as (_ & _ & Hquiet).
  exact (Hquiet _ eq_refl eq_refl eq_refl).
Defined.

(** The scripted sensor changes state but handles its state messages
    itself: nothing is sent. *)
Lemma pollSensor_handlesStateMsgs_witness :
  getState (Sample.scripted true None)
    <> getState (updateState (Sample.world 5 1) (Sample.scripted true None)) /\
  started (pollSensor (Sample.world 5 1) (Sample.scripted true None)) = [].
Proof.
  split; [vm_compute; discriminate|].
  assert (Hforce : forceSendAlert (Sample.world 5 1)
                     (updateState (Sample.world 5 1) (Sample.scripted true None))
                   = (None, updateState (Sample.world 5 1) (Sample.scripted true None)))
    by reflexivity.
  assert (Hhandles : handlesStateMsgs
                       (attributes (updateState (Sample.world 5 1)
                                      (Sample.scripted true None))) = true)
    by reflexivity.
  exact (proj1 (pollSensor_handlesStateMsgs _ _ _ Hforce Hhandles)).
Defined.

(** Passes at 100, 130, 160 and 190: the full state is sent at 100 and at
    190, and the window of 60 + 30 seconds that starts at 101 holds the
    second. *)
Lemma execute_fullState_timer_witness :
  let cs := map Sample.connectedPass [100; 130; 160; 190] in
  fullStateTimes cs (execute cs [Sample.scripted false None]) = [100; 190] /\
  exists t, In t (fullStateTimes cs (execute cs [Sample.scripted false None]))
            /\ 101 <= t < 101 + 60 + 30.
Proof.
  intro cs.
  assert (Hconn : Forall (fun c => isConnected c = true) cs)
    by (repeat constructor).
  destruct (execute_fullState_timer cs [Sample.scripted false None] Hconn)
    as (_ & Hrun & _ & _ & Hwindow).
  split; [rewrite Hrun; reflexivity|].
  apply (Hwindow 30 101 (Sample.connectedPass 100)
           (map Sample.connectedPass [130; 160; 190]) eq_refl).
  - simpl. lia.
  - simpl. lia.
  - exists (Sample.connectedPass 190). simpl. split; [tauto | lia].
Defined.

(** C7, as stated, fails.  With two connected passes in every second from
    100 to 161, the full state is sent at 100 and next at 161: the 60
    seconds from 101 to 160 go by without one. *)
Lemma fullState_missing_from_60_second_window :
  let cs := map Sample.connectedPass (Sample.ticks 100 62) in
  let sent := fullStateTimes cs (execute cs [Sample.scripted false None]) in
  Forall (fun c => isConnected c = true) cs /\
  (forall t, 100 <= t <= 161 -> exists c, In c cs /\ now c = t) /\
  sent = [100; 161] /\
  ~ (exists t, In t sent /\ 101 <= t < 101 + 60).
Proof.
  intros cs sent.
  assert (Hsent : sent = [100; 161]) by (vm_compute; reflexivity).
  split; [|split; [|split]].
  - apply Forall_forall. intros c Hin.
    apply in_map_iff in Hin. destruct Hin as (t & <- & _). reflexivity.
  - intros t Ht. exists (Sample.connectedPass t). split; [|reflexivity].
    apply in_map. unfold Sample.ticks. apply in_flat_map.
    exists (Z.to_nat (t - 100)). split.
    + apply in_seq. lia.
    + left. lia.
  - exact Hsent.
  - rewrite Hsent. intros (t & [<-|[<-|[]]] & Ht); lia.
Qed.

End PollingLoopSamples.


(* ===================================================================== *)
(** * Properties of the local option relay *)
(* ===================================================================== *)

Section LocalServerFacts.
Import LocalServer.
Local Open Scope string_scope.

Variable json_loads : string -> option json.
Variable py_str : json -> option string.
Variable py_float : json -> option float.
Variable py_int : json -> option Z.
Variable time_time : Z.
Variable request_send : json -> bool.
Variable sendOption : string -> float -> Z -> bool.

Abbreviation handle :=
  (handle json_loads py_str py_float py_int time_time request_send sendOption).
Abbreviation send_error := (send_error time_time request_send).

(** An error message cannot be built while [incomingMessage] is unbound:
    the [try] block raises before it sends, and the exception is dropped. *)
Lemma send_error_unbound reason fr :
  incomingMessage fr = None ->
  send_error reason fr = (fr, Normal tt).
Proof.
  intros U. unfold LocalServer.send_error, try_pass, try_except,
    incoming_message_tag, bind, read_incomingMessage.
  rewrite U. reflexivity.
Qed.

(** Nor while [incomingMessage] is bound to something without a
    [message]. *)
Lemma send_error_no_tag reason fr j :
  incomingMessage fr = Some j ->
  (forall items, j = JObject items -> lookup "message" items = None) ->
  send_error reason fr = (fr, Normal tt).
Proof.
  intros B N. unfold LocalServer.send_error, try_pass, try_except,
    incoming_message_tag, bind, read_incomingMessage, getitem.
  rewrite B. destruct j; try reflexivity.
  rewrite (N items eq_refl). reflexivity.
Qed.

(** Case analysis on the innermost test of the goal. *)
Ltac innermost_case :=
  match goal with
  | |- context [match ?x with _ => _ end] =>
      lazymatch x with
      | context [match _ with _ => _ end] => fail
      | _ => destruct x eqn:?
      end
  end.

(** Once [recv] has returned the data, and with a [sendOption] that
    returns: whatever the data, the conversions and the socket do, [handle]
    ends by returning, never by raising, and it sends at most one message. *)
Lemma handle_returns (data : string) :
  snd (handle data) = Return /\ (List.length (fst (handle data)) <= 1)%nat.
Proof.
  unfold LocalServer.handle, handle_body, extract_option, LocalServer.send_error,
    incoming_message_tag, try_pass, try_except, bind, getitem, orRaise, send,
    read_incomingMessage, assign_incomingMessage, ret, raise, return_.
  repeat (innermost_case; cbn [sent incomingMessage fst snd] in *;
          try discriminate).
  all: cbn [sent incomingMessage fst snd rev app List.length]; split;
    [reflexivity | lia].
Qed.

Lemma differs_false (v : json) (text : string) :
  differs v text = false -> v = JString text.
Proof.
  destruct v; simpl; try discriminate.
  intros E. apply negb_false_iff, String.eqb_eq in E. now subst.
Qed.

(** When the received bytes parse to a dictionary with a [message] and the
    socket accepts the reply, [handle] sends exactly one message: the
    response [ok] when the message is an option message whose payload
    converts, names [alertSystemActive] and is accepted by [sendOption], and
    an error response with one of four reasons in every other case. *)
Lemma handle_replies (data : string) (items : list (string * json)) (tag : json) :
  json_loads data = Some (JObject items) ->
  lookup "message" items = Some tag ->
  (forall m, request_send m = true) ->
  exists reply,
    handle data = ([reply], Return) /\
    ((reply = ok_response time_time /\
      exists v d, sendOption "alertSystemActive" v d = true)
     \/
     (exists reason,
        reply = error_response time_time tag reason /\
        In reason ["only option message valid";
                   "received attributes invalid";
                   "only option type 'alertSystemActive' allowed";
                   "sending message to server failed"] /\
        (reason = "sending message to server failed" ->
         exists v d, sendOption "alertSystemActive" v d = false))).
Proof.
  intros Hparse Htag Hsend.
  unfold LocalServer.handle, handle_body, extract_option, LocalServer.send_error,
    incoming_message_tag, try_pass, try_except, bind, getitem, orRaise, send,
    read_incomingMessage, assign_incomingMessage, ret, raise, return_.
  rewrite Hparse. cbn [sent incomingMessage]. rewrite Htag.
  repeat (cbn [sent incomingMessage fst snd]; rewrite ?Hsend, ?Htag;
          innermost_case; try discriminate;
          try match goal with
              | E : request_send _ = false |- _ => rewrite Hsend in E; discriminate
              end).
  all: cbn [sent incomingMessage fst snd rev app]; rewrite ?Hsend, ?Htag;
    cbn [sent incomingMessage fst snd rev app];
    eexists; (split; [reflexivity|]).
  all: repeat match goal with
         | E : differs _ _ = false |- _ => apply differs_false in E; subst
         | E : negb (String.eqb _ _) = false |- _ =>
             apply negb_false_iff, String.eqb_eq in E; subst
         end.
  all: first
         [ left; split; [reflexivity | eauto]
         | right; eexists; split; [reflexivity|]; split;
           [ cbn [In]; tauto | intros; try discriminate; eauto ] ].
Qed.

(** C3.  When the received bytes are not valid JSON, [handle] sends nothing
    at all and returns: the error message that the [except] branch builds
    reads [incomingMessage["message"]], [incomingMessage] was never
    assigned, and the exception this raises is caught and dropped before
    anything is sent.  The same happens when the bytes are valid JSON that
    is not a dictionary with a [message]. *)
Theorem handle_invalid_json_no_reply (data : string) :
  (json_loads data = None \/
   exists j, json_loads data = Some j /\
             forall items, j = JObject items -> lookup "message" items = None) ->
  handle data = ([], Return).
Proof.
  intros [Hbad | (j & Hj & Hno)];
    unfold LocalServer.handle, handle_body, bind, try_except, orRaise at 1.
  - rewrite Hbad. cbn [raise].
    rewrite send_error_unbound by reflexivity. reflexivity.
  - rewrite Hj. cbn [ret assign_incomingMessage sent incomingMessage].
    unfold incoming_message_tag at 1, bind, read_incomingMessage, getitem.
    cbn [incomingMessage].
    assert (Hraise : exists e,
               match j with
               | JObject items => orRaise KeyError (lookup "message" items)
               | _ => raise TypeError
               end (mkFrame [] (Some j)) = (mkFrame [] (Some j), Raise e)).
    { destruct j; try (eexists; reflexivity).
      rewrite (Hno items eq_refl). eexists; reflexivity. }
    destruct Hraise as (e & ->).
    rewrite (send_error_no_tag _ _ j) by (auto; reflexivity). reflexivity.
Qed.

End LocalServerFacts.

(** With the sample library, the bytes [not json] are rejected by
    [json.loads], and the client gets no reply. *)
Lemma handle_invalid_json_no_reply_witness :
  LocalServer.handle Sample.json_loads Sample.py_str Sample.py_float Sample.py_int
    1700000000 (fun _ => true) (fun _ _ _ => true) "not json"
  = ([], LocalServer.Return).
Proof.
  apply handle_invalid_json_no_reply. left. reflexivity.
Defined.

(* ===================================================================== *)
(** * Further properties of the threshold-polling sensor *)
(* ===================================================================== *)

Section GPIOPollingMore.
Import GPIOPolling.

Implicit Types s : RaspberryPiGPIOPollingSensor.

Lemma set_state_same (p : _PollingSensor) : set_state (state p) p = p.
Proof. destruct p; reflexivity. Qed.

Lemma set_state_twice (v v' : Z) (p : _PollingSensor) :
  set_state v (set_state v' p) = set_state v p.
Proof. reflexivity. Qed.

(** One call of [updateState]: the pin and the threshold stay, the state
    stays or becomes the value read, nothing else of the sensor changes, and
    a counter that is not negative stays so. *)
Lemma updateState_read_frame s r :
  gpioPin (updateState_read r s) = gpioPin s /\
  thresStateCtr (updateState_read r s) = thresStateCtr s /\
  base (updateState_read r s) = set_state (getState (updateState_read r s)) (base s) /\
  (getState (updateState_read r s) = getState s \/
   getState (updateState_read r s) = r) /\
  (0 <= currStateCtr s -> 0 <= currStateCtr (updateState_read r s)).
Proof.
  unfold updateState_read, getState.
  destruct (negb (r =? state (base s)));
    [destruct (currStateCtr s + 1 >=? thresStateCtr s)|];
    cbn [gpioPin thresStateCtr base currStateCtr state set_state];
    rewrite ?set_state_same; repeat split; auto; lia.
Qed.

Lemma updateStates_thresStateCtr (reads : list Z) : forall s,
  thresStateCtr (updateStates reads s) = thresStateCtr s.
Proof.
  induction reads as [|r reads IH]; intros s; [reflexivity|].
  change (updateStates (r :: reads) s)
    with (updateStates reads (updateState_read r s)).
  rewrite IH. apply updateState_read_frame.
Qed.

(** X2.  Whatever is read, the state of a polling sensor is the state it
    started with or one of the values read; the pin and the threshold never
    change, no attribute other than the state changes, and the counter never
    becomes negative. *)
Theorem polling_state_among_reads (reads : list Z) s :
  In (getState (updateStates reads s)) (getState s :: reads) /\
  gpioPin (updateStates reads s) = gpioPin s /\
  thresStateCtr (updateStates reads s) = thresStateCtr s /\
  base (updateStates reads s) = set_state (getState (updateStates reads s)) (base s) /\
  (0 <= currStateCtr s -> 0 <= currStateCtr (updateStates reads s)).
Proof.
  revert s. induction reads as [|r reads IH]; intros s.
  - cbn [updateStates fold_left]. unfold getState. rewrite set_state_same.
    repeat split; auto. left; reflexivity.
  - change (updateStates (r :: reads) s)
      with (updateStates reads (updateState_read r s)).
    destruct (updateState_read_frame s r) as (Fp & Ft & Fb & Fs & Fc).
    destruct (IH (updateState_read r s)) as (Hin & Hp & Ht & Hb & Hc).
    split; [|split; [|split; [|split]]].
    + destruct Hin as [E|Hin].
      * rewrite <- E. destruct Fs as [-> | ->]; [left | right; left]; reflexivity.
      * right; right; exact Hin.
    + congruence.
    + congruence.
    + rewrite Hb, Fb. apply set_state_twice.
    + auto.
Qed.

(** X1.  A read that matches the state resets the counter.  After it, reads
    that all differ from the state and are fewer than [thresStateCtr] leave
    the state as it is, and the read that brings their number to
    [thresStateCtr] becomes the new state. *)
Theorem polling_debounce_after_matching_read s (m : Z) (reads : list Z) :
  m = getState s ->
  Forall (fun r => r <> getState s) reads ->
  (Z.of_nat (List.length reads) < thresStateCtr s ->
   getState (updateStates (m :: reads) s) = getState s)
  /\
  (forall r,
     r <> getState s ->
     Z.of_nat (List.length reads) + 1 = thresStateCtr s ->
     getState (updateStates (m :: reads ++ [r]) s) = r).
Proof.
  intros Hm Hdiff.
  destruct (updateState_read_same s m Hm) as (Hs1 & Hc1).
  destruct (updateState_read_frame s m) as (_ & Ht1 & _).
  set (s1 := updateState_read m s) in *.
  assert (Hshort : Z.of_nat (List.length reads) < thresStateCtr s ->
                   getState (updateStates reads s1) = getState s /\
                   currStateCtr (updateStates reads s1) = Z.of_nat (List.length reads)).
  { intros Hlen.
    destruct (updateStates_short_run reads s1) as (R1 & R2).
    - lia.
    - rewrite Hs1. exact Hdiff.
    - rewrite Hc1, Ht1. lia.
    - rewrite R1, R2, Hs1, Hc1. split; [reflexivity | lia]. }
  split.
  - intros Hlen. apply (Hshort Hlen).
  - intros r Hr Hlen.
    destruct Hshort as (R1 & R2); [lia|].
    pose proof (updateStates_thresStateCtr reads s1) as Ht2.
    change (updateStates (m :: reads ++ [r]) s) with (updateStates (reads ++ [r]) s1).
    assert (E : updateStates (reads ++ [r]) s1
                = updateState_read r (updateStates reads s1))
      by (unfold updateStates; rewrite fold_left_app; reflexivity).
    rewrite E. clear E.
    generalize dependent (updateStates reads s1). intros s2 R1 R2 Ht2.
    unfold updateState_read, getState in *.
    rewrite R1. destruct (Z.eqb_spec r (state (base s))); [contradiction|].
    cbn [negb]. rewrite R2, Ht2, Ht1.
    destruct (Z.geb_spec (Z.of_nat (List.length reads) + 1) (thresStateCtr s)); [|lia].
    reflexivity.
Qed.

End GPIOPollingMore.

(* ===================================================================== *)
(** * Further properties of the edge-interrupt sensor *)
(* ===================================================================== *)

Section GPIOInterruptMore.
Import GPIOInterrupt.

Implicit Types s : RaspberryPiGPIOInterruptSensor.

(** What [updateState] never touches. *)
Lemma updateState_at_frame u s :
  triggerState (base (updateState_at u s)) = triggerState (base s) /\
  delayBetweenTriggers (updateState_at u s) = delayBetweenTriggers s /\
  timeSensorTriggered (updateState_at u s) = timeSensorTriggered s /\
  edgeCountBeforeTrigger (updateState_at u s) = edgeCountBeforeTrigger s /\
  lastTimeTriggered (updateState_at u s) = lastTimeTriggered s /\
  edgeCounter (updateState_at u s) = edgeCounter s.
Proof. unfold updateState_at. simpl. auto 10. Qed.

(** One event keeps the configuration, keeps the two states among the
    trigger state and the normal state, and keeps the counter positive. *)
Lemma interruptStep_invariant (e : InterruptEvent) s (trig : Z) :
  triggerState (base s) = trig ->
  (state (base s) = trig \/ state (base s) = 1 - trig) ->
  (_internalState s = trig \/ _internalState s = 1 - trig) ->
  0 <= edgeCounter s ->
  triggerState (base (interruptStep e s)) = trig /\
  (state (base (interruptStep e s)) = trig \/
   state (base (interruptStep e s)) = 1 - trig) /\
  (_internalState (interruptStep e s) = trig \/
   _internalState (interruptStep e s) = 1 - trig) /\
  0 <= edgeCounter (interruptStep e s) /\
  delayBetweenTriggers (interruptStep e s) = delayBetweenTriggers s /\
  timeSensorTriggered (interruptStep e s) = timeSensorTriggered s /\
  edgeCountBeforeTrigger (interruptStep e s) = edgeCountBeforeTrigger s.
Proof.
  intros Ht Hs Hi Hc. destruct e as [t|u]; cbn [interruptStep].
  - unfold _interruptCallback.
    destruct (t - lastTimeTriggered s >? delayBetweenTriggers s);
      [|destruct (edgeCounter s + 1 >=? edgeCountBeforeTrigger s)];
      cbn [base edgeCounter _internalState delayBetweenTriggers
             timeSensorTriggered edgeCountBeforeTrigger];
      repeat split; auto; lia.
  - unfold updateState_at.
    destruct ((state (base s) =? triggerState (base s))
              && (u - lastTimeTriggered s >? timeSensorTriggered s));
      cbn [base edgeCounter _internalState delayBetweenTriggers
             timeSensorTriggered edgeCountBeforeTrigger set_state state triggerState];
      repeat split; auto; lia.
Qed.

(** X3.  From [initializeSensor] on, under every interleaving of interrupt
    callbacks and calls of [updateState()], [state] and [_internalState] are
    each the trigger state or the normal state [1 - triggerState], the
    configured delays and edge count stay as configured, and the edge
    counter is never negative. *)
Theorem interrupt_states_stay_binary (cfg s0 : RaspberryPiGPIOInterruptSensor)
    (es : list InterruptEvent) :
  initializeSensor cfg = Some s0 ->
  0 <= edgeCounter cfg ->
  let s := interruptRun es s0 in
  let trig := triggerState (base cfg) in
  triggerState (base s) = trig /\
  (state (base s) = trig \/ state (base s) = 1 - trig) /\
  (_internalState s = trig \/ _internalState s = 1 - trig) /\
  0 <= edgeCounter s /\
  delayBetweenTriggers s = delayBetweenTriggers cfg /\
  timeSensorTriggered s = timeSensorTriggered cfg /\
  edgeCountBeforeTrigger s = edgeCountBeforeTrigger cfg.
Proof.
  intros Hinit Hc s trig. subst s.
  assert (H0 : triggerState (base s0) = trig /\
               (state (base s0) = trig \/ state (base s0) = 1 - trig) /\
               (_internalState s0 = trig \/ _internalState s0 = 1 - trig) /\
               0 <= edgeCounter s0 /\
               delayBetweenTriggers s0 = delayBetweenTriggers cfg /\
               timeSensorTriggered s0 = timeSensorTriggered cfg /\
               edgeCountBeforeTrigger s0 = edgeCountBeforeTrigger cfg).
  { unfold initializeSensor in Hinit.
    destruct ((pulledUpOrDown cfg =? 0) || (pulledUpOrDown cfg =? 1)); [|discriminate].
    destruct ((edge cfg =? 0) || (edge cfg =? 1)); [|discriminate].
    injection Hinit as <-. simpl. repeat split; auto. }
  clear Hinit. revert s0 H0.
  induction es as [|e es IH]; intros s0 H0; [exact H0|].
  change (interruptRun (e :: es) s0) with (interruptRun es (interruptStep e s0)).
  destruct H0 as (Ht & Hs & Hi & Hk & Hd & Hts & He).
  destruct (interruptStep_invariant e s0 trig Ht Hs Hi Hk)
    as (Ht' & Hs' & Hi' & Hk' & Hd' & Hts' & He').
  apply IH. repeat split; auto; congruence.
Qed.

(** A poll of a triggered sensor within [timeSensorTriggered] of the last
    trigger changes nothing of what the polls read. *)
Lemma updateState_at_still_triggered u s :
  state (base s) = triggerState (base s) ->
  _internalState s = triggerState (base s) ->
  u - lastTimeTriggered s <= timeSensorTriggered s ->
  state (base (updateState_at u s)) = triggerState (base s) /\
  _internalState (updateState_at u s) = triggerState (base s).
Proof.
  intros Hs Hi Hu. unfold updateState_at. simpl.
  destruct (Z.gtb_spec (u - lastTimeTriggered s) (timeSensorTriggered s)); [lia|].
  rewrite andb_false_r. auto.
Qed.

(** Polls of a sensor that is normal, with no interrupt between them, leave
    it normal. *)
Lemma interruptUpdates_stay_normal (us : list Z) : forall s,
  state (base s) = 1 - triggerState (base s) ->
  _internalState s = 1 - triggerState (base s) ->
  map getState (interruptUpdates us s)
  = repeat (1 - triggerState (base s)) (List.length us).
Proof.
  induction us as [|u us IH]; intros s Hs Hi; [reflexivity|].
  cbn [interruptUpdates map List.length repeat].
  assert (N : state (base s) <> triggerState (base s)) by lia.
  destruct (updateState_at_normal u s N) as (U1 & U2).
  rewrite U1, Hi. f_equal.
  rewrite (IH (updateState_at u s)).
  - reflexivity.
  - unfold getState in U1. rewrite U1, Hi. reflexivity.
  - rewrite U2, Hi. reflexivity.
Qed.

(** X4.  With no further interrupt, a triggered sensor reads as triggered at
    every poll up to [timeSensorTriggered] seconds after [lastTimeTriggered],
    and as normal at the first poll later than that and at every poll after
    it. *)
Theorem interrupt_triggered_then_normal (us us' : list Z) (u' : Z) : forall s,
  state (base s) = triggerState (base s) ->
  _internalState s = triggerState (base s) ->
  Forall (fun u => u - lastTimeTriggered s <= timeSensorTriggered s) us ->
  u' - lastTimeTriggered s > timeSensorTriggered s ->
  map getState (interruptUpdates (us ++ u' :: us') s)
  = repeat (triggerState (base s)) (List.length us)
    ++ repeat (1 - triggerState (base s)) (Datatypes.S (List.length us')).
Proof.
  induction us as [|u us IH]; intros s Hs Hi Hus Hu'.
  - cbn [app List.length repeat interruptUpdates map].
    assert (R : state (base (updateState_at u' s)) = 1 - triggerState (base s) /\
                _internalState (updateState_at u' s) = 1 - triggerState (base s)).
    { unfold updateState_at. simpl. rewrite Hs, Z.eqb_refl.
      destruct (Z.gtb_spec (u' - lastTimeTriggered s) (timeSensorTriggered s)); [|lia].
      simpl. auto. }
    destruct R as (R1 & R2). unfold getState at 1. rewrite R1. f_equal.
    rewrite (interruptUpdates_stay_normal us' (updateState_at u' s)); auto.
  - inversion Hus as [|? ? Hu Hrest]; subst.
    destruct (updateState_at_still_triggered u s Hs Hi Hu) as (T1 & T2).
    destruct (updateState_at_frame u s) as (Ft & _ & Fts & _ & Fl & _).
    cbn [app List.length repeat interruptUpdates map].
    unfold getState at 1. rewrite T1. f_equal.
    rewrite (IH (updateState_at u s)).
    + rewrite Ft. reflexivity.
    + rewrite Ft. exact T1.
    + rewrite Ft. exact T2.
    + rewrite Fl, Fts. exact Hrest.
    + rewrite Fl, Fts. exact Hu'.
Qed.

(** X15.  Interrupts that each arrive more than [delayBetweenTriggers]
    seconds after the one before (the first one after [lastTimeTriggered])
    never trigger a normal sensor, whatever [edgeCountBeforeTrigger] is and
    however the polls fall between them: each one only restarts the edge
    count at 1. *)
Theorem interrupt_isolated_edges_never_trigger (es : list InterruptEvent) : forall s,
  state (base s) = 1 - triggerState (base s) ->
  _internalState s = 1 - triggerState (base s) ->
  spaced (delayBetweenTriggers s) (lastTimeTriggered s :: edgeTimes es) ->
  state (base (interruptRun es s)) = 1 - triggerState (base s) /\
  _internalState (interruptRun es s) = 1 - triggerState (base s) /\
  (edgeTimes es <> [] -> edgeCounter (interruptRun es s) = 1).
Proof.
  induction es as [|e es IH]; intros s Hs Hi Hsp.
  - cbn [interruptRun fold_left edgeTimes]. repeat split; auto.
    intros C. now elim C.
  - change (interruptRun (e :: es) s) with (interruptRun es (interruptStep e s)).
    destruct e as [t|u]; cbn [interruptStep edgeTimes] in *.
    + destruct Hsp as (Hlate & Hsp).
      destruct (_interruptCallback_late t s Hlate) as (L1 & L2 & L3).
      destruct (_interruptCallback_frame t s) as (Fb & Fd & _ & _).
      destruct (IH (_interruptCallback t s)) as (I1 & I2 & I3).
      * rewrite Fb. exact Hs.
      * rewrite L3, Fb. exact Hi.
      * rewrite Fd, L2. exact Hsp.
      * rewrite Fb in I1, I2. repeat split; auto.
        intros _. destruct (edgeTimes es) as [|t' ts] eqn:E.
        -- assert (R : forall es0 s0, edgeTimes es0 = [] ->
                        edgeCounter (interruptRun es0 s0) = edgeCounter s0).
           { clear. induction es0 as [|[t|u] es0 IH0]; intros s0 E0;
               [reflexivity | discriminate |].
             change (interruptRun (Poll u :: es0) s0)
               with (interruptRun es0 (updateState_at u s0)).
             rewrite IH0 by exact E0. apply updateState_at_frame. }
           rewrite (R es _ E). exact L1.
        -- apply I3. discriminate.
    + assert (N : state (base s) <> triggerState (base s)) by lia.
      destruct (updateState_at_normal u s N) as (U1 & U2).
      destruct (updateState_at_frame u s) as (Ft & Fd & _ & _ & Fl & _).
      destruct (IH (updateState_at u s)) as (I1 & I2 & I3).
      * rewrite Ft. unfold getState in U1. rewrite U1. exact Hi.
      * rewrite Ft, U2. exact Hi.
      * rewrite Fd, Fl. exact Hsp.
      * rewrite Ft in I1, I2. repeat split; auto.
Qed.

End GPIOInterruptMore.

(* ===================================================================== *)
(** * Further properties of the temperature sensor *)
(* ===================================================================== *)

Section FloatOrderMore.

(** For two floats that compare (neither is a NaN), [a <= b] is the
    negation of [a > b]. *)
Lemma float_leb_negb_gt (a b : float) :
  ((a <=? b) || (b <=? a))%float = true ->
  (a <=? b)%float = negb (b <? a)%float.
Proof.
  rewrite !leb_spec, ltb_spec. unfold SFleb, SFltb.
  rewrite (SFcompare_swap (Prim2SF a) (Prim2SF b)).
  destruct (SFcompare (Prim2SF a) (Prim2SF b)) as [[]|]; simpl;
    intros; try discriminate; reflexivity.
Qed.

End FloatOrderMore.

Section DS18b20More.
Import DS18b20.

Implicit Types s : RaspberryPiDS18b20Sensor.

(** What one call of [forceSendState] does: it answers exactly when more
    than [interval] seconds have passed since [lastUpdate], then records its
    time; the answer reports the sensor as it is. *)
Lemma forceSendState_at_spec u s :
  base (snd (forceSendState_at u s)) = base s /\
  interval (snd (forceSendState_at u s)) = interval s /\
  lastUpdate (snd (forceSendState_at u s)) =
    (if u - lastUpdate s >? interval s then u else lastUpdate s) /\
  fst (forceSendState_at u s) =
    (if u - lastUpdate s >? interval s
     then Some (mkStateChange (id (base s))
                  (if state (base s) =? triggerState (base s) then 1 else 0)
                  (sensorDataType (base s)) (sensorData (base s)))
     else None).
Proof.
  unfold forceSendState_at.
  destruct (u - lastUpdate s >? interval s); simpl; auto.
Qed.

(** X5.  Over successive calls of [forceSendState()], the first state change
    comes more than [interval] seconds after [lastUpdate] and two in a row are
    more than [interval] seconds apart; each carries the sensor's id, data
    type and data, and state 1 if the sensor is triggered and 0 if not. *)
Theorem thermometer_reports_paced (times : list Z) : forall s,
  match stateReports times s with
  | (t, _) :: _ => t - lastUpdate s > interval s
  | [] => True
  end /\
  spaced (interval s) (map fst (stateReports times s)) /\
  Forall (fun report =>
            snd report =
            mkStateChange (id (base s))
              (if state (base s) =? triggerState (base s) then 1 else 0)
              (sensorDataType (base s)) (sensorData (base s)))
         (stateReports times s).
Proof.
  induction times as [|u times IH]; intros s; [simpl; auto|].
  cbn [stateReports].
  pose proof (forceSendState_at_spec u s) as (Fb & Fi & Fl & Fr).
  destruct (forceSendState_at u s) as [r s']. cbn [fst snd] in Fb, Fi, Fl, Fr.
  destruct (IH s') as (H1 & H2 & H3). rewrite Fb, Fi in *.
  destruct (Z.gtb_spec (u - lastUpdate s) (interval s)) as [G|G]; subst r.
  - rewrite Fl in H1. split; [lia|]. split.
    + cbn [map fst]. destruct (stateReports times s') as [|[t c] rest]; [exact I|].
      cbn [map fst] in *. split; [lia | exact H2].
    + constructor; [reflexivity | exact H3].
  - rewrite Fl in H1. auto.
Qed.

(** X6.  With a threshold, one of the three orderings, and data that
    compares with the threshold (neither is a NaN), the sensor is triggered
    after [updateState()] exactly when the data is beyond the threshold in the
    sense of the ordering, whatever its state was before. *)
Theorem thermometer_state_tracks_threshold u s :
  hasThreshold s = true ->
  ordering s <> Ordering.Other ->
  ((_sensorData s <=? threshold s) || (threshold s <=? _sensorData s))%float = true ->
  (state (base (fst (updateState_at u s))) = triggerState (base s)
   <-> thresholdReached (ordering s) (_sensorData s) (threshold s) = true) /\
  (state (base (fst (updateState_at u s))) = triggerState (base s) \/
   state (base (fst (updateState_at u s))) = 1 - triggerState (base s) \/
   state (base (fst (updateState_at u s))) = state (base s)).
Proof.
  intros Ht Ho Hcmp. unfold updateState_at.
  assert (F : forall b : bool,
            _sensorData (if b then set_lastTemperatureUpdate u s else s) = _sensorData s /\
            hasThreshold (if b then set_lastTemperatureUpdate u s else s) = hasThreshold s /\
            ordering (if b then set_lastTemperatureUpdate u s else s) = ordering s /\
            threshold (if b then set_lastTemperatureUpdate u s else s) = threshold s /\
            base (if b then set_lastTemperatureUpdate u s else s) = base s)
    by (intros []; simpl; auto).
  destruct (F (u - lastTemperatureUpdate s >? interval s)) as (F1 & F2 & F3 & F4 & F5).
  cbn [fst]. rewrite F1, F2, F3, F4, F5, Ht. clear F F1 F2 F3 F4 F5.
  cbn -[PrimFloat.ltb PrimFloat.leb PrimFloat.eqb Z.sub Z.eqb thresholdReached checkThreshold].
  unfold checkThreshold, thresholdReached.
  pose proof (float_leb_negb_gt (_sensorData s) (threshold s) Hcmp) as L1.
  rewrite orb_comm in Hcmp.
  pose proof (float_leb_negb_gt (threshold s) (_sensorData s) Hcmp) as L2.
  destruct (Z.eqb_spec (state (base s)) (triggerState (base s))) as [E|E];
    destruct (ordering s); try (now elim Ho);
    rewrite ?L1, ?L2;
    repeat match goal with
      | |- context [(?a <? ?b)%float] => destruct (a <? b)%float
      | |- context [(?a =? ?b)%float] => destruct (a =? b)%float
      end;
    cbn [negb]; (split; [split; intros; try reflexivity; try discriminate; try lia | auto]).
Qed.

(** One event keeps the configuration and keeps the state among the trigger
    state and the normal state; without a threshold, or with an ordering that
    is none of the three, it keeps the state. *)
Lemma thermometerStep_invariant (e : ThermometerEvent) s :
  triggerState (base (thermometerStep e s)) = triggerState (base s) /\
  interval (thermometerStep e s) = interval s /\
  hasThreshold (thermometerStep e s) = hasThreshold s /\
  threshold (thermometerStep e s) = threshold s /\
  ordering (thermometerStep e s) = ordering s /\
  (state (base (thermometerStep e s)) = state (base s) \/
   state (base (thermometerStep e s)) = triggerState (base s) \/
   state (base (thermometerStep e s)) = 1 - triggerState (base s)) /\
  (hasThreshold s = false \/ ordering s = Ordering.Other ->
   state (base (thermometerStep e s)) = state (base s)).
Proof.
  destruct e as [[temp|]|u|u]; cbn [thermometerStep _updateData].
  - simpl. repeat split; auto.
  - repeat split; auto.
  - unfold updateState_at.
    destruct (u - lastTemperatureUpdate s >? interval s);
      cbn -[checkThreshold]; destruct (hasThreshold s) eqn:Eh;
      cbn -[checkThreshold]; unfold checkThreshold;
      destruct (state (base s) =? triggerState (base s)), (ordering s) eqn:Eo;
      repeat match goal with
        | |- context [if ?b then _ else _] => destruct b
        end;
      repeat split; auto; intros [?|?]; try discriminate; reflexivity.
  - unfold forceSendState_at.
    destruct (u - lastUpdate s >? interval s); simpl; repeat split; auto.
Qed.

(** X7.  Under every interleaving of finished refreshes, calls of
    [updateState()] and calls of [forceSendState()], the reporting interval,
    the threshold and the ordering stay as configured, and a state that is the
    trigger state or the normal state stays one of the two; a sensor without
    a threshold, or with an ordering that is none of LT, EQ and GT, never
    changes its state. *)
Theorem thermometer_run_invariant (es : list ThermometerEvent) : forall s,
  triggerState (base (thermometerRun es s)) = triggerState (base s) /\
  interval (thermometerRun es s) = interval s /\
  hasThreshold (thermometerRun es s) = hasThreshold s /\
  threshold (thermometerRun es s) = threshold s /\
  ordering (thermometerRun es s) = ordering s /\
  (state (base s) = triggerState (base s) \/
   state (base s) = 1 - triggerState (base s) ->
   state (base (thermometerRun es s)) = triggerState (base s) \/
   state (base (thermometerRun es s)) = 1 - triggerState (base s)) /\
  (hasThreshold s = false \/ ordering s = Ordering.Other ->
   state (base (thermometerRun es s)) = state (base s)).
Proof.
  induction es as [|e es IH]; intros s.
  - cbn [thermometerRun fold_left]. repeat split; auto.
  - change (thermometerRun (e :: es) s) with (thermometerRun es (thermometerStep e s)).
    destruct (thermometerStep_invariant e s) as (S1 & S2 & S3 & S4 & S5 & S6 & S7).
    destruct (IH (thermometerStep e s)) as (I1 & I2 & I3 & I4 & I5 & I6 & I7).
    rewrite S1, ?S3, ?S5 in *.
    repeat split; try congruence.
    + intros Hb. apply I6. destruct S6 as [-> | S6]; tauto.
    + intros Hd. rewrite I7, S7; auto.
Qed.

(** X8.  [initializeSensor] fails exactly when the first read gives no
    temperature or gives zero degrees.  When it succeeds the sensor is
    normal and holds the temperature, and until more than [interval] seconds
    have passed [updateState()] starts no refresh and [forceSendState()]
    reports nothing. *)
Theorem thermometer_initializeSensor (now : Z) (parsed : option float) s :
  (initializeSensor now parsed s = None
   <-> parsed = None \/ exists temp, parsed = Some temp /\ (temp =? 0)%float = true)
  /\
  (forall s0,
     initializeSensor now parsed s = Some s0 ->
     state (base s0) = 1 - triggerState (base s) /\
     triggerState (base s0) = triggerState (base s) /\
     parsed = Some (_sensorData s0) /\
     sensorData (base s0) = DataFloat (_sensorData s0) /\
     hasOptionalData (base s0) = true /\
     optionalData (base s0) = Some [("sensorName"%string, sensorName s)] /\
     forall u,
       u - now <= interval s ->
       snd (updateState_at u s0) = false /\
       fst (forceSendState_at u s0) = None).
Proof.
  unfold initializeSensor. destruct parsed as [temp|].
  - destruct (temp =? 0)%float eqn:Z0.
    + split.
      * split; [intros _; right; exists temp; auto | reflexivity].
      * intros s0 C. discriminate.
    + split.
      * split; [discriminate|].
        intros [C | (t & C & Ct)]; [discriminate|].
        injection C as <-. rewrite Z0 in Ct. discriminate.
      * intros s0 C. injection C as <-. cbn [base state triggerState _sensorData
          sensorData hasOptionalData optionalData].
        repeat split; auto.
        -- unfold updateState_at. cbn [lastTemperatureUpdate interval].
           destruct (Z.gtb_spec (u - now) (interval s)); [lia | reflexivity].
        -- unfold forceSendState_at. cbn [lastUpdate interval].
           destruct (Z.gtb_spec (u - now) (interval s)); [lia | reflexivity].
  - split.
    + split; [intros _; left; reflexivity | reflexivity].
    + intros s0 C. discriminate.
Qed.

End DS18b20More.

(* ===================================================================== *)
(** * Further properties of the polling loop *)
(* ===================================================================== *)

Section PollingLoopMore.
Import SensorExecuter.
Context {S : Type} `{PollingSensor S}.

(** An iteration of the polling loop starts at most one sender. *)
Lemma pollSensor_at_most_one (w : World) (s : S) :
  (List.length (started (pollSensor w s)) <= 1)%nat.
Proof.
  unfold pollSensor.
  destruct (forceSendAlert w (updateState w s)) as [[a|] s2]; cbn [started].
  - simpl. lia.
  - unfold stateTransition.
    destruct (_ =? _); [simpl; lia|].
    destruct (handlesStateMsgs (attributes s2)); [simpl; lia|].
    destruct (_ =? _), (triggerAlert (attributes s2)),
      (triggerAlertNormal (attributes s2)); simpl; lia.
Qed.

Lemma pollSensors_lengths (w : nat -> World) (ss : list S) : forall i,
  List.length (fst (pollSensors w i ss)) = List.length ss /\
  (List.length (snd (pollSensors w i ss)) <= List.length ss)%nat.
Proof.
  induction ss as [|s ss IH]; intros i; [simpl; auto|].
  cbn [pollSensors]. specialize (IH (Datatypes.S i)).
  destruct (pollSensors w (Datatypes.S i) ss) as [rest evs].
  cbn [fst snd List.length] in *. rewrite length_app.
  pose proof (pollSensor_at_most_one (w i) s). lia.
Qed.

Lemma forceStates_lengths (w : nat -> World) (ss : list S) : forall i,
  List.length (fst (forceStates w i ss)) = List.length ss /\
  (List.length (snd (forceStates w i ss)) <= List.length ss)%nat.
Proof.
  induction ss as [|s ss IH]; intros i; [simpl; auto|].
  cbn [forceStates]. specialize (IH (Datatypes.S i)).
  unfold forceState.
  destruct (forceSendState (w i) s) as [[c|] s'];
    destruct (forceStates w (Datatypes.S i) ss) as [rest evs];
    cbn [fst snd List.length app] in *; lia.
Qed.

(** X9.  A pass through the loop keeps the number of sensors and starts at
    most two senders for each sensor (one from the polling loop, one from
    [forceSendState()]) and one for the full state; a pass that finds the
    client disconnected starts none and leaves the sensors as they are. *)
Theorem cycle_senders_bounded (c : Cycle) (e : Executer) :
  List.length (sensors (fst (cycle c e))) = List.length (sensors e) /\
  (List.length (snd (cycle c e)) <= 2 * List.length (sensors e) + 1)%nat /\
  (List.length (filter is_sendSensorsState (snd (cycle c e))) <= 1)%nat /\
  (isConnected c = false -> cycle c e = (e, [])).
Proof.
  unfold cycle. destruct (isConnected c); cbn [negb];
    [|cbn [fst snd List.length filter]; repeat split; auto; lia].
  pose proof (pollSensors_lengths (pollWorld c) (sensors e) O) as (P1 & P2).
  pose proof (pollSensors_no_fullState (pollWorld c) (sensors e) O) as P3.
  destruct (pollSensors (pollWorld c) O (sensors e)) as [ss1 evs1].
  pose proof (forceStates_lengths (forceWorld c) ss1 O) as (F1 & F2).
  pose proof (forceStates_no_fullState (forceWorld c) ss1 O) as F3.
  destruct (forceStates (forceWorld c) O ss1) as [ss2 evs2].
  cbn [fst snd] in *.
  assert (N : forall l, sentFullState l = false -> filter is_sendSensorsState l = []).
  { induction l as [|a l IHl]; [reflexivity|]. cbn [sentFullState existsb filter].
    destruct (is_sendSensorsState a); [discriminate|]. exact IHl. }
  unfold fullState.
  destruct (now c - lastFullStateSent e >? 60); cbn [fst snd sensors];
    rewrite !length_app, !filter_app, (N _ P3), (N _ F3);
    cbn [List.length filter is_sendSensorsState app];
    repeat split; try discriminate; lia.
Qed.

(** The passes that send the full state are those the timer picks among
    the connected passes. *)
Lemma passes_timerRun_connected (cs : list Cycle) : forall e,
  fullStateTimes cs (passes cs e)
  = timerRun (lastFullStateSent e) (map now (filter isConnected cs)).
Proof.
  induction cs as [|c cs IH]; intros e; [reflexivity|].
  cbn [passes filter].
  destruct (cycle_fullState c e) as (Hoff & Hon).
  destruct (isConnected c) eqn:Ec.
  - destruct (Hon eq_refl) as (Hsent & Hlast).
    destruct (cycle c e) as [e' evs]. cbn [fst snd] in Hsent, Hlast.
    cbn [fullStateTimes map timerRun]. rewrite Hsent, (IH e'), Hlast.
    destruct (now c - lastFullStateSent e >? 60); reflexivity.
  - rewrite (Hoff eq_refl). cbn [fullStateTimes sentFullState existsb].
    apply IH.
Qed.

(** X10.  Over any run of [execute], connected or not, the full state is
    sent exactly at the passes that the 60-second timer picks among the
    connected ones: disconnected passes neither send it nor reset the timer,
    so the time spent disconnected counts, and two full states in a row are
    more than 60 seconds apart. *)
Theorem execute_fullState_across_disconnects (cs : list Cycle) (ss : list S) :
  fullStateTimes cs (execute cs ss)
  = timerRun 0 (map now (filter isConnected cs)) /\
  spaced 60 (fullStateTimes cs (execute cs ss)).
Proof.
  unfold execute. rewrite passes_timerRun_connected. cbn [lastFullStateSent].
  split; [reflexivity | apply timerRun_spaced].
Qed.

End PollingLoopMore.

(* ===================================================================== *)
(** * Further properties of the local option relay *)
(* ===================================================================== *)

Section LocalServerMore.
Import LocalServer.
Local Open Scope string_scope.

Variable json_loads : string -> option json.
Variable py_str : json -> option string.
Variable py_float : json -> option float.
Variable py_int : json -> option Z.
Variable time_time : Z.
Variable request_send : json -> bool.
Variable sendOption : string -> float -> Z -> bool.

Abbreviation run_handle :=
  (LocalServer.handle json_loads py_str py_float py_int time_time request_send
     sendOption).

(** Case analysis on the innermost test of the goal. *)
Ltac innermost_test :=
  match goal with
  | |- context [match ?x with _ => _ end] =>
      lazymatch x with
      | context [match _ with _ => _ end] => fail
      | _ => destruct x eqn:?
      end
  end.

Ltac unfold_handle :=
  unfold LocalServer.handle, handle_body, extract_option, LocalServer.send_error,
    incoming_message_tag, try_pass, try_except, bind, getitem, orRaise, send,
    read_incomingMessage, assign_incomingMessage, ret, raise, return_.

(** Once [recv] has returned the data, and with a [sendOption] that
    returns: whatever the data, the conversions and the socket do, [handle]
    returns and sends at most one message; a message it sends was accepted
    by the socket and is the response [ok] or an error response. *)
Lemma handle_reply_shape (data : string) :
  snd (run_handle data) = Return /\
  (List.length (fst (run_handle data)) <= 1)%nat /\
  (forall m,
     In m (fst (run_handle data)) ->
     request_send m = true /\
     (m = ok_response time_time \/
      exists tag reason, m = error_response time_time tag reason)).
Proof.
  unfold_handle.
  repeat (innermost_test; cbn [sent incomingMessage fst snd] in *;
          try discriminate).
  all: cbn [sent incomingMessage fst snd rev app List.length In];
    (split; [reflexivity|]); (split; [lia|]); intros m Hm;
    repeat match goal with
      | E : differs _ _ = false |- _ => apply differs_false in E; subst
      | E : Some _ = Some _ |- _ => injection E as ?; subst
      end;
    try (destruct Hm as [<-|[]]; split; [assumption|]);
    try contradiction;
    first [ left; reflexivity
          | right; eexists; eexists; reflexivity ].
Qed.

(** X12.  The reply to bytes that parse to a dictionary with a [message],
    when the socket accepts it: for a message other than [option], the error
    [only option message valid] with the message echoed; for an option
    message whose payload has [optionType], [value] and [timeDelay] that
    convert, the error [only option type 'alertSystemActive' allowed] unless
    the type is [alertSystemActive], and otherwise the response [ok] or the
    error [sending message to server failed] by the result of [sendOption] on
    the converted values; for any other option message, the error [received
    attributes invalid]. *)
Theorem handle_reply_table (data : string) (items : list (string * json)) (tag : json) :
  json_loads data = Some (JObject items) ->
  lookup "message" items = Some tag ->
  (forall m, request_send m = true) ->
  (differs tag "option" = true ->
   run_handle data
   = ([error_response time_time tag "only option message valid"], Return))
  /\
  (differs tag "option" = false ->
   (forall pitems t v d optionType optionValue optionDelay,
      lookup "payload" items = Some (JObject pitems) ->
      lookup "optionType" pitems = Some t ->
      lookup "value" pitems = Some v ->
      lookup "timeDelay" pitems = Some d ->
      py_str t = Some optionType ->
      py_float v = Some optionValue ->
      py_int d = Some optionDelay ->
      run_handle data
      = ([if String.eqb optionType "alertSystemActive"
          then if sendOption optionType optionValue optionDelay
               then ok_response time_time
               else error_response time_time tag "sending message to server failed"
          else error_response time_time tag
                 "only option type 'alertSystemActive' allowed"],
         Return))
   /\
   ((forall pitems t v d optionType optionValue optionDelay,
       ~ (lookup "payload" items = Some (JObject pitems) /\
          lookup "optionType" pitems = Some t /\
          lookup "value" pitems = Some v /\
          lookup "timeDelay" pitems = Some d /\
          py_str t = Some optionType /\
          py_float v = Some optionValue /\
          py_int d = Some optionDelay)) ->
    run_handle data
    = ([error_response time_time tag "received attributes invalid"], Return))).
Proof.
  intros Hparse Htag Hsend. split; [|intros Hopt; split].
  - intros Hd. unfold_handle.
    rewrite Hparse. cbn [sent incomingMessage]. rewrite Htag.
    cbn [sent incomingMessage]. rewrite Hd.
    cbn [sent incomingMessage]. rewrite Htag, Hsend. reflexivity.
  - intros pitems t v d optionType optionValue optionDelay Hp Ht Hv Hdl Hs Hf Hi.
    pose proof (differs_false _ _ Hopt) as ->.
    unfold_handle.
    rewrite Hparse. cbn [sent incomingMessage]. rewrite Htag.
    cbn [sent incomingMessage differs String.eqb Ascii.eqb Bool.eqb negb].
    rewrite Hp. cbn [sent incomingMessage]. rewrite Ht, Hs.
    cbn [sent incomingMessage]. rewrite Hp. cbn [sent incomingMessage].
    rewrite Hv, Hf. cbn [sent incomingMessage]. rewrite Hp.
    cbn [sent incomingMessage]. rewrite Hdl, Hi. cbn [sent incomingMessage].
    destruct (String.eqb optionType "alertSystemActive"); cbn [negb].
    + destruct (sendOption optionType optionValue optionDelay);
        cbn [sent incomingMessage]; rewrite Htag, Hsend; reflexivity.
    + cbn [sent incomingMessage]. rewrite Htag, Hsend. reflexivity.
  - intros Hbad.
    pose proof (differs_false _ _ Hopt) as ->.
    unfold_handle.
    rewrite Hparse. cbn [sent incomingMessage]. rewrite Htag.
    cbn [sent incomingMessage differs String.eqb Ascii.eqb Bool.eqb negb].
    repeat (cbn [sent incomingMessage fst snd]; rewrite ?Hsend, ?Htag;
            innermost_test; try discriminate;
            try match goal with
                | E : request_send _ = false |- _ => rewrite Hsend in E; discriminate
                end).
    all: cbn [sent incomingMessage fst snd rev app]; rewrite ?Hsend, ?Htag;
      cbn [sent incomingMessage fst snd rev app];
      repeat match goal with
        | E : (_, _) = (_, _) |- _ => injection E as ?; subst
        | E : Some _ = Some _ |- _ => injection E as ?; subst
        | E : Normal _ = Normal _ |- _ => injection E as ?; subst
        end;
      try reflexivity;
      try (exfalso; eapply Hbad; repeat split; eassumption).
Qed.

End LocalServerMore.

(* ===================================================================== *)
(** * The session with calls that raise *)
(* ===================================================================== *)

Section LocalServerSessionFacts.
Import LocalServer.
Local Open Scope string_scope.

Variable json_loads : string -> option json.
Variable py_str : json -> option string.
Variable py_float : json -> option float.
Variable py_int : json -> option Z.
Variable time_time : Z.
Variable request_send : json -> bool.
Variable recv : exn + string.
Variable sendOption : string -> float -> Z -> exn + bool.

Abbreviation run_session :=
  (LocalServerSession.handle json_loads py_str py_float py_int time_time
     request_send recv sendOption).

Ltac innermost_scrutinee :=
  match goal with
  | |- context [match ?x with _ => _ end] =>
      lazymatch x with
      | context [match _ with _ => _ end] => fail
      | _ => destruct x eqn:?
      end
  end.

Ltac unfold_session :=
  unfold LocalServerSession.handle, LocalServerSession.handle_body,
    LocalServerSession.call, LocalServer.handle, handle_body, extract_option,
    LocalServer.send_error, incoming_message_tag, try_pass, try_except, bind,
    getitem, orRaise, send, read_incomingMessage, assign_incomingMessage, ret,
    raise, return_.

Lemma eqb_alertSystemActive (t : string) :
  negb (String.eqb t "alertSystemActive") = false -> t = "alertSystemActive".
Proof. intros E. apply negb_false_iff, String.eqb_eq in E. exact E. Qed.

(** When [recv] gives the data and [sendOption] never raises, the session
    is [LocalServer.handle] on that data. *)
Lemma handle_when_calls_return (data : string) (so : string -> float -> Z -> bool) :
  recv = inr data ->
  (forall t v d, sendOption t v d = inr (so t v d)) ->
  run_session
  = LocalServer.handle json_loads py_str py_float py_int time_time
      request_send so data.
Proof.
  intros Hr Hso. unfold_session. rewrite Hr.
  repeat (rewrite ?Hso; cbn [sent incomingMessage fst snd] in *;
          try reflexivity; innermost_scrutinee; try discriminate).
  all: rewrite ?Hso; reflexivity.
Qed.

(** X11.  [handle] with a [recv] and a [sendOption] that may raise, both
    being called outside every [try]: it sends at most one message, and a
    message it sends was accepted by the socket and is the response [ok] or
    an error response; it ends by returning, or by raising after having sent
    nothing, and then with the exception of [recv] or of a call of
    [sendOption] for [alertSystemActive].  It does raise when [recv] raises,
    and when a well-formed request for [alertSystemActive] makes [sendOption]
    raise.  When [recv] gives the data and [sendOption] never raises, it
    does what [LocalServer.handle] does on that data. *)
Theorem handle_sends_at_most_one_reply :
  (List.length (fst run_session) <= 1)%nat /\
  (forall m,
     In m (fst run_session) ->
     request_send m = true /\
     (m = ok_response time_time \/
      exists tag reason, m = error_response time_time tag reason)) /\
  (snd run_session = Return \/
   exists e,
     run_session = ([], Raise e) /\
     (recv = inl e \/ exists v d, sendOption "alertSystemActive" v d = inl e)) /\
  (forall e, recv = inl e -> run_session = ([], Raise e)) /\
  (forall data items pitems t v d optionValue optionDelay e,
     recv = inr data ->
     json_loads data = Some (JObject items) ->
     lookup "message" items = Some (JString "option") ->
     lookup "payload" items = Some (JObject pitems) ->
     lookup "optionType" pitems = Some t ->
     lookup "value" pitems = Some v ->
     lookup "timeDelay" pitems = Some d ->
     py_str t = Some "alertSystemActive" ->
     py_float v = Some optionValue ->
     py_int d = Some optionDelay ->
     sendOption "alertSystemActive" optionValue optionDelay = inl e ->
     run_session = ([], Raise e)) /\
  (forall data so,
     recv = inr data ->
     (forall t v d, sendOption t v d = inr (so t v d)) ->
     run_session
     = LocalServer.handle json_loads py_str py_float py_int time_time
         request_send so data).
Proof.
  split; [|split; [|split; [|split; [|split]]]].
  - unfold_session.
    repeat (innermost_scrutinee; cbn [sent incomingMessage fst snd] in *;
            try discriminate).
    all: cbn [sent incomingMessage fst snd rev app List.length]; lia.
  - unfold_session.
    repeat (innermost_scrutinee; cbn [sent incomingMessage fst snd] in *;
            try discriminate).
    all: cbn [sent incomingMessage fst snd rev app List.length In];
      intros m Hm;
      repeat match goal with
        | E : differs _ _ = false |- _ => apply differs_false in E; subst
        | E : Some _ = Some _ |- _ => injection E as ?; subst
        end;
      try (destruct Hm as [<-|[]]; split; [assumption|]);
      try contradiction;
      first [ left; reflexivity
            | right; eexists; eexists; reflexivity ].
  - unfold_session.
    repeat (innermost_scrutinee; cbn [sent incomingMessage fst snd] in *;
            try discriminate).
    all: cbn [sent incomingMessage fst snd rev app];
      first [ left; reflexivity | right ];
      repeat match goal with
        | E : negb (String.eqb _ _) = false |- _ =>
            apply eqb_alertSystemActive in E; subst
        | E : (_, _) = (_, _) |- _ => injection E as ?; subst
        | E : Normal _ = Normal _ |- _ => injection E as ?; subst
        end;
      eexists; (split; [reflexivity|]);
      first [ left; reflexivity | right; eexists; eexists; eassumption ].
  - intros e He. unfold_session. rewrite He. reflexivity.
  - intros data items pitems t v d optionValue optionDelay e
      Hr Hparse Htag Hp Ht Hv Hd Hs Hf Hi Hso.
    unfold_session.
    rewrite Hr. cbn [sent incomingMessage]. rewrite Hparse.
    cbn [sent incomingMessage]. rewrite Htag.
    cbn [sent incomingMessage differs String.eqb Ascii.eqb Bool.eqb negb].
    rewrite Hp. cbn [sent incomingMessage]. rewrite Ht, Hs.
    cbn [sent incomingMessage]. rewrite Hp. cbn [sent incomingMessage].
    rewrite Hv, Hf. cbn [sent incomingMessage]. rewrite Hp.
    cbn [sent incomingMessage]. rewrite Hd, Hi.
    cbn [sent incomingMessage String.eqb Ascii.eqb Bool.eqb negb].
    rewrite Hso. reflexivity.
  - intros data so. apply handle_when_calls_return.
Qed.

End LocalServerSessionFacts.

(* ===================================================================== *)
(** * The edge-interrupt sensor in the polling loop *)
(* ===================================================================== *)

Section InterruptInLoop.
Import SensorExecuter.

Implicit Types s : GPIOInterrupt.RaspberryPiGPIOInterruptSensor.

(** The sender that the polling loop starts for a change into the trigger
    state ([st] = 1) or away from it ([st] = 0). *)
Lemma pollSensor_interrupt (w : World) s :
  sensor (pollSensor w s) = GPIOInterrupt.updateState_at (utcTimestamp w) s /\
  started (pollSensor w s)
  = stateTransition (GPIOInterrupt.getState s)
      (GPIOInterrupt.getState (GPIOInterrupt.updateState_at (utcTimestamp w) s))
      (GPIOInterrupt.base (GPIOInterrupt.updateState_at (utcTimestamp w) s)).
Proof. split; reflexivity. Qed.

Lemma updateState_at_base u s :
  GPIOInterrupt.base (GPIOInterrupt.updateState_at u s)
  = set_state (GPIOInterrupt._internalState (GPIOInterrupt.updateState_at u s))
      (GPIOInterrupt.base s).
Proof. reflexivity. Qed.

(** Passes over an interrupt sensor that is normal, with no interrupt
    between them, start nothing. *)
Lemma polls_interrupt_normal (ws : list World) : forall s,
  state (GPIOInterrupt.base s) = 1 - triggerState (GPIOInterrupt.base s) ->
  GPIOInterrupt._internalState s = 1 - triggerState (GPIOInterrupt.base s) ->
  polls ws s = repeat [] (List.length ws).
Proof.
  induction ws as [|w ws IH]; intros s Hs Hi; [reflexivity|].
  cbn [polls List.length repeat].
  destruct (pollSensor_interrupt w s) as (-> & ->).
  assert (N : state (GPIOInterrupt.base s) <> triggerState (GPIOInterrupt.base s)) by lia.
  destruct (updateState_at_normal (utcTimestamp w) s N) as (U1 & U2).
  rewrite U1. unfold GPIOInterrupt.getState, stateTransition.
  rewrite Hs, Hi, Z.eqb_refl. f_equal.
  apply IH.
  - unfold GPIOInterrupt.getState in U1. rewrite U1, Hi. reflexivity.
  - rewrite U2, Hi. reflexivity.
Qed.

(** The iterations of the polling loop for an interrupt sensor whose
    callback has committed the trigger state: one sender at the next
    iteration, none while the sensor stays triggered, one at the first
    iteration later than [timeSensorTriggered] seconds after the trigger, and
    none after it. *)
Lemma polls_interrupt_trigger
    (w0 w' : World) (ws ws' : list World) s :
  handlesStateMsgs (GPIOInterrupt.base s) = false ->
  state (GPIOInterrupt.base s) = 1 - triggerState (GPIOInterrupt.base s) ->
  GPIOInterrupt._internalState s = triggerState (GPIOInterrupt.base s) ->
  Forall (fun w => utcTimestamp w - GPIOInterrupt.lastTimeTriggered s
                   <= GPIOInterrupt.timeSensorTriggered s) ws ->
  utcTimestamp w' - GPIOInterrupt.lastTimeTriggered s
    > GPIOInterrupt.timeSensorTriggered s ->
  let trig := triggerState (GPIOInterrupt.base s) in
  let triggered := set_state trig (GPIOInterrupt.base s) in
  let normal := set_state (1 - trig) (GPIOInterrupt.base s) in
  polls (w0 :: ws ++ w' :: ws') s
  = [if triggerAlert (GPIOInterrupt.base s)
     then sendSensorAlert (newSensorAlert 1 triggered)
     else sendStateChange (newStateChange 1 triggered)]
    :: repeat [] (List.length ws)
    ++ [if triggerAlertNormal (GPIOInterrupt.base s)
        then sendSensorAlert (newSensorAlert 0 normal)
        else sendStateChange (newStateChange 0 normal)]
       :: repeat [] (List.length ws').
Proof.
  intros Hh Hs Hi Hws Hw' trig triggered normal.
  assert (Htn : trig <> 1 - trig) by lia.
  (* the pass that sees the committed trigger *)
  cbn [polls].
  destruct (pollSensor_interrupt w0 s) as (-> & ->).
  assert (N : state (GPIOInterrupt.base s) <> triggerState (GPIOInterrupt.base s))
    by (fold trig; lia).
  destruct (updateState_at_normal (utcTimestamp w0) s N) as (U1 & U2).
  destruct (updateState_at_frame (utcTimestamp w0) s) as (Ft & _ & Fts & _ & Fl & _).
  assert (Hb1 : GPIOInterrupt.base (GPIOInterrupt.updateState_at (utcTimestamp w0) s)
                = triggered).
  { rewrite updateState_at_base, U2, Hi. reflexivity. }
  f_equal.
  { rewrite Hb1. unfold GPIOInterrupt.getState at 2. rewrite Hb1.
    unfold stateTransition, GPIOInterrupt.getState. rewrite Hs.
    cbn [state set_state triggered handlesStateMsgs triggerState triggerAlert].
    fold trig. rewrite (proj2 (Z.eqb_neq _ _)) by lia.
    rewrite Hh, Z.eqb_refl.
    destruct (triggerAlert (GPIOInterrupt.base s)); reflexivity. }
  (* the passes while the sensor stays triggered, then the one that reverts *)
  remember (GPIOInterrupt.updateState_at (utcTimestamp w0) s) as s1 eqn:E1.
  assert (Hs1 : state (GPIOInterrupt.base s1) = trig) by (rewrite Hb1; reflexivity).
  assert (Hi1 : GPIOInterrupt._internalState s1 = trig) by (rewrite U2; exact Hi).
  assert (Hbase : GPIOInterrupt.base s1 = triggered) by exact Hb1.
  rewrite <- Fl, <- Fts in Hws, Hw'.
  clear E1 U1 U2 Hb1 N Hs Hi Fl Fts Ft.
  revert s1 Hs1 Hi1 Hbase Hws Hw'.
  induction ws as [|w ws IH]; intros s1 Hs1 Hi1 Hbase Hws Hw'.
  - cbn [app polls repeat List.length].
    destruct (pollSensor_interrupt w' s1) as (-> & ->).
    assert (R : GPIOInterrupt.base (GPIOInterrupt.updateState_at (utcTimestamp w') s1)
                = normal /\
                GPIOInterrupt._internalState
                  (GPIOInterrupt.updateState_at (utcTimestamp w') s1) = 1 - trig).
    { assert (Ri : GPIOInterrupt._internalState
                     (GPIOInterrupt.updateState_at (utcTimestamp w') s1) = 1 - trig).
      { unfold GPIOInterrupt.updateState_at. cbn [GPIOInterrupt._internalState].
        rewrite Hbase. cbn [state set_state triggered triggerState]. fold trig.
        rewrite Z.eqb_refl.
        destruct (Z.gtb_spec (utcTimestamp w' - GPIOInterrupt.lastTimeTriggered s1)
                    (GPIOInterrupt.timeSensorTriggered s1)); [|lia].
        reflexivity. }
      split; [|exact Ri].
      rewrite updateState_at_base, Ri, Hbase. reflexivity. }
    destruct R as (R1 & R2).
    f_equal.
    + rewrite R1. unfold GPIOInterrupt.getState. rewrite R1, Hs1.
      unfold stateTransition.
      cbn [state set_state normal handlesStateMsgs triggerState triggerAlertNormal].
      fold trig. rewrite (proj2 (Z.eqb_neq _ _)) by lia.
      rewrite Hh. rewrite (proj2 (Z.eqb_neq (1 - trig) trig)) by lia.
      destruct (triggerAlertNormal (GPIOInterrupt.base s)); reflexivity.
    + apply polls_interrupt_normal.
      * rewrite R1. reflexivity.
      * rewrite R2, R1. reflexivity.
  - inversion Hws as [|? ? Hw Hrest]; subst.
    cbn [app polls repeat List.length].
    destruct (pollSensor_interrupt w s1) as (-> & ->).
    assert (Hs1' : state (GPIOInterrupt.base s1) = triggerState (GPIOInterrupt.base s1))
      by (rewrite Hbase; reflexivity).
    assert (Hi1' : GPIOInterrupt._internalState s1 = triggerState (GPIOInterrupt.base s1))
      by (rewrite Hbase; exact Hi1).
    destruct (updateState_at_still_triggered (utcTimestamp w) s1 Hs1' Hi1' Hw) as (T1 & T2).
    destruct (updateState_at_frame (utcTimestamp w) s1) as (_ & _ & Fts & _ & Fl & _).
    assert (Hb : GPIOInterrupt.base (GPIOInterrupt.updateState_at (utcTimestamp w) s1)
                 = triggered).
    { rewrite updateState_at_base, T2, Hbase. reflexivity. }
    f_equal.
    + unfold GPIOInterrupt.getState. rewrite Hb, Hs1.
      unfold stateTransition. cbn [state set_state triggered].
      rewrite Z.eqb_refl. reflexivity.
    + apply IH.
      * rewrite Hb. reflexivity.
      * rewrite T2, Hbase. reflexivity.
      * exact Hb.
      * rewrite Fl, Fts. exact Hrest.
      * rewrite Fl, Fts. exact Hw'.
Qed.

(** The senders of a pass without a full-state sender among them. *)
Lemma sensorSenders_all (evs : list AsynchronousSender) :
  sentFullState evs = false -> sensorSenders evs = evs.
Proof.
  induction evs as [|a evs IH]; [reflexivity|].
  unfold sentFullState, sensorSenders in *. cbn [existsb filter].
  destruct (is_sendSensorsState a); [discriminate|].
  intros E. cbn [negb orb] in *. rewrite (IH E). reflexivity.
Qed.

(** Connected passes of [execute] over a single interrupt sensor: apart from
    the full-state sender of the timer, each pass starts what its iteration
    of the polling loop starts, on the sensor as the pass before left it. *)
Lemma passes_interrupt_polls (cs : list Cycle) : forall s last,
  Forall (fun c => isConnected c = true) cs ->
  map sensorSenders (passes cs (mkExecuter [s] last))
  = polls (map (fun c => pollWorld c O) cs) s.
Proof.
  induction cs as [|c cs IH]; intros s last Hall; [reflexivity|].
  inversion Hall as [|? ? Hc Hrest]; subst.
  cbn [passes map polls]. unfold cycle. rewrite Hc.
  cbn [negb sensors pollSensors forceStates forceState forceSendState
       GPIOInterrupt_PollingSensor GPIOInterrupt.forceSendState fst snd].
  unfold fullState. cbn [lastFullStateSent].
  destruct (now c - last >? 60); cbn [map]; f_equal;
    try (apply IH; exact Hrest).
  - unfold sensorSenders. rewrite !filter_app.
    cbn [filter is_sendSensorsState negb app].
    rewrite !app_nil_r. apply sensorSenders_all, pollSensor_no_fullState.
  - rewrite !app_nil_r. apply sensorSenders_all, pollSensor_no_fullState.
Qed.

(** X13.  In a run of [execute] over an interrupt sensor that reports its
    state changes through the loop ([handlesStateMsgs] false), is normal,
    and whose callback has committed the trigger state, the connected passes
    start, the full-state sender of the timer apart: exactly one sender at
    the next pass, a sensor alert with state 1 if [triggerAlert] is set, else
    a state change with state 1; none at the passes that follow within
    [timeSensorTriggered] seconds of the trigger; exactly one at the first
    pass later than that, a sensor alert with state 0 if [triggerAlertNormal]
    is set, else a state change with state 0; and none after it, as long as
    no further interrupt arrives.  Each event carries the id, the data type
    and the data of the sensor, an alert also its optional data and its two
    flags. *)
Theorem interrupt_trigger_sends_one_event_each_way
    (c0 c' : Cycle) (cs cs' : list Cycle) s (last : Z) :
  Forall (fun c => isConnected c = true) (c0 :: cs ++ c' :: cs') ->
  handlesStateMsgs (GPIOInterrupt.base s) = false ->
  state (GPIOInterrupt.base s) = 1 - triggerState (GPIOInterrupt.base s) ->
  GPIOInterrupt._internalState s = triggerState (GPIOInterrupt.base s) ->
  Forall (fun c => utcTimestamp (pollWorld c O) - GPIOInterrupt.lastTimeTriggered s
                   <= GPIOInterrupt.timeSensorTriggered s) cs ->
  utcTimestamp (pollWorld c' O) - GPIOInterrupt.lastTimeTriggered s
    > GPIOInterrupt.timeSensorTriggered s ->
  let p := GPIOInterrupt.base s in
  let alert (st : Z) :=
    sendSensorAlert
      {| sa_clientSensorId := id p; sa_state := st;
         sa_hasOptionalData := hasOptionalData p;
         sa_optionalData := optionalData p;
         sa_changeState := changeState p;
         sa_hasLatestData := hasLatestData p;
         sa_dataType := sensorDataType p; sa_sensorData := sensorData p |} in
  let change (st : Z) :=
    sendStateChange
      {| sc_clientSensorId := id p; sc_state := st;
         sc_dataType := sensorDataType p; sc_sensorData := sensorData p |} in
  map sensorSenders (passes (c0 :: cs ++ c' :: cs') (mkExecuter [s] last))
  = [if triggerAlert p then alert 1 else change 1]
    :: repeat [] (List.length cs)
    ++ [if triggerAlertNormal p then alert 0 else change 0]
       :: repeat [] (List.length cs').
Proof.
  intros Hall Hh Hs Hi Hcs Hc' p alert change.
  rewrite (passes_interrupt_polls _ s last Hall).
  cbn [map]. rewrite map_app. cbn [map].
  rewrite (polls_interrupt_trigger (pollWorld c0 O) (pollWorld c' O)
             (map (fun c => pollWorld c O) cs)
             (map (fun c => pollWorld c O) cs') s Hh Hs Hi).
  - rewrite !length_map. reflexivity.
  - rewrite Forall_map. exact Hcs.
  - exact Hc'.
Qed.

End InterruptInLoop.

(* ===================================================================== *)
(** * Properties of reading the sensor file *)
(* ===================================================================== *)

Section SensorFileFacts.
Import Stdlib.Strings.Ascii.
Import SensorFile.
Local Open Scope string_scope.

Lemma hexBytes_spec (n : nat) : forall line rest,
  hexBytes n line = Some rest
  <-> exists bytes, isHexBytes n bytes = true /\ line = bytes ++ rest.
Proof.
  induction n as [|n IH]; intros line rest.
  - cbn [hexBytes]. split.
    + intros E. injection E as <-. exists "". split; reflexivity.
    + intros (bytes & Hb & ->). destruct bytes; [reflexivity | discriminate].
  - cbn [hexBytes]. split.
    + destruct line as [|a [|b [|c line]]]; try discriminate.
      destruct (is_hex a && is_hex b && Ascii.eqb c " ") eqn:E; [|discriminate].
      intros Hn. apply IH in Hn. destruct Hn as (bytes & Hb & ->).
      exists (String a (String b (String c bytes))). split; [|reflexivity].
      cbn [isHexBytes]. rewrite E, Hb. reflexivity.
    + intros (bytes & Hb & ->).
      destruct bytes as [|a [|b [|c bytes]]]; try discriminate.
      cbn [isHexBytes] in Hb. apply andb_true_iff in Hb. destruct Hb as (E & Hb).
      cbn [append]. rewrite E. apply IH. exists bytes. auto.
Qed.

Lemma literal_spec (text : string) : forall line rest,
  literal text line = Some rest <-> line = text ++ rest.
Proof.
  induction text as [|c text IH]; intros line rest; cbn [literal append].
  - split; [intros E; injection E as <-; reflexivity | intros ->; reflexivity].
  - destruct line as [|c' line]; [split; discriminate|].
    destruct (Ascii.eqb_spec c c') as [<-|N].
    + rewrite IH. split; [intros ->; reflexivity | intros E; injection E as <-; reflexivity].
    + split; [discriminate | intros E; injection E as E1 _; congruence].
Qed.

(** The digits at the start of a line are its longest run of digits. *)
Lemma digits_split (line : string) :
  exists ds rest,
    line = ds ++ rest /\ allDigits ds = true /\ starts_with_digit rest = false /\
    (starts_with_digit line = true -> ds <> "") /\
    forall acc, digits acc line = digits acc ds.
Proof.
  induction line as [|c line (ds & rest & E & A & R & _ & D)].
  - exists "", "". repeat split; auto. discriminate.
  - destruct (is_digit c) eqn:Ec.
    + exists (String c ds), rest. subst line. cbn [append allDigits digits starts_with_digit].
      rewrite Ec. repeat split; auto. discriminate.
    + exists "", (String c line). cbn [append allDigits digits starts_with_digit].
      rewrite Ec. repeat split; auto. discriminate.
Qed.

Lemma digits_append (ds : string) : forall rest acc,
  allDigits ds = true -> starts_with_digit rest = false ->
  digits acc (ds ++ rest) = digits acc ds /\
  (ds <> "" -> starts_with_digit (ds ++ rest) = true).
Proof.
  induction ds as [|c ds IH]; intros rest acc A R.
  - cbn [append digits]. split; [|intros C; now elim C].
    destruct rest as [|c rest]; [reflexivity|].
    cbn [digits]. cbn [starts_with_digit] in R. rewrite R. reflexivity.
  - cbn [allDigits] in A. apply andb_true_iff in A. destruct A as (Ec & A).
    cbn [append digits starts_with_digit]. rewrite Ec.
    split; [apply IH; assumption | reflexivity].
Qed.

Lemma someDigits_spec (line : string) (m : Z) :
  someDigits line = Some m
  <-> exists ds rest,
        line = ds ++ rest /\ ds <> "" /\ allDigits ds = true /\
        starts_with_digit rest = false /\ m = digits 0 ds.
Proof.
  unfold someDigits. split.
  - destruct (starts_with_digit line) eqn:S0; [|discriminate].
    intros E. injection E as <-.
    destruct (digits_split line) as (ds & rest & E & A & R & N & D).
    exists ds, rest. repeat split; auto.
  - intros (ds & rest & -> & N & A & R & ->).
    destruct (digits_append ds rest 0 A R) as (D & S0).
    rewrite (S0 N), D. reflexivity.
Qed.

Lemma starts_with_digit_first (c : Ascii.ascii) (line : string) :
  starts_with_digit (String c line) = true -> is_digit c = true.
Proof. exact (fun H => H). Qed.

Lemma signedDigits_spec (line : string) (negative : bool) (m : Z) :
  signedDigits line = Some (negative, m)
  <-> exists sign ds rest,
        line = sign ++ ds ++ rest /\
        (sign = "" /\ negative = false \/
         sign = "+" /\ negative = false \/
         sign = "-" /\ negative = true) /\
        ds <> "" /\ allDigits ds = true /\
        starts_with_digit rest = false /\ m = digits 0 ds.
Proof.
  split.
  - unfold signedDigits. destruct line as [|c line]; [discriminate|].
    destruct (Ascii.eqb_spec c "+") as [->|Np];
      [|destruct (Ascii.eqb_spec c "-") as [->|Nm]];
      match goal with
      | |- option_map _ (someDigits ?l) = _ -> _ =>
          destruct (someDigits l) as [m'|] eqn:E; [|discriminate];
          intros I; injection I as <- <-;
          apply someDigits_spec in E;
          destruct E as (ds & rest & E & N & A & R & D)
      end.
    + exists "+", ds, rest. subst line. repeat split; auto.
    + exists "-", ds, rest. subst line. repeat split; auto.
    + exists "", ds, rest. repeat split; auto.
  - intros (sign & ds & rest & -> & Hsign & N & A & R & ->).
    assert (E : someDigits (ds ++ rest) = Some (digits 0 ds))
      by (apply someDigits_spec; exists ds, rest; auto).
    destruct Hsign as [(-> & ->) | [(-> & ->) | (-> & ->)]].
    + cbn [append]. unfold signedDigits.
      destruct (ds ++ rest) as [|c line] eqn:L.
      { destruct ds; [now elim N | discriminate]. }
      assert (Dc : is_digit c = true).
      { unfold someDigits in E. destruct (starts_with_digit (String c line)) eqn:S0;
          [exact S0 | discriminate]. }
      destruct (Ascii.eqb_spec c "+") as [->|_]; [discriminate|].
      destruct (Ascii.eqb_spec c "-") as [->|_]; [discriminate|].
      rewrite E. reflexivity.
    + cbn [append signedDigits]. rewrite Ascii.eqb_refl, E. reflexivity.
    + cbn [append signedDigits].
      destruct (Ascii.eqb_spec "-" "+") as [C|_]; [discriminate|].
      rewrite Ascii.eqb_refl, E. reflexivity.
Qed.

(** The form of a line that gives a temperature, in the terms of the
    matcher: what [re.match] accepts and what it gives. *)
Lemma temperature_spec (line : string) (temp : float) :
  temperature line = Some temp
  <-> exists bytes sign ds rest negative,
        line = bytes ++ "t=" ++ sign ++ ds ++ rest /\
        isHexBytes 9 bytes = true /\
        (sign = "" /\ negative = false \/
         sign = "+" /\ negative = false \/
         sign = "-" /\ negative = true) /\
        ds <> "" /\ allDigits ds = true /\ starts_with_digit rest = false /\
        temp = (float_of_digits negative (digits 0 ds) / 1000)%float.
Proof.
  unfold temperature, reMatch. split.
  - destruct (hexBytes 9 line) as [afterBytes|] eqn:Hb; [|discriminate].
    destruct (literal "t=" afterBytes) as [afterEquals|] eqn:Hl; [|discriminate].
    destruct (signedDigits afterEquals) as [[negative m]|] eqn:Hs; [|discriminate].
    intros E. injection E as <-.
    apply hexBytes_spec in Hb. destruct Hb as (bytes & Hb & ->).
    apply literal_spec in Hl. subst afterBytes.
    apply signedDigits_spec in Hs.
    destruct Hs as (sign & ds & rest & -> & Hsign & N & A & R & ->).
    exists bytes, sign, ds, rest, negative. repeat split; auto.
  - intros (bytes & sign & ds & rest & negative & -> & Hb & Hsign & N & A & R & ->).
    rewrite (proj2 (hexBytes_spec 9 _ ("t=" ++ sign ++ ds ++ rest)))
      by (exists bytes; auto).
    rewrite (proj2 (literal_spec "t=" _ (sign ++ ds ++ rest))) by reflexivity.
    rewrite (proj2 (signedDigits_spec _ negative (digits 0 ds)))
      by (exists sign, ds, rest; repeat split; auto).
    reflexivity.
Qed.

(** The two character classes are the characters of [0123456789abcdef] and
    of [0123456789]. *)
Lemma is_hex_chars (c : ascii) :
  is_hex c = true <-> In c (list_ascii_of_string "0123456789abcdef").
Proof.
  assert (E : is_hex c
              = existsb (Ascii.eqb c) (list_ascii_of_string "0123456789abcdef"))
    by (destruct c as [[] [] [] [] [] [] [] []]; reflexivity).
  rewrite E, existsb_exists. split.
  - intros (x & Hin & Hx). apply Ascii.eqb_eq in Hx. subst x. exact Hin.
  - intros Hin. exists c. split; [exact Hin | apply Ascii.eqb_refl].
Qed.

Lemma is_digit_chars (c : ascii) :
  is_digit c = true <-> In c (list_ascii_of_string "0123456789").
Proof.
  assert (E : is_digit c
              = existsb (Ascii.eqb c) (list_ascii_of_string "0123456789"))
    by (destruct c as [[] [] [] [] [] [] [] []]; reflexivity).
  rewrite E, existsb_exists. split.
  - intros (x & Hin & Hx). apply Ascii.eqb_eq in Hx. subst x. exact Hin.
  - intros Hin. exists c. split; [exact Hin | apply Ascii.eqb_refl].
Qed.

(** [n] groups of two hexadecimal digits and a space, as a list of pairs of
    characters. *)
Lemma isHexBytes_groups (n : nat) : forall bytes,
  isHexBytes n bytes = true
  <-> exists groups : list (ascii * ascii),
        bytes = string_of_list_ascii
                  (flat_map (fun g => [fst g; snd g; " "%char]) groups) /\
        List.length groups = n /\
        Forall (fun g => In (fst g) (list_ascii_of_string "0123456789abcdef") /\
                         In (snd g) (list_ascii_of_string "0123456789abcdef"))
          groups.
Proof.
  induction n as [|n IH]; intros bytes.
  - split.
    + destruct bytes; [|discriminate]. intros _. exists []. repeat split. constructor.
    + intros (groups & -> & Hlen & _). destruct groups; [reflexivity | discriminate].
  - split.
    + destruct bytes as [|a [|b [|c bytes]]]; try discriminate.
      cbn [isHexBytes]. intros E.
      apply andb_true_iff in E. destruct E as (E & Hrest).
      apply andb_true_iff in E. destruct E as (E & Hc).
      apply andb_true_iff in E. destruct E as (Ha & Hb).
      apply Ascii.eqb_eq in Hc. subst c.
      apply IH in Hrest. destruct Hrest as (groups & -> & Hlen & Hall).
      exists ((a, b) :: groups). split; [reflexivity|].
      split; [cbn [List.length]; rewrite Hlen; reflexivity|].
      constructor; [|exact Hall].
      split; apply is_hex_chars; assumption.
    + intros (groups & -> & Hlen & Hall).
      destruct groups as [|[a b] groups]; [discriminate|].
      inversion Hall as [|? ? (Ha & Hb) Hrest]; subst.
      cbn [flat_map app string_of_list_ascii isHexBytes fst snd] in *.
      rewrite (proj2 (is_hex_chars a) Ha), (proj2 (is_hex_chars b) Hb).
      cbn [andb]. rewrite Ascii.eqb_refl. cbn [andb].
      apply IH. exists groups. split; [reflexivity|].
      split; [injection Hlen as Hlen; exact Hlen | exact Hrest].
Qed.

(** A text of digits only is the decimal writing of a number. *)
Lemma allDigits_uint (ds : string) :
  allDigits ds = true
  <-> exists u, ds = DecimalString.NilEmpty.string_of_uint u.
Proof.
  split.
  - induction ds as [|c ds IH]; [intros _; exists Decimal.Nil; reflexivity|].
    cbn [allDigits]. intros E.
    apply andb_true_iff in E. destruct E as (Hc & Hds).
    destruct (IH Hds) as (u & ->).
    apply is_digit_chars in Hc. cbn [list_ascii_of_string In] in Hc.
    destruct Hc as [<-|[<-|[<-|[<-|[<-|[<-|[<-|[<-|[<-|[<-|[]]]]]]]]]]].
    + exists (Decimal.D0 u). reflexivity.
    + exists (Decimal.D1 u). reflexivity.
    + exists (Decimal.D2 u). reflexivity.
    + exists (Decimal.D3 u). reflexivity.
    + exists (Decimal.D4 u). reflexivity.
    + exists (Decimal.D5 u). reflexivity.
    + exists (Decimal.D6 u). reflexivity.
    + exists (Decimal.D7 u). reflexivity.
    + exists (Decimal.D8 u). reflexivity.
    + exists (Decimal.D9 u). reflexivity.
  - intros (u & ->).
    induction u as [|u IH|u IH|u IH|u IH|u IH|u IH|u IH|u IH|u IH|u IH];
      [reflexivity|..];
      cbn [DecimalString.NilEmpty.string_of_uint allDigits]; rewrite IH;
      reflexivity.
Qed.

Lemma digits_digit (c : ascii) (rest : string) (acc : Z) :
  is_digit c = true ->
  digits acc (String c rest)
  = digits (10 * acc + Z.of_nat (nat_of_ascii c - 48)) rest.
Proof. intros E. cbn [digits]. rewrite E. reflexivity. Qed.

(** The value that [digits] gives to the decimal writing of a number is
    that number. *)
Lemma digits_uint_acc (u : Decimal.uint) : forall acc : positive,
  digits (Z.pos acc) (DecimalString.NilEmpty.string_of_uint u)
  = Z.pos (Pos.of_uint_acc u acc).
Proof.
  induction u as [|u IH|u IH|u IH|u IH|u IH|u IH|u IH|u IH|u IH|u IH];
    intros acc; [reflexivity|..];
    cbn [DecimalString.NilEmpty.string_of_uint Pos.of_uint_acc];
    rewrite digits_digit by reflexivity; rewrite <- IH; f_equal;
    match goal with
    | |- context [Z.of_nat ?n] =>
        let v := eval vm_compute in (Z.of_nat n) in
        change (Z.of_nat n) with v
    end; lia.
Qed.

Lemma digits_uint (u : Decimal.uint) :
  digits 0 (DecimalString.NilEmpty.string_of_uint u) = Z.of_uint u.
Proof.
  unfold Z.of_uint.
  induction u as [|u IH|u IH|u IH|u IH|u IH|u IH|u IH|u IH|u IH|u IH];
    [reflexivity|..];
    cbn [DecimalString.NilEmpty.string_of_uint Pos.of_uint];
    rewrite digits_digit by reflexivity;
    [exact IH|..];
    cbn [Z.of_N]; rewrite <- digits_uint_acc; reflexivity.
Qed.

Lemma starts_with_digit_chars (rest : string) :
  starts_with_digit rest = false
  <-> forall c rest', rest = String c rest' ->
        ~ In c (list_ascii_of_string "0123456789").
Proof.
  destruct rest as [|c rest]; cbn [starts_with_digit].
  - split; [intros _ ? ? E; discriminate | reflexivity].
  - split.
    + intros E c' rest' Heq Hin. injection Heq as <- <-.
      apply is_digit_chars in Hin. congruence.
    + intros Hnot. destruct (is_digit c) eqn:E; [|reflexivity].
      exfalso. apply (Hnot c rest eq_refl), is_digit_chars, E.
Qed.

(** X14.  [_updateData] takes a temperature from the second line of the
    sensor file exactly when the line starts with nine groups of two
    characters of [0123456789abcdef] and a space, then [t=], an optional sign
    and the decimal writing of a number, of at least one digit and followed
    by no further digit; the temperature is then the float nearest to that
    number with its sign, divided by 1000, and what follows the digits is
    ignored.  Of the sensor only [_sensorData] changes, to that temperature;
    when the file cannot be read or the line has another form, the sensor is
    left as it is. *)
Theorem temperature_of_sensor_file (line : string) (temp : float) :
  (temperature line = Some temp
   <-> exists (groups : list (ascii * ascii)) (sign : string)
              (u : Decimal.uint) (rest : string) (negative : bool),
         line = string_of_list_ascii
                  (flat_map (fun g => [fst g; snd g; " "%char]) groups)
                ++ "t=" ++ sign ++ DecimalString.NilEmpty.string_of_uint u
                ++ rest /\
         List.length groups = 9%nat /\
         Forall (fun g => In (fst g) (list_ascii_of_string "0123456789abcdef") /\
                          In (snd g) (list_ascii_of_string "0123456789abcdef"))
           groups /\
         (sign = "" /\ negative = false \/
          sign = "+" /\ negative = false \/
          sign = "-" /\ negative = true) /\
         u <> Decimal.Nil /\
         (forall c rest', rest = String c rest' ->
            ~ In c (list_ascii_of_string "0123456789")) /\
         temp = (SF2Prim
                   (binary_normalize prec emax
                      (if negative then - Z.of_uint u else Z.of_uint u) 0
                      negative) / 1000)%float)
  /\
  (forall s,
     _updateData_file None s = s /\
     (temperature line = None -> _updateData_file (Some line) s = s) /\
     (temperature line = Some temp ->
      _updateData_file (Some line) s
      = DS18b20.mk (DS18b20.base s) (DS18b20.sensorFile s)
          (DS18b20.sensorName s) (DS18b20.interval s) (DS18b20.lastUpdate s)
          (DS18b20.hasThreshold s) (DS18b20.threshold s) (DS18b20.ordering s)
          (DS18b20.refreshInterval s) (DS18b20.lastTemperatureUpdate s) temp)).
Proof.
  split.
  - rewrite temperature_spec. split.
    + intros (bytes & sign & ds & rest & negative
              & -> & Hb & Hsign & N & A & R & ->).
      apply isHexBytes_groups in Hb. destruct Hb as (groups & -> & Hlen & Hall).
      apply allDigits_uint in A. destruct A as (u & ->).
      exists groups, sign, u, rest, negative.
      split; [reflexivity|]. split; [exact Hlen|]. split; [exact Hall|].
      split; [exact Hsign|].
      split; [intros ->; apply N; reflexivity|].
      split; [apply starts_with_digit_chars, R|].
      unfold float_of_digits. rewrite digits_uint. reflexivity.
    + intros (groups & sign & u & rest & negative
              & -> & Hlen & Hall & Hsign & N & R & ->).
      exists (string_of_list_ascii
                (flat_map (fun g => [fst g; snd g; " "%char]) groups)),
        sign, (DecimalString.NilEmpty.string_of_uint u), rest, negative.
      split; [reflexivity|].
      split; [apply isHexBytes_groups; exists groups; auto|].
      split; [exact Hsign|].
      split; [destruct u; try discriminate; contradiction|].
      split; [apply allDigits_uint; exists u; reflexivity|].
      split; [apply starts_with_digit_chars, R|].
      unfold float_of_digits. rewrite digits_uint. reflexivity.
  - intros s. unfold _updateData_file. split; [reflexivity|]. split.
    + intros ->. reflexivity.
    + intros ->. reflexivity.
Qed.

End SensorFileFacts.

(* ===================================================================== *)
(** * The further properties on the sample configurations *)
(* ===================================================================== *)

Section MoreSamples.

(** The sample polling sensor wants 3 reads: after a read of 0, two reads of
    1 leave the state 0 and the third makes it 1. *)
Lemma polling_debounce_after_matching_read_witness :
  GPIOPolling.getState (GPIOPolling.updateStates [0; 1; 1] Sample.polling) = 0 /\
  GPIOPolling.getState (GPIOPolling.updateStates [0; 1; 1; 1] Sample.polling) = 1.
Proof.
  assert (Hdiff : Forall (fun r => r <> GPIOPolling.getState Sample.polling) [1; 1])
    by (repeat constructor; discriminate).
  destruct (polling_debounce_after_matching_read Sample.polling 0 [1; 1]
              eq_refl Hdiff) as (Hshort & Hflip).
  split.
  - apply Hshort. reflexivity.
  - apply (Hflip 1); [discriminate | reflexivity].
Defined.

(** The sample interrupt sensor under a burst of edges and polls. *)
Lemma interrupt_states_stay_binary_witness :
  let s := interruptRun [Edge 1000; Edge 1001; Poll 1001; Edge 1002; Poll 1003;
                         Poll 1020] (Sample.interrupt 3) in
  (state (GPIOInterrupt.base s) = 1 \/ state (GPIOInterrupt.base s) = 1 - 1) /\
  GPIOInterrupt.edgeCountBeforeTrigger s = 3.
Proof.
  intro s.
  assert (Hinit : GPIOInterrupt.initializeSensor (Sample.interruptConfig 3)
                  = Some (Sample.interrupt 3)) by reflexivity.
  assert (Hc : 0 <= GPIOInterrupt.edgeCounter (Sample.interruptConfig 3))
    by (vm_compute; discriminate).
  destruct (interrupt_states_stay_binary (Sample.interruptConfig 3)
              (Sample.interrupt 3)
              [Edge 1000; Edge 1001; Poll 1001; Edge 1002; Poll 1003; Poll 1020]
              Hinit Hc) as (_ & Hs & _ & _ & _ & _ & He).
  split; [exact Hs | exact He].
Defined.

(** Triggered at 1000 for 10 seconds: the polls at 1003 and 1010 read 1,
    those at 1011 and 1012 read 0. *)
Lemma interrupt_triggered_then_normal_witness :
  map GPIOInterrupt.getState
    (interruptUpdates [1003; 1010; 1011; 1012] Sample2.triggeredInterrupt)
  = [1; 1; 0; 0].
Proof.
  assert (Hws : Forall (fun u => u - GPIOInterrupt.lastTimeTriggered
                                       Sample2.triggeredInterrupt
                                 <= GPIOInterrupt.timeSensorTriggered
                                      Sample2.triggeredInterrupt) [1003; 1010])
    by (repeat constructor; vm_compute; discriminate).
  assert (Hlate : 1011 - GPIOInterrupt.lastTimeTriggered Sample2.triggeredInterrupt
                  > GPIOInterrupt.timeSensorTriggered Sample2.triggeredInterrupt)
    by reflexivity.
  exact (interrupt_triggered_then_normal [1003; 1010] [1012] 1011
           Sample2.triggeredInterrupt eq_refl eq_refl Hws Hlate).
Defined.

(** The sample thermometer, triggered above 30 degrees, normal and holding
    31 degrees: it is triggered after [updateState()]. *)
Lemma thermometer_state_tracks_threshold_witness :
  state (DS18b20.base
           (fst (DS18b20.updateState_at 1001 (Sample.thermometerAt 0 31%float)))) = 1.
Proof.
  assert (Ho : DS18b20.ordering (Sample.thermometerAt 0 31%float) <> Ordering.Other)
    by discriminate.
  destruct (thermometer_state_tracks_threshold 1001 (Sample.thermometerAt 0 31%float)
              eq_refl Ho eq_refl) as (Hiff & _).
  apply (proj2 Hiff). reflexivity.
Defined.

(** The sample option request, with a socket that accepts the reply and a
    server that accepts the option, is answered with [ok]. *)
Lemma handle_reply_table_witness :
  LocalServer.handle Sample.json_loads Sample.py_str Sample.py_float Sample.py_int
    1700000000 (fun _ => true) (fun _ _ _ => true) "request"
  = ([LocalServer.ok_response 1700000000], LocalServer.Return).
Proof.
  destruct (handle_reply_table Sample.json_loads Sample.py_str Sample.py_float
              Sample.py_int 1700000000 (fun _ => true) (fun _ _ _ => true)
              "request"
              [("message"%string, LocalServer.JString "option");
               ("payload"%string, LocalServer.JObject Sample2.optionPayload)]
              (LocalServer.JString "option") eq_refl eq_refl (fun _ => eq_refl))
    as (_ & Hoption).
  destruct (Hoption eq_refl) as (Hwell & _).
  exact (Hwell Sample2.optionPayload
           (LocalServer.JString "alertSystemActive") (LocalServer.JFloat 1%float)
           (LocalServer.JInt 0) "alertSystemActive"%string 1%float 0
           eq_refl eq_refl eq_refl eq_refl eq_refl eq_refl eq_refl).
Defined.

(** The committed sample interrupt sensor in a run of [execute] whose full
    state was last sent at 1000: an alert with state 1 at the pass at 1002,
    nothing at 1003 and 1010, a state change with state 0 at 1011, nothing
    at 1012. *)
Lemma interrupt_trigger_sends_one_event_each_way_witness :
  map sensorSenders
    (SensorExecuter.passes [Sample3.pass 1002 0; Sample3.pass 1003 0; Sample3.pass 1010 0;
             Sample3.pass 1011 0; Sample3.pass 1012 0]
       (SensorExecuter.mkExecuter [Sample2.committedInterrupt] 1000))
  = [[SensorExecuter.sendSensorAlert
        (mkSensorAlert 7 1 false None true false SensorDataType.NONE DataNone)];
     []; [];
     [SensorExecuter.sendStateChange (mkStateChange 7 0 SensorDataType.NONE DataNone)];
     []].
Proof.
  assert (Hall : Forall (fun c => SensorExecuter.isConnected c = true)
                   (Sample3.pass 1002 0
                    :: [Sample3.pass 1003 0; Sample3.pass 1010 0]
                    ++ Sample3.pass 1011 0 :: [Sample3.pass 1012 0]))
    by (repeat constructor).
  assert (Hcs : Forall (fun c => utcTimestamp (SensorExecuter.pollWorld c O)
                                 - GPIOInterrupt.lastTimeTriggered
                                     Sample2.committedInterrupt
                                 <= GPIOInterrupt.timeSensorTriggered
                                      Sample2.committedInterrupt)
                  [Sample3.pass 1003 0; Sample3.pass 1010 0])
    by (repeat constructor; vm_compute; discriminate).
  assert (Hlate : utcTimestamp (SensorExecuter.pollWorld (Sample3.pass 1011 0) O)
                  - GPIOInterrupt.lastTimeTriggered Sample2.committedInterrupt
                  > GPIOInterrupt.timeSensorTriggered Sample2.committedInterrupt)
    by reflexivity.
  exact (interrupt_trigger_sends_one_event_each_way
           (Sample3.pass 1002 0) (Sample3.pass 1011 0)
           [Sample3.pass 1003 0; Sample3.pass 1010 0] [Sample3.pass 1012 0]
           Sample2.committedInterrupt 1000 Hall eq_refl eq_refl eq_refl Hcs Hlate).
Defined.

(** Edges at 1000, 1010 and 1100, each more than 5 seconds after the one
    before: the sample sensor set to a single edge stays normal. *)
Lemma interrupt_isolated_edges_never_trigger_witness :
  state (GPIOInterrupt.base
           (interruptRun [Edge 1000; Poll 1000; Edge 1010; Poll 1011; Edge 1100;
                          Poll 1100] (Sample.interrupt 1))) = 0.
Proof.
  assert (Hsp : spaced (GPIOInterrupt.delayBetweenTriggers (Sample.interrupt 1))
                  (GPIOInterrupt.lastTimeTriggered (Sample.interrupt 1)
                   :: edgeTimes [Edge 1000; Poll 1000; Edge 1010; Poll 1011;
                                 Edge 1100; Poll 1100]))
    by (simpl; repeat split; reflexivity).
  exact (proj1 (interrupt_isolated_edges_never_trigger
                  [Edge 1000; Poll 1000; Edge 1010; Poll 1011; Edge 1100; Poll 1100]
                  (Sample.interrupt 1) eq_refl eq_refl Hsp)).
Defined.

End MoreSamples.
